(** * pump_fun_bot.py: the position lifecycle of the trading bot

    A shallow embedding of [src/pump_fun_bot.py]: the screening chain of
    [monitor_and_trade], [buy_token], [sell_token] and the per-position
    watcher [monitor_price], over the module-level dictionary
    [open_positions].

    - Python [float] is IEEE 754 binary64, modelled with [spec_float]
      (53-bit precision, round to nearest even), so every arithmetic
      step of the source can be evaluated bit for bit.
    - The body of a [try] block is a computation in a state-and-exception
      monad over the [World] (the dictionary, the watcher tasks and the
      trace of effects); [except Exception] is [try_except].
    - Calls that leave the process (order book, order submission, clock,
      risk and social lookups, the SMTP session of [send_email]) take
      their outcome from an environment record, one field per call site.
    - Text that comes from outside (token names, transaction signatures,
      the text of exceptions) may hold characters that UTF-8 cannot
      encode; [send_email] raises on them when it composes its message.
    - asyncio is cooperative: code between two [await asyncio.sleep]
      runs without interleaving, so a discovery pass and a watcher
      resumption are the atomic steps of the system. *)

From Stdlib Require Import ZArith Bool Lia.
From Stdlib Require Import Floats.SpecFloat.
From stdpp Require Import gmap strings list fin_maps.

Open Scope Z_scope.

(** ** Python numbers *)

Module PyFloat.

Definition prec : Z := 53.
Definition emax : Z := 1024.

Abbreviation float := spec_float.

(** [float(z)] for a Python [int]. *)
Definition of_int (z : Z) : float := binary_normalize prec emax z 0 false.

Definition mul : float -> float -> float := SFmul prec emax.
Definition sub : float -> float -> float := SFsub prec emax.
Definition ltb : float -> float -> bool := SFltb.
Definition leb : float -> float -> bool := SFleb.
(** [x >= y] *)
Definition geb (x y : float) : bool := SFleb y x.
Definition eqb : float -> float -> bool := SFeqb.

Definition is_nan (x : float) : bool :=
  match x with S754_nan => true | _ => false end.

(** A Python [int] as an unrounded significand with exponent 0. *)
Definition raw_int (z : Z) : float :=
  match z with
  | Z0 => S754_zero false
  | Zpos p => S754_finite false p 0
  | Zneg p => S754_finite true p 0
  end.

(** The exact value of a finite float, as a fraction [n / 2^k];
    [None] for infinities and NaN. *)
Definition to_fraction (x : float) : option (Z * Z) :=
  match x with
  | S754_zero _ => Some (0, 1)
  | S754_finite s m e =>
      let n := cond_Zopp s (Zpos m) in
      Some (if 0 <=? e then (n * 2 ^ e, 1) else (n, 2 ^ (- e)))
  | _ => None
  end.

(** [x == a / b] as exact numbers (b > 0). *)
Definition exactly (x : float) (a b : Z) : bool :=
  match to_fraction x with
  | Some (n, d) => n * b =? a * d
  | None => false
  end.

(** [math.floor(x * 10^digits)] computed exactly: the decimal
    truncation of a non-negative float to [digits] fractional digits. *)
Definition trunc_decimal (digits : Z) (x : float) : option Z :=
  match to_fraction x with
  | Some (n, d) => Some ((n * 10 ^ digits) / d)
  | None => None
  end.

End PyFloat.

Import PyFloat.

(** ** Exceptions and the monad of a [try] body *)

Inductive exn : Type :=
| ZeroDivisionError
| KeyError (key : string)
| ValueError
| OverflowError
| UnicodeEncodeError
| ExternalError (what : string).   (* raised inside a library or network call *)

Inductive outcome (A : Type) : Type :=
| Ret (a : A)
| Raise (e : exn).
Arguments Ret {A} a.
Arguments Raise {A} e.

(** ** Text *)

(** A Python [str] is held as its bytes under UTF-8 with the
    [surrogatepass] handler: ASCII text is itself, and a lone surrogate
    (U+D800 to U+DFFF), which strict UTF-8 refuses, is the byte [0xED]
    followed by a byte from [0xA0] to [0xBF] and one more.  Nowhere else
    does [0xED] come before such a byte. *)
Definition surrogate_at (c1 c2 : Ascii.ascii) : bool :=
  (Ascii.nat_of_ascii c1 =? 237)%nat
  && (160 <=? Ascii.nat_of_ascii c2)%nat && (Ascii.nat_of_ascii c2 <=? 191)%nat.

Fixpoint has_surrogate (s : string) : bool :=
  match s with
  | String c1 ((String c2 _) as rest) => surrogate_at c1 c2 || has_surrogate rest
  | _ => false
  end.

(** [s.encode('utf-8')] succeeds. *)
Definition encodable (s : string) : bool := negb (has_surrogate s).

(** [str(e)] can be encoded.  The text of the built-in exceptions is
    ASCII: [KeyError] shows the [repr] of its key and
    [UnicodeEncodeError] escapes the character it names.  An exception
    from a library or network call carries the text it was raised
    with. *)
Definition text_encodable (e : exn) : bool :=
  match e with
  | ExternalError what => encodable what
  | _ => true
  end.

(** ** Data *)

(** A token dictionary as produced by [fetch_new_tokens].  [launch_time]
    is a naive UTC [datetime], counted in microseconds. *)
Record Token : Type := {
  name : string;
  contract_address : string;
  launch_time : Z;
  market_cap : Z;
  has_live_streams : bool
}.

(** A value of [open_positions]. *)
Record Position : Type := {
  initial_price : float;
  amount : float
}.

Inductive Side : Type := Buy | Sell.

(** The keyword arguments of [market.make_order] that vary. *)
Record Order : Type := {
  side : Side;
  limit_price : float;
  max_quantity : float;
  client_id : Z
}.

(** The JSON dictionary returned by [send_transaction]. *)
Abbreviation Response := (gmap string string).

Inductive level : Type := INFO | WARNING | ERROR.

(** The mails of the bot, by call site of [send_email]. *)
Inductive mail : Type :=
| Bought (n : string) (quantity price : float) (signature : string)
| BuyFailed (n : string) (e : exn)
| Sold (n : string) (amount_tokens price : float) (signature : string)
| SellFailed (n : string) (e : exn)
| MonitoringError (n : string) (e : exn)
| BotError (e : exn).

(** [MIMEText(body, 'plain')] can encode the body.  The bodies of the
    buy and sell mails hold the token name and the signature or the
    error text; those of the two error mails hold the error text only
    (the name in the subject of "Price Monitoring Error" is not part of
    the body). *)
Definition builds (m : mail) : bool :=
  match m with
  | Bought n _ _ signature | Sold n _ _ signature =>
      encodable n && encodable signature
  | BuyFailed n e | SellFailed n e => encodable n && text_encodable e
  | MonitoringError _ e | BotError e => text_encodable e
  end.

Inductive log_msg : Type :=
| NoBids (n : string)
| Buying (n : string) (quantity price min_quantity : float)
| BuySent (signature : string)
| BuyError (n : string) (e : exn)
| NoAsks (n : string)
| BelowTarget (n : string) (current target : float)
| Selling (n : string) (amount_tokens price min_sol : float)
| SellSent (signature : string)
| SellError (n : string) (e : exn)
| Monitoring (n : string) (p0 : float)
| NoAsksMonitor (n : string)
| CurrentPrice (n : string) (price : float)
| TargetReached (n : string)
| MonitorError (n : string) (e : exn)
| SkipLaunchTime (n : string) (age_hours : float)
| SkipMarketCap (n : string) (cap : Z)
| SkipLiveStreams (n : string)
| SkipRugPull (n : string)
| SkipSocialMedia (n : string)
| AlreadyHolding (n : string)
| RugSafe (address : string)
| RugFlagged (address : string)
| RugApiError (status : Z)
| RugException (e : exn)
| SocialFound (address : string) (accounts : list string)
| SocialNone (address : string)
| SocialApiError (status : Z)
| SocialException (e : exn)
| Fetched (count : nat)
| LoopError (e : exn)
| SleepingTenMinutes
| CredentialsNotSet
| EmailSent (m : mail)
| EmailFailed (e : exn).

(** Everything the code does to the outside, in program order. *)
Inductive event : Type :=
| Log (l : level) (m : log_msg)
| Email (m : mail)              (* [send_email] composed [m] and starts its SMTP session *)
| LoadBids
| LoadAsks
| MakeOrder (o : Order)
| SendTransaction (o : Order)
| Sleep (seconds : Z)
| HttpPost (address : string)
| HttpGet (address : string).

(** An asyncio task running [monitor_price(token)]: created but not yet
    run, or suspended in its loop holding the locals [initial_price] and
    [amount_tokens] it read when it started. *)
Inductive Task : Type :=
| Spawned (t : Token)
| Watching (t : Token) (p0 amount_tokens : float).

Definition task_token (k : Task) : Token :=
  match k with Spawned t => t | Watching t _ _ => t end.

Definition task_address (k : Task) : string := contract_address (task_token k).

(** The state of the module: whether [EMAIL_USER], [EMAIL_PASS] and
    [EMAIL_RECIPIENT] are all set (read from the environment at import
    and never assigned again), the dictionary, the tasks of the event
    loop that run [monitor_price], and the effects so far (most recent
    last). *)
Record World : Type := {
  email_configured : bool;
  open_positions : gmap string Position;
  tasks : list Task;
  trace : list event
}.

Definition M (A : Type) : Type := World -> outcome A * World.

Definition ret {A} (a : A) : M A := fun w => (Ret a, w).
Definition raise {A} (e : exn) : M A := fun w => (Raise e, w).
Definition bind {A B} (c : M A) (k : A -> M B) : M B :=
  fun w => match c w with
           | (Ret a, w') => k a w'
           | (Raise e, w') => (Raise e, w')
           end.
Definition lift {A} (o : outcome A) : M A := fun w => (o, w).

Notation "'let*' x ':=' c 'in' k" := (bind c (fun x => k))
  (at level 10, x name, c at level 100, k at level 200).
Notation "c ';;;' k" := (bind c (fun _ => k))
  (at level 100, k at level 200, right associativity).

(** [try: body except Exception as e: handler e].  What the body did
    before raising stays done. *)
Definition try_except {A} (body : M A) (handler : exn -> M A) : M A :=
  fun w => match body w with
           | (Ret a, w') => (Ret a, w')
           | (Raise e, w') => handler e w'
           end.

Definition emit (ev : event) : M unit :=
  fun w => (Ret tt, {| email_configured := email_configured w;
                       open_positions := open_positions w;
                       tasks := tasks w;
                       trace := trace w ++ [ev] |}).

Definition logger (l : level) (m : log_msg) : M unit := emit (Log l m).

(** [send_email(subject, body)].  Without credentials it logs a
    warning and returns.  Otherwise it composes the message, outside any
    [try]: [MIMEText] raises when the body cannot be encoded.  The SMTP
    session runs inside a [try]; [smtp] is what the session gives. *)
Definition send_email (smtp : outcome unit) (m : mail) : M unit :=
  fun w =>
    if negb (email_configured w) then
      logger WARNING CredentialsNotSet w
    else if negb (builds m) then
      (Raise UnicodeEncodeError, w)
    else
      try_except
        (emit (Email m) ;;;
         lift smtp ;;;
         logger INFO (EmailSent m))
        (fun e => logger ERROR (EmailFailed e)) w.

(** [open_positions[k] = v] *)
Definition setitem (k : string) (v : Position) : M unit :=
  fun w => (Ret tt, {| email_configured := email_configured w;
                       open_positions := <[k := v]> (open_positions w);
                       tasks := tasks w;
                       trace := trace w |}).

(** [del open_positions[k]] *)
Definition delitem (k : string) : M unit :=
  fun w => match open_positions w !! k with
           | Some _ => (Ret tt, {| email_configured := email_configured w;
                                   open_positions := delete k (open_positions w);
                                   tasks := tasks w;
                                   trace := trace w |})
           | None => (Raise (KeyError k), w)
           end.

(** [response['result']] *)
Definition getitem (r : Response) (k : string) : outcome string :=
  match r !! k with
  | Some v => Ret v
  | None => Raise (KeyError k)
  end.

(** ** Python arithmetic used by the bot *)

(** [x / y] on floats. *)
Definition truediv (x y : float) : outcome float :=
  if eqb y (S754_zero false) then Raise ZeroDivisionError
  else Ret (SFdiv prec emax x y).

(** [a / b] on ints: the correctly rounded quotient.  The call sites
    divide 1 by 100 and the microseconds of a [timedelta] by [10^6];
    both quotients are within the range of [float]. *)
Definition int_truediv (a b : Z) : outcome float :=
  if b =? 0 then Raise ZeroDivisionError
  else Ret (SFdiv prec emax (raw_int a) (raw_int b)).

(** [int(x)]: truncation toward zero. *)
Definition py_int (x : float) : outcome Z :=
  match x with
  | S754_nan => Raise ValueError
  | S754_infinity _ => Raise OverflowError
  | S754_zero _ => Ret 0
  | S754_finite s m e => Ret (cond_Zopp s (Z.shiftl (Zpos m) e))
  end.

Definition SLIPPAGE_PERCENT : Z := 1.
Definition PROFIT_MULTIPLIER : Z := 5.

(** [SLIPPAGE_PERCENT / 100] *)
Definition slippage_fraction : outcome float := int_truediv SLIPPAGE_PERCENT 100.

(** [slippage_amount = quantity * (SLIPPAGE_PERCENT / 100)],
    [min_quantity = quantity - slippage_amount] *)
Definition min_quantity (quantity : float) : outcome float :=
  match slippage_fraction with
  | Ret f => Ret (sub quantity (mul quantity f))
  | Raise e => Raise e
  end.

(** [min_sol = (current_price * amount_tokens) - (current_price * slippage_amount)] *)
Definition min_sol (current_price amount_tokens : float) : outcome float :=
  match slippage_fraction with
  | Ret f => Ret (sub (mul current_price amount_tokens)
                      (mul current_price (mul amount_tokens f)))
  | Raise e => Raise e
  end.

(** [initial_price * PROFIT_MULTIPLIER] *)
Definition target_price (p0 : float) : float := mul p0 (of_int PROFIT_MULTIPLIER).

(** ** The venue: order book and order submission *)

(** [market.load_bids().top_bid()] / [market.load_asks().top_ask()]:
    the call raises, the book side is empty, or the best entry
    [(price, size)] is returned. *)
Abbreviation BookTop := (outcome (option (float * float))).

Definition load_bids_top_bid (r : BookTop) : M (option (float * float)) :=
  emit LoadBids ;;; lift r.

Definition load_asks_top_ask (r : BookTop) : M (option (float * float)) :=
  emit LoadAsks ;;; lift r.

(** [market.make_order(...)]: builds the order or raises. *)
Definition make_order (fails : option exn) (o : Order) : M Order :=
  emit (MakeOrder o) ;;;
  match fails with
  | None => ret o
  | Some e => raise e
  end.

(** [solana_client.send_transaction(txn, keypair)] *)
Definition send_transaction (r : outcome Response) (o : Order) : M Response :=
  emit (SendTransaction o) ;;; lift r.

(** What the outside answers during one call of [buy_token] or
    [sell_token]: the top of the book, [time.time()], whether
    [make_order] raises, the reply to [send_transaction], and the SMTP
    session of the one mail the call may send. *)
Record VenueEnv : Type := {
  book_top : BookTop;
  clock : float;
  make_order_fails : option exn;
  send_reply : outcome Response;
  smtp_reply : outcome unit
}.

(** ** [buy_token] *)

Definition buy_token_body (env : VenueEnv) (token : Token) (amount_sol : float)
  : M bool :=
  let* best_bid := load_bids_top_bid (book_top env) in
  match best_bid with
  | None =>
      logger WARNING (NoBids (name token)) ;;;
      ret false
  | Some bb =>
      let price := fst bb in
      let* quantity := lift (truediv amount_sol price) in
      let* min_q := lift (min_quantity quantity) in
      logger INFO (Buying (name token) quantity price min_q) ;;;
      let* cid := lift (py_int (clock env)) in
      let* order := make_order (make_order_fails env)
                      {| side := Buy; limit_price := price;
                         max_quantity := quantity; client_id := cid |} in
      let* response := send_transaction (send_reply env) order in
      let* signature := lift (getitem response "result") in
      logger INFO (BuySent signature) ;;;
      setitem (contract_address token)
              {| initial_price := price; amount := quantity |} ;;;
      send_email (smtp_reply env)
                 (Bought (name token) quantity price signature) ;;;
      ret true
  end.

Definition buy_token (env : VenueEnv) (token : Token) (amount_sol : float)
  : M bool :=
  try_except (buy_token_body env token amount_sol)
    (fun e =>
       logger ERROR (BuyError (name token) e) ;;;
       send_email (smtp_reply env) (BuyFailed (name token) e) ;;;
       ret false).

(** ** [sell_token] *)

Definition sell_token_body (env : VenueEnv) (token : Token)
    (initial_price amount_tokens : float) : M bool :=
  let target := target_price initial_price in
  let* best_ask := load_asks_top_ask (book_top env) in
  match best_ask with
  | None =>
      logger WARNING (NoAsks (name token)) ;;;
      ret false
  | Some ba =>
      let current_price := fst ba in
      if ltb current_price target then
        logger INFO (BelowTarget (name token) current_price target) ;;;
        ret false
      else
        let* floor := lift (min_sol current_price amount_tokens) in
        logger INFO (Selling (name token) amount_tokens current_price floor) ;;;
        let* cid := lift (py_int (clock env)) in
        let* order := make_order (make_order_fails env)
                        {| side := Sell; limit_price := current_price;
                           max_quantity := amount_tokens; client_id := cid |} in
        let* response := send_transaction (send_reply env) order in
        let* signature := lift (getitem response "result") in
        logger INFO (SellSent signature) ;;;
        delitem (contract_address token) ;;;
        send_email (smtp_reply env)
                   (Sold (name token) amount_tokens current_price signature) ;;;
        ret true
  end.

Definition sell_token (env : VenueEnv) (token : Token)
    (initial_price amount_tokens : float) : M bool :=
  try_except (sell_token_body env token initial_price amount_tokens)
    (fun e =>
       logger ERROR (SellError (name token) e) ;;;
       send_email (smtp_reply env) (SellFailed (name token) e) ;;;
       ret false).

(** ** [monitor_price] *)

(** What the outside answers during one pass of the [while True] loop:
    the watcher's own reading of the ask side, whatever [sell_token]
    meets if it is called, and the SMTP session of the mail of the
    watcher's own [except] clause. *)
Record MonitorEnv : Type := {
  watch_top : BookTop;
  sell_env : VenueEnv;
  watch_smtp : outcome unit
}.

Inductive loop_ctl : Type := Continue | Break.

(** The three statements before the loop.  [open_positions[address]]
    raises [KeyError] outside any [try]. *)
Definition monitor_price_start (token : Token) : M (float * float) :=
  fun w => match open_positions w !! contract_address token with
           | Some pos =>
               (logger INFO (Monitoring (name token) (initial_price pos)) ;;;
                ret (initial_price pos, amount pos)) w
           | None => (Raise (KeyError (contract_address token)), w)
           end.

(** One pass of the loop body, up to the next [await asyncio.sleep(300)]
    or the [break]. *)
Definition monitor_price_pass (env : MonitorEnv) (token : Token)
    (initial_price amount_tokens : float) : M loop_ctl :=
  try_except
    (let* best_ask := load_asks_top_ask (watch_top env) in
     match best_ask with
     | None =>
         logger WARNING (NoAsksMonitor (name token)) ;;;
         emit (Sleep 300) ;;;
         ret Continue
     | Some ba =>
         let current_price := fst ba in
         logger INFO (CurrentPrice (name token) current_price) ;;;
         if geb current_price (mul initial_price (of_int PROFIT_MULTIPLIER)) then
           logger INFO (TargetReached (name token)) ;;;
           let* sold := sell_token (sell_env env) token initial_price amount_tokens in
           ret Break
         else
           emit (Sleep 300) ;;;
           ret Continue
     end)
    (fun e =>
       logger ERROR (MonitorError (name token) e) ;;;
       send_email (watch_smtp env) (MonitoringError (name token) e) ;;;
       emit (Sleep 300) ;;;
       ret Continue).

(** A task runs from where it was suspended to its next suspension:
    [Some k] is the task suspended again, [None] a task that has ended
    (by [break], or by an exception that escaped). *)
Definition resume (env : MonitorEnv) (k : Task) : M (option Task) :=
  fun w =>
    match k with
    | Spawned token =>
        match monitor_price_start token w with
        | (Ret (p0, amt), w1) =>
            match monitor_price_pass env token p0 amt w1 with
            | (Ret Continue, w2) => (Ret (Some (Watching token p0 amt)), w2)
            | (Ret Break, w2) => (Ret None, w2)
            | (Raise e, w2) => (Ret None, w2)
            end
        | (Raise e, w1) => (Ret None, w1)
        end
    | Watching token p0 amt =>
        match monitor_price_pass env token p0 amt w with
        | (Ret Continue, w2) => (Ret (Some (Watching token p0 amt)), w2)
        | (Ret Break, w2) => (Ret None, w2)
        | (Raise e, w2) => (Ret None, w2)
        end
    end.

(** ** Screening collaborators *)

Record HttpResponse (A : Type) : Type := {
  status_code : Z;
  json : outcome A
}.
Arguments status_code {A} _.
Arguments json {A} _.

(** [check_rug_pull]: the reply carries the truth value of
    [data.get('isRugPull', False)]. *)
Definition check_rug_pull (reply : outcome (HttpResponse bool))
    (contract_address : string) : M bool :=
  try_except
    (emit (HttpPost contract_address) ;;;
     let* response := lift reply in
     if status_code response =? 200 then
       let* is_rug_pull := lift (json response) in
       let is_safe := negb is_rug_pull in
       (if is_safe then logger INFO (RugSafe contract_address)
        else logger WARNING (RugFlagged contract_address)) ;;;
       ret is_safe
     else
       logger ERROR (RugApiError (status_code response)) ;;;
       ret false)
    (fun e => logger ERROR (RugException e) ;;; ret false).

(** [check_social_media]: the reply carries the keys of
    [data.get('socialMedia', {})]. *)
Definition check_social_media (reply : outcome (HttpResponse (list string)))
    (contract_address : string) : M bool :=
  try_except
    (emit (HttpGet contract_address) ;;;
     let* response := lift reply in
     if status_code response =? 200 then
       let* social_media := lift (json response) in
       if (1 <=? length social_media)%nat then
         logger INFO (SocialFound contract_address social_media) ;;;
         ret true
       else
         logger WARNING (SocialNone contract_address) ;;;
         ret false
     else
       logger ERROR (SocialApiError (status_code response)) ;;;
       ret false)
    (fun e => logger ERROR (SocialException e) ;;; ret false).

(** ** [time_since_launch] *)

(** [diff.total_seconds() / 3600], with [diff = now - launch_time] a
    [timedelta] (a whole number of microseconds). *)
Definition time_since_launch (now launch_time : Z) : outcome float :=
  match int_truediv (now - launch_time) (10 ^ 6) with
  | Ret total_seconds => truediv total_seconds (of_int 3600)
  | Raise e => Raise e
  end.

(** ** [monitor_and_trade] *)

(** What the outside answers while one token goes through the loop
    body: [get_current_time()], the two lookups, and the venue if
    [buy_token] is reached. *)
Record TokenEnv : Type := {
  now : Z;
  rug_reply : outcome (HttpResponse bool);
  social_reply : outcome (HttpResponse (list string));
  buy_env : VenueEnv
}.

(** [token['contract_address'] in open_positions] *)
Definition contains (k : string) : M bool :=
  fun w => (Ret (bool_decide (is_Some (open_positions w !! k))), w).

(** [asyncio.create_task(monitor_price(token))] *)
Definition create_task (token : Token) : M unit :=
  fun w => (Ret tt, {| email_configured := email_configured w;
                       open_positions := open_positions w;
                       tasks := tasks w ++ [Spawned token];
                       trace := trace w |}).

(** [amount_sol = 0.01] *)
Definition amount_sol : float := S754_finite false 5764607523034235 (-59).

(** The body of [for token in tokens]; [continue] ends it early. *)
Definition process_token (env : TokenEnv) (token : Token) : M unit :=
  let* age_hours := lift (time_since_launch (now env) (launch_time token)) in
  if negb (leb (of_int 5) age_hours && leb age_hours (of_int 10)) then
    logger INFO (SkipLaunchTime (name token) age_hours)
  else if negb ((5000 <=? market_cap token) && (market_cap token <=? 10000)) then
    logger INFO (SkipMarketCap (name token) (market_cap token))
  else if has_live_streams token then
    logger INFO (SkipLiveStreams (name token))
  else
    let* safe := check_rug_pull (rug_reply env) (contract_address token) in
    if negb safe then
      logger INFO (SkipRugPull (name token))
    else
      let* social := check_social_media (social_reply env) (contract_address token) in
      if negb social then
        logger INFO (SkipSocialMedia (name token))
      else
        let* held := contains (contract_address token) in
        if held then
          logger INFO (AlreadyHolding (name token))
        else
          let* buy_success := buy_token (buy_env env) token amount_sol in
          if buy_success then create_task token else ret tt.

Fixpoint for_tokens (tokens : list (Token * TokenEnv)) : M unit :=
  match tokens with
  | [] => ret tt
  | (token, env) :: rest => process_token env token ;;; for_tokens rest
  end.

(** One pass of the outer [while True]: the tokens that
    [fetch_new_tokens] returned, each with what the outside answers, and
    the SMTP session of the "Bot Error" mail. *)
Definition monitor_and_trade_pass (tokens : list (Token * TokenEnv))
    (loop_smtp : outcome unit) : M unit :=
  try_except
    (logger INFO (Fetched (length tokens)) ;;;
     for_tokens tokens)
    (fun e =>
       logger ERROR (LoopError e) ;;;
       send_email loop_smtp (BotError e) ;;;
       ret tt) ;;;
  logger INFO SleepingTenMinutes ;;;
  emit (Sleep 600).

(** ** The event loop *)

Definition set_tasks (ts : list Task) (w : World) : World :=
  {| email_configured := email_configured w;
     open_positions := open_positions w; tasks := ts; trace := trace w |}.

(** The task at index [i] runs to its next suspension. *)
Definition run_task (i : nat) (env : MonitorEnv) (w : World) : option World :=
  match tasks w !! i with
  | Some k =>
      match resume env k w with
      | (Ret (Some k'), w') => Some (set_tasks (<[i := k']> (tasks w')) w')
      | (_, w') => Some (set_tasks (delete i (tasks w')) w')
      end
  | None => None
  end.

(** The bot starts with no position and no watcher. *)
Definition initial (configured : bool) : World :=
  {| email_configured := configured;
     open_positions := ∅; tasks := []; trace := [] |}.

(** The atomic steps: a pass of [monitor_and_trade], or one watcher
    running between two suspensions. *)
Inductive step : World -> World -> Prop :=
| step_discover (tokens : list (Token * TokenEnv)) (loop_smtp : outcome unit)
    (w : World) :
    step w (snd (monitor_and_trade_pass tokens loop_smtp w))
| step_watch (i : nat) (env : MonitorEnv) (w w' : World) :
    run_task i env w = Some w' ->
    step w w'.

Inductive reachable : World -> Prop :=
| reachable_initial (configured : bool) : reachable (initial configured)
| reachable_step (w w' : World) : reachable w -> step w w' -> reachable w'.

(** ** Observations on a run *)

(** The effects between two worlds of one run. *)
Definition events_since (w w' : World) : list event :=
  drop (length (trace w)) (trace w').

(** The orders handed to [send_transaction]. *)
Fixpoint submitted (evs : list event) : list Order :=
  match evs with
  | [] => []
  | SendTransaction o :: rest => o :: submitted rest
  | _ :: rest => submitted rest
  end.

(** The log records "Already holding ...". *)
Fixpoint already_holding (evs : list event) : nat :=
  match evs with
  | [] => O
  | Log INFO (AlreadyHolding _) :: rest => S (already_holding rest)
  | _ :: rest => already_holding rest
  end.

Definition returns {A} (o : outcome A) : bool :=
  match o with Ret _ => true | Raise _ => false end.

(** The venue's reply is a dictionary with a ['result'] entry. *)
Definition acknowledged (reply : outcome Response) : bool :=
  match reply with
  | Ret r => bool_decide (is_Some (r !! "result"))
  | Raise _ => false
  end.

(** Nothing goes wrong on the way through [buy_token]: a bid is there,
    its price is not zero, and the order is built, sent and
    acknowledged. *)
Definition buy_goes_through (env : VenueEnv) : bool :=
  match book_top env with
  | Ret (Some (price, _)) =>
      negb (eqb price (S754_zero false))
      && returns (py_int (clock env))
      && bool_decide (make_order_fails env = None)
      && acknowledged (send_reply env)
  | _ => false
  end.

(** Nothing stops [sell_token]: an ask is there, it is not below the
    target, and the order is built, sent and acknowledged. *)
Definition sell_goes_through (env : VenueEnv) (p0 : float) : bool :=
  match book_top env with
  | Ret (Some (price, _)) =>
      negb (ltb price (target_price p0))
      && returns (py_int (clock env))
      && bool_decide (make_order_fails env = None)
      && acknowledged (send_reply env)
  | _ => false
  end.

(** [check_rug_pull] answers [True]: status 200 and no rug-pull flag. *)
Definition rug_ok (reply : outcome (HttpResponse bool)) : bool :=
  match reply with
  | Ret response =>
      (status_code response =? 200)
      && match json response with Ret flagged => negb flagged | Raise _ => false end
  | Raise _ => false
  end.

(** [check_social_media] answers [True]: status 200 and at least one
    account. *)
Definition social_ok (reply : outcome (HttpResponse (list string))) : bool :=
  match reply with
  | Ret response =>
      (status_code response =? 200)
      && match json response with
         | Ret accounts => (1 <=? length accounts)%nat
         | Raise _ => false
         end
  | Raise _ => false
  end.

Definition age_in_window (env : TokenEnv) (token : Token) : bool :=
  match time_since_launch (now env) (launch_time token) with
  | Ret age_hours => leb (of_int 5) age_hours && leb age_hours (of_int 10)
  | Raise _ => false
  end.

(** The first five checks of the loop body let the token through. *)
Definition screening_passes (env : TokenEnv) (token : Token) : bool :=
  age_in_window env token
  && ((5000 <=? market_cap token) && (market_cap token <=? 10000))
  && negb (has_live_streams token)
  && rug_ok (rug_reply env)
  && social_ok (social_reply env).

(** The world with more effects recorded and nothing else changed. *)
Definition extend (w : World) (evs : list event) : World :=
  {| email_configured := email_configured w;
     open_positions := open_positions w; tasks := tasks w;
     trace := trace w ++ evs |}.

(** The claimed correspondence between the dictionary and the watchers:
    an address has a position exactly when a task watches it. *)
Definition ledger_matches_monitors (w : World) : Prop :=
  forall a : string,
    is_Some (open_positions w !! a) <->
    exists k : Task, k ∈ tasks w /\ task_address k = a.

(** Every watcher has its position, with the values it holds. *)
Definition task_backed (w : World) (k : Task) : Prop :=
  match k with
  | Spawned t => is_Some (open_positions w !! contract_address t)
  | Watching t p0 amt =>
      open_positions w !! contract_address t
      = Some {| initial_price := p0; amount := amt |}
  end.

(** The values a task works with: the locals of a suspended watcher,
    or what a new one will read from the dictionary when it starts. *)
Definition task_position (w : World) (k : Task) : Position :=
  match k with
  | Watching _ p0 amt => {| initial_price := p0; amount := amt |}
  | Spawned t =>
      default {| initial_price := S754_nan; amount := S754_nan |}
              (open_positions w !! contract_address t)
  end.

Definition monitors_backed (w : World) : Prop :=
  NoDup (task_address <$> tasks w)
  /\ forall k : Task, k ∈ tasks w -> task_backed w k.

(** Effects that neither submit an order nor report a held token. *)
Definition quiet (evs : list event) : Prop :=
  submitted evs = [] /\ already_holding evs = O.

(** The world after a successful [buy_token] and the [create_task] that
    follows it. *)
Definition bought_world (w : World) (token : Token) (pos : Position)
    (evs : list event) : World :=
  {| email_configured := email_configured w;
     open_positions := <[contract_address token := pos]> (open_positions w);
     tasks := tasks w ++ [Spawned token];
     trace := trace w ++ evs |}.

(** A candidate for the address [a]. *)
Definition same_address (a : string) (te : Token * TokenEnv) : Prop :=
  contract_address (fst te) = a.

(** A candidate that passes the screening and whose purchase the venue
    acknowledges. *)
Definition all_clear (te : Token * TokenEnv) : Prop :=
  screening_passes (snd te) (fst te) && buy_goes_through (buy_env (snd te)) = true.

(** ** Mails that can be composed *)

(** [send_email m] returns: there are no credentials, so nothing is
    composed, or the body can be encoded. *)
Definition mail_passes (w : World) (m : mail) : bool :=
  negb (email_configured w) || builds m.

(** What a call of [send_email m] that returns leaves in the trace. *)
Definition mail_events (w : World) (smtp : outcome unit) (m : mail)
  : list event :=
  if email_configured w then
    Email m :: match smtp with
               | Ret _ => [Log INFO (EmailSent m)]
               | Raise e => [Log ERROR (EmailFailed e)]
               end
  else [Log WARNING CredentialsNotSet].

(** The signature in the venue's reply, if there is one, can be
    encoded. *)
Definition signature_encodable (reply : outcome Response) : bool :=
  match reply with
  | Ret r =>
      match r !! "result" with
      | Some signature => encodable signature
      | None => true
      end
  | Raise _ => true
  end.

(** The text of every exception that the venue answers with can be
    encoded. *)
Definition errors_encodable (env : VenueEnv) : bool :=
  match book_top env with Raise e => text_encodable e | Ret _ => true end
  && match make_order_fails env with Some e => text_encodable e | None => true end
  && match send_reply env with Raise e => text_encodable e | Ret _ => true end.

(** The mail of a completed trade ("Bought ...", "Sold ...") can be
    composed, or none is: the token name and the signature can be
    encoded, or there are no credentials. *)
Definition success_mail_builds (w : World) (env : VenueEnv) (token : Token)
  : bool :=
  negb (email_configured w)
  || (encodable (name token) && signature_encodable (send_reply env)).

(** The mail of the [except] clause of [buy_token] or [sell_token] can
    be composed, whatever was raised, or none is. *)
Definition failure_mail_builds (w : World) (env : VenueEnv) (token : Token)
  : bool :=
  negb (email_configured w)
  || (encodable (name token) && errors_encodable env).

(** The mail of the [except] clause of [monitor_price] can be composed
    when the watcher's own look at the book raises, or none is. *)
Definition watch_mail_builds (w : World) (menv : MonitorEnv) : bool :=
  negb (email_configured w)
  || match watch_top menv with Raise e => text_encodable e | Ret _ => true end.

(** An [except] clause that logs [msg] at ERROR level, calls
    [send_email] with [m] and returns [False], run from [w]. *)
Definition handled (w : World) (smtp : outcome unit) (msg : log_msg) (m : mail)
  : outcome bool * World :=
  if mail_passes w m
  then (Ret false, extend w (Log ERROR msg :: mail_events w smtp m))
  else (Raise UnicodeEncodeError, extend w [Log ERROR msg]).

(** The [except] clause of [monitor_price], run from [w]: the record at
    ERROR level, the mail, and the sleep before the next pass if
    [send_email] returns. *)
Definition watch_handled (w : World) (smtp : outcome unit) (token : Token)
    (e : exn) : outcome loop_ctl * World :=
  let m := MonitoringError (name token) e in
  if mail_passes w m
  then (Ret Continue,
        extend w (Log ERROR (MonitorError (name token) e)
                  :: mail_events w smtp m ++ [Sleep 300]))
  else (Raise UnicodeEncodeError,
        extend w [Log ERROR (MonitorError (name token) e)]).

(** With credentials, every watched token has a name that can be
    encoded: its "Bought" mail was composed. *)
Definition watched_names_encodable (w : World) : Prop :=
  email_configured w = true ->
  forall k : Task, k ∈ tasks w -> encodable (name (task_token k)) = true.

(** A candidate whose "Bought" mail can be composed. *)
Definition notifiable (w : World) (te : Token * TokenEnv) : Prop :=
  success_mail_builds w (buy_env (snd te)) (fst te) = true.

(** ** Sample data *)

Module Sample.

Definition token_a : Token :=
  {| name := "ExampleToken3"; contract_address := "ExampleContractAddress54321";
     launch_time := 0; market_cap := 8000; has_live_streams := false |}.

Definition token_b : Token :=
  {| name := "ExampleToken2"; contract_address := "ExampleContractAddress67890";
     launch_time := 0; market_cap := 6000; has_live_streams := false |}.

Definition hours (h : Z) : Z := h * 3600 * 10 ^ 6.

Definition one : float := of_int 1.
Definition price_001 : float := amount_sol.          (* 0.01 *)
Definition price_005 : float := mul price_001 (of_int 5).
Definition price_002 : float := mul price_001 (of_int 2).

Definition ack : Response := {[ "result" := "5sig" ]}.
Definition rejected : Response := {[ "error" := "insufficient funds" ]}.

(** [time.time()] readings: 1000.25 and 1000.75. *)
Definition t_1000_25 : float := S754_finite false 4001 (-2).
Definition t_1000_75 : float := S754_finite false 4003 (-2).

Definition venue (top : BookTop) (t : float) (reply : outcome Response)
  : VenueEnv :=
  {| book_top := top; clock := t; make_order_fails := None;
     send_reply := reply; smtp_reply := Ret tt |}.

Definition venue_ok (price : float) (t : float) : VenueEnv :=
  venue (Ret (Some (price, one))) t (Ret ack).

Definition venue_down (price : float) : VenueEnv :=
  venue (Ret (Some (price, one))) t_1000_25 (Raise (ExternalError "timeout")).

Definition screen_ok (h : Z) (v : VenueEnv) : TokenEnv :=
  {| now := hours h;
     rug_reply := Ret {| status_code := 200; json := Ret false |};
     social_reply := Ret {| status_code := 200; json := Ret ["twitter"] |};
     buy_env := v |}.

Definition holding_a : World :=
  {| email_configured := true;
     open_positions :=
       {[ contract_address token_a :=
            {| initial_price := price_001; amount := one |} ]};
     tasks := [Watching token_a price_001 one];
     trace := [] |}.

Definition watch (q : float) (v : VenueEnv) : MonitorEnv :=
  {| watch_top := Ret (Some (q, one)); sell_env := v; watch_smtp := Ret tt |}.

(** The bot as it starts, with mail credentials. *)
Definition start : World := initial true.

(** After one discovery pass that buys [token_a]. *)
Definition after_buy : World :=
  snd (monitor_and_trade_pass
         [(token_a, screen_ok 7 (venue_ok price_001 t_1000_25))] (Ret tt) start).

(** Then the watcher sees the target reached, and the sell is not
    acknowledged. *)
Definition after_failed_sell : option World :=
  run_task 0 (watch price_005 (venue_down price_005)) after_buy.

(** One discovery pass with two tokens, bought within one second. *)
Definition two_buys : World :=
  snd (monitor_and_trade_pass
         [(token_a, screen_ok 7 (venue_ok price_001 t_1000_25));
          (token_b, screen_ok 9 (venue_ok price_002 t_1000_75))] (Ret tt) start).

(** The same candidate offered three times, everything succeeding. *)
Definition thrice : list (Token * TokenEnv) :=
  [(token_a, screen_ok 7 (venue_ok price_001 t_1000_25));
   (token_a, screen_ok 7 (venue_ok price_002 t_1000_75));
   (token_a, screen_ok 8 (venue_ok price_002 t_1000_75))].

End Sample.

(** ** More sample data *)

Module Scenario.

(** [ExampleToken3] as [fetch_new_tokens] lists it: seven hours old,
    market cap 8000, with live streams. *)
Definition token_live : Token :=
  {| name := "ExampleToken3"; contract_address := "ExampleContractAddress54321";
     launch_time := 0; market_cap := 8000; has_live_streams := true |}.

(** A token whose launch time is an hour ahead of the clock. *)
Definition token_future : Token :=
  {| name := "NotYet"; contract_address := "Future111";
     launch_time := Sample.hours 8; market_cap := 8000;
     has_live_streams := false |}.

Definition env_7h : TokenEnv :=
  Sample.screen_ok 7 (Sample.venue_ok Sample.price_001 Sample.t_1000_25).

(** The watcher reads 0.05 and so does [sell_token]; the venue
    acknowledges. *)
Definition sell_at_target : MonitorEnv :=
  Sample.watch Sample.price_005 (Sample.venue_ok Sample.price_005 Sample.t_1000_75).

(** The book has no ask when the watcher looks. *)
Definition no_asks : MonitorEnv :=
  {| watch_top := Ret None;
     sell_env := Sample.venue_ok Sample.price_005 Sample.t_1000_75;
     watch_smtp := Ret tt |}.

Definition nan_ask : VenueEnv :=
  Sample.venue (Ret (Some (S754_nan, Sample.one))) Sample.t_1000_75 (Ret Sample.ack).

(** The state with a position and no watcher: bought, then a sell
    that the venue did not answer. *)
Definition orphaned : World := default Sample.start Sample.after_failed_sell.






End Scenario.

(** ** Further observations on a run *)

(** The durations of the [asyncio.sleep] calls. *)
Fixpoint sleeps (evs : list event) : list Z :=
  match evs with
  | [] => []
  | Sleep s :: rest => s :: sleeps rest
  | _ :: rest => sleeps rest
  end.

(** The mails handed to [send_email]. *)
Fixpoint mails (evs : list event) : list mail :=
  match evs with
  | [] => []
  | Email m :: rest => m :: mails rest
  | _ :: rest => mails rest
  end.

(** The calls to the venue: book reads, order construction, submission. *)
Fixpoint venue_calls (evs : list event) : nat :=
  match evs with
  | [] => O
  | (LoadBids | LoadAsks | MakeOrder _ | SendTransaction _) :: rest =>
      S (venue_calls rest)
  | _ :: rest => venue_calls rest
  end.

(** The HTTP requests of the two lookups. *)
Fixpoint http_calls (evs : list event) : nat :=
  match evs with
  | [] => O
  | (HttpPost _ | HttpGet _) :: rest => S (http_calls rest)
  | _ :: rest => http_calls rest
  end.

(** The records logged at ERROR level. *)
Fixpoint errors_logged (evs : list event) : nat :=
  match evs with
  | [] => O
  | Log ERROR _ :: rest => S (errors_logged rest)
  | _ :: rest => errors_logged rest
  end.

(** The three checks of the loop body that need no collaborator. *)
Definition local_checks_pass (env : TokenEnv) (token : Token) : bool :=
  age_in_window env token
  && ((5000 <=? market_cap token) && (market_cap token <=? 10000))
  && negb (has_live_streams token).

(** The address has an entry in the dictionary. *)
Definition held (w : World) (a : string) : bool :=
  bool_decide (is_Some (open_positions w !! a)).

(** The watcher's reading of the book is an ask at or above the target
    of [p0]. *)
Definition triggered (menv : MonitorEnv) (p0 : float) : bool :=
  match watch_top menv with
  | Ret (Some (q, _)) => geb q (target_price p0)
  | _ => false
  end.

(** Not above zero: a zero, or negative. *)
Definition not_positive (x : float) : Prop :=
  match x with
  | S754_zero _ | S754_infinity true | S754_finite true _ _ => True
  | _ => False
  end.

(** * Properties *)

(** ** Floats *)

Lemma SFcompare_antisym (x y : float) :
  SFcompare y x = option_map CompOpp (SFcompare x y).
Proof.
  destruct x as [sx|sx| |sx mx ex], y as [sy|sy| |sy my ey]; simpl;
    try destruct sx; try destruct sy; simpl; try reflexivity.
  - rewrite (Z.compare_antisym ey ex).
    destruct (ey ?= ex) eqn:E; simpl; try reflexivity.
    rewrite (Pos.compare_cont_antisym mx my Eq). simpl. reflexivity.
  - rewrite (Z.compare_antisym ey ex).
    destruct (ey ?= ex) eqn:E; simpl; try reflexivity.
    rewrite (Pos.compare_cont_antisym mx my Eq). simpl. reflexivity.
Qed.

Lemma SFcompare_not_nan (x y : float) :
  is_nan x = false -> is_nan y = false -> exists c, SFcompare x y = Some c.
Proof.
  destruct x, y; simpl; intros; try discriminate; eauto.
Qed.

Lemma ltb_negb_geb (x y : float) :
  is_nan x = false -> is_nan y = false -> ltb x y = negb (geb x y).
Proof.
  intros Hx Hy. unfold ltb, geb, SFltb, SFleb.
  rewrite (SFcompare_antisym x y).
  destruct (SFcompare_not_nan x y Hx Hy) as [c ->].
  destruct c; reflexivity.
Qed.

Lemma geb_true_ltb_false (x y : float) : geb x y = true -> ltb x y = false.
Proof.
  unfold ltb, geb, SFltb, SFleb. rewrite (SFcompare_antisym x y).
  destruct (SFcompare x y) as [[]|]; simpl; congruence.
Qed.

Lemma ltb_true_leb_false (x y : float) : ltb x y = true -> leb y x = false.
Proof.
  unfold ltb, leb, SFltb, SFleb. rewrite (SFcompare_antisym x y).
  destruct (SFcompare x y) as [[]|]; simpl; congruence.
Qed.

Lemma eqb_true_geb (x y : float) : eqb x y = true -> geb x y = true.
Proof.
  unfold eqb, geb, SFeqb, SFleb. rewrite (SFcompare_antisym x y).
  destruct (SFcompare x y) as [[]|]; simpl; congruence.
Qed.

(** Rounding a non-negative significand never produces NaN. *)
Lemma shr_1_nonneg (mrs : shr_record) : 0 <= shr_m mrs -> 0 <= shr_m (shr_1 mrs).
Proof.
  destruct mrs as [m r s]. simpl.
  destruct m as [|p|p]; [simpl; lia| |lia].
  intros _. destruct p; simpl; lia.
Qed.

Lemma iter_shr_1_nonneg (p : positive) : forall mrs : shr_record,
  0 <= shr_m mrs -> 0 <= shr_m (SpecFloat.iter_pos shr_1 p mrs).
Proof.
  induction p as [p IH|p IH|]; intros mrs H; simpl.
  - apply IH, IH, shr_1_nonneg, H.
  - apply IH, IH, H.
  - apply shr_1_nonneg, H.
Qed.

Lemma shr_fexp_nonneg (m e : Z) (l : location) :
  0 <= m -> 0 <= shr_m (fst (shr_fexp prec emax m e l)).
Proof.
  intros H. unfold shr_fexp, shr.
  assert (H0 : 0 <= shr_m (shr_record_of_loc m l))
    by (destruct l as [|[]]; simpl; exact H).
  destruct (fexp prec emax (Zdigits2 m + e) - e); simpl;
    [exact H0|apply iter_shr_1_nonneg, H0|exact H0].
Qed.

Lemma round_nearest_even_nonneg (m : Z) (l : location) :
  0 <= m -> 0 <= round_nearest_even m l.
Proof.
  intros H. destruct l as [|[]]; simpl; try lia.
  destruct (Z.even m); lia.
Qed.

Lemma binary_round_aux_not_nan (sx : bool) (mx ex : Z) (lx : location) :
  0 <= mx -> is_nan (binary_round_aux prec emax sx mx ex lx) = false.
Proof.
  intros H. unfold binary_round_aux.
  pose proof (shr_fexp_nonneg mx ex lx H) as H1.
  destruct (shr_fexp prec emax mx ex lx) as [mrs' e']. simpl in H1.
  pose proof (shr_fexp_nonneg _ e' loc_Exact
                (round_nearest_even_nonneg _ (loc_of_shr_record mrs') H1)) as H2.
  destruct (shr_fexp prec emax
              (round_nearest_even (shr_m mrs') (loc_of_shr_record mrs')) e' loc_Exact)
    as [mrs'' e'']. simpl in H2.
  destruct (shr_m mrs'') as [|m|m]; [reflexivity| |lia].
  destruct (e'' <=? emax - prec); reflexivity.
Qed.

(** The target of a position whose initial price is a number is a
    number. *)
Lemma target_price_not_nan (p0 : float) :
  is_nan p0 = false -> is_nan (target_price p0) = false.
Proof.
  unfold target_price, mul.
  change (of_int PROFIT_MULTIPLIER) with (S754_finite false 5629499534213120 (-50)).
  destruct p0 as [s|s| |s m e]; simpl; try reflexivity; try discriminate.
  intros _. apply binary_round_aux_not_nan. lia.
Qed.

(** ** Running the monad *)

Lemma min_quantity_returns (q : float) : exists m, min_quantity q = Ret m.
Proof. unfold min_quantity. vm_compute slippage_fraction. eauto. Qed.

Lemma min_sol_returns (p a : float) : exists m, min_sol p a = Ret m.
Proof. unfold min_sol. vm_compute slippage_fraction. eauto. Qed.

Lemma truediv_zero (x y : float) :
  eqb y (S754_zero false) = true -> truediv x y = Raise ZeroDivisionError.
Proof. unfold truediv. intros ->. reflexivity. Qed.

Lemma truediv_nonzero (x y : float) :
  eqb y (S754_zero false) = false -> truediv x y = Ret (SFdiv prec emax x y).
Proof. unfold truediv. intros ->. reflexivity. Qed.

Lemma time_since_launch_returns (t launch : Z) :
  exists age, time_since_launch t launch = Ret age.
Proof.
  unfold time_since_launch, int_truediv, truediv.
  change (10 ^ 6 =? 0) with false. cbv iota.
  change (eqb (of_int 3600) (S754_zero false)) with false. cbv iota. eauto.
Qed.

Lemma target_price_eq (p0 : float) :
  mul p0 (of_int PROFIT_MULTIPLIER) = target_price p0.
Proof. reflexivity. Qed.

Opaque of_int mul sub target_price truediv py_int min_quantity min_sol
  time_since_launch.

Lemma events_since_app (w w' : World) (evs : list event) :
  trace w' = trace w ++ evs -> events_since w w' = evs.
Proof. unfold events_since. intros ->. apply drop_app_length. Qed.

Ltac andb_hyps :=
  repeat match goal with
         | H : (_ && _) = true |- _ => apply andb_prop in H as [? ?]
         end.

Ltac unfold_monad :=
  unfold try_except, bind, lift, ret, raise, logger, emit,
    setitem, delitem, contains, create_task, load_bids_top_bid, load_asks_top_ask,
    make_order, send_transaction, getitem in *.

(** ** [send_email] *)

(** One call of [send_email]: it returns, having left its records in
    the trace, or raises before anything is sent. *)
Lemma send_email_run smtp m w :
  send_email smtp m w =
    if mail_passes w m then (Ret tt, extend w (mail_events w smtp m))
    else (Raise UnicodeEncodeError, w).
Proof.
  unfold send_email, mail_passes, mail_events, extend. unfold_monad.
  destruct (email_configured w); simpl; [|reflexivity].
  destruct (builds m); simpl; [|reflexivity].
  destruct smtp; simpl; rewrite <- ?app_assoc; reflexivity.
Qed.

Opaque send_email.

Lemma mail_passes_same (w w' : World) (m : mail) :
  email_configured w' = email_configured w -> mail_passes w' m = mail_passes w m.
Proof. unfold mail_passes. intros ->. reflexivity. Qed.

Lemma mail_events_same (w w' : World) smtp (m : mail) :
  email_configured w' = email_configured w ->
  mail_events w' smtp m = mail_events w smtp m.
Proof. unfold mail_events. intros ->. reflexivity. Qed.

(** The [except] clause of [buy_token], of [sell_token]. *)
Lemma except_run smtp msg m w :
  (logger ERROR msg ;;; send_email smtp m ;;; ret false) w = handled w smtp msg m.
Proof.
  unfold handled. unfold_monad. rewrite send_email_run.
  rewrite (mail_passes_same w), (mail_events_same w) by reflexivity.
  destruct (mail_passes w m); unfold extend; simpl;
    rewrite <- ?app_assoc; reflexivity.
Qed.

Lemma py_int_text (x : float) (e : exn) :
  py_int x = Raise e -> text_encodable e = true.
Proof.
  Transparent py_int.
  unfold py_int. destruct x; intros [= <-]; reflexivity.
  Opaque py_int.
Qed.

(** Closes the case "raised after [k] steps" of the lemmas that follow. *)
Ltac failed_after e k q p m o :=
  exists e, k, q, p, m, o;
  split; [discriminate|];
  split; [reflexivity|];
  split; [intros ?; andb_hyps; solve [assumption | reflexivity | eauto]|];
  split; [lia|];
  split; [intros Hk;
          first [discriminate Hk
                |do 2 eexists; repeat split; solve [eassumption|reflexivity]]|];
  unfold extend; simpl; rewrite <- ?app_assoc; reflexivity.

(** ** [buy_token], path by path *)

Lemma buy_token_handled env token amt w :
  buy_token env token amt w =
    match buy_token_body env token amt w with
    | (Ret b, w') => (Ret b, w')
    | (Raise e, w') =>
        handled w' (smtp_reply env)
          (BuyError (name token) e) (BuyFailed (name token) e)
    end.
Proof.
  unfold buy_token, try_except.
  destruct (buy_token_body env token amt w) as [[b|e] w'];
    [reflexivity|apply except_run].
Qed.

(** Everything one call of [buy_token] can do: the book is empty; or
    something raises before the dictionary is written, after [k] of the
    four steps up to the submission; or the order is acknowledged and
    the position recorded, after which the mail decides the result. *)
Lemma buy_token_run env token amt w :
  (book_top env = Ret None
   /\ buy_token env token amt w
      = (Ret false, extend w [LoadBids; Log WARNING (NoBids (name token))]))
  \/ (exists e k quantity price mq o,
        book_top env <> Ret None
        /\ buy_goes_through env = false
        /\ (errors_encodable env = true -> text_encodable e = true)
        /\ (1 <= k <= 4)%nat
        /\ (k = 4%nat ->
            exists size cid,
              book_top env = Ret (Some (price, size))
              /\ eqb price (S754_zero false) = false
              /\ py_int (clock env) = Ret cid
              /\ make_order_fails env = None
              /\ acknowledged (send_reply env) = false
              /\ o = {| side := Buy; limit_price := price;
                        max_quantity := SFdiv prec emax amt price;
                        client_id := cid |})
        /\ buy_token env token amt w
           = handled
               (extend w (take k [LoadBids;
                                  Log INFO (Buying (name token) quantity price mq);
                                  MakeOrder o; SendTransaction o]))
               (smtp_reply env)
               (BuyError (name token) e) (BuyFailed (name token) e))
  \/ (exists price size cid r signature mq,
        book_top env = Ret (Some (price, size))
        /\ eqb price (S754_zero false) = false
        /\ py_int (clock env) = Ret cid
        /\ make_order_fails env = None
        /\ send_reply env = Ret r
        /\ r !! "result" = Some signature
        /\ min_quantity (SFdiv prec emax amt price) = Ret mq
        /\ let quantity := SFdiv prec emax amt price in
           let o := {| side := Buy; limit_price := price;
                       max_quantity := quantity; client_id := cid |} in
           let w1 :=
             {| email_configured := email_configured w;
                open_positions :=
                  <[contract_address token :=
                      {| initial_price := price; amount := quantity |}]>
                    (open_positions w);
                tasks := tasks w;
                trace := trace w ++
                  [LoadBids; Log INFO (Buying (name token) quantity price mq);
                   MakeOrder o; SendTransaction o;
                   Log INFO (BuySent signature)] |} in
           buy_token env token amt w =
             if mail_passes w (Bought (name token) quantity price signature)
             then (Ret true,
                   extend w1 (mail_events w (smtp_reply env)
                                (Bought (name token) quantity price signature)))
             else handled w1 (smtp_reply env)
                    (BuyError (name token) UnicodeEncodeError)
                    (BuyFailed (name token) UnicodeEncodeError)).
Proof.
  rewrite buy_token_handled.
  unfold buy_token_body, buy_goes_through, errors_encodable. unfold_monad. simpl.
  destruct (book_top env) as [[[price size]|]|e] eqn:Hb; simpl.
  - destruct (eqb price (S754_zero false)) eqn:Hz; simpl.
    { rewrite (truediv_zero _ _ Hz). simpl.
      right; left; failed_after ZeroDivisionError 1%nat amt price amt
        {| side := Buy; limit_price := price; max_quantity := amt; client_id := 0 |}. }
    rewrite (truediv_nonzero _ _ Hz).
    destruct (min_quantity_returns (SFdiv prec emax amt price)) as [mq Hmq].
    rewrite Hmq. simpl.
    destruct (py_int (clock env)) as [cid|e] eqn:Hc; simpl.
    2:{ pose proof (py_int_text _ _ Hc).
        right; left; failed_after e 2%nat (SFdiv prec emax amt price) price mq
          {| side := Buy; limit_price := price; max_quantity := amt; client_id := 0 |}. }
    set (o := {| side := Buy; limit_price := price;
                 max_quantity := SFdiv prec emax amt price; client_id := cid |}).
    destruct (make_order_fails env) as [e|] eqn:Hm; simpl.
    { right; left; failed_after e 3%nat (SFdiv prec emax amt price) price mq o. }
    destruct (send_reply env) as [r|e] eqn:Hs; simpl.
    + destruct (r !! "result") as [sg|] eqn:Hr; simpl.
      * right; right. exists price, size, cid, r, sg, mq.
        repeat (split; [reflexivity || assumption|]).
        cbv zeta. rewrite send_email_run.
        rewrite (mail_passes_same w) by reflexivity.
        destruct (mail_passes w _) eqn:Hp.
        -- rewrite (mail_events_same w) by reflexivity.
           unfold extend. simpl. rewrite <- ?app_assoc. reflexivity.
        -- rewrite <- ?app_assoc. reflexivity.
      * right; left; failed_after (KeyError "result") 4%nat (SFdiv prec emax amt price) price mq o.
    + right; left; failed_after e 4%nat (SFdiv prec emax amt price) price mq o.
  - left. unfold extend. rewrite <- ?app_assoc. auto.
  - right; left; failed_after e 1%nat amt amt amt
      {| side := Buy; limit_price := amt; max_quantity := amt; client_id := 0 |}.
Qed.

(** ** [sell_token], path by path *)

Lemma sell_token_handled env token p0 amt w :
  sell_token env token p0 amt w =
    match sell_token_body env token p0 amt w with
    | (Ret b, w') => (Ret b, w')
    | (Raise e, w') =>
        handled w' (smtp_reply env)
          (SellError (name token) e) (SellFailed (name token) e)
    end.
Proof.
  unfold sell_token, try_except.
  destruct (sell_token_body env token p0 amt w) as [[b|e] w'];
    [reflexivity|apply except_run].
Qed.

(** Everything one call of [sell_token] can do: the book is empty; the
    ask is below the target; something raises before the deletion,
    after [k] of the four steps up to the submission; or the order is
    acknowledged, and then the deletion raises or is done, after which
    the mail decides the result. *)
Lemma sell_token_run env token p0 amt w :
  (book_top env = Ret None
   /\ sell_token env token p0 amt w
      = (Ret false, extend w [LoadAsks; Log WARNING (NoAsks (name token))]))
  \/ (exists q size,
        book_top env = Ret (Some (q, size))
        /\ ltb q (target_price p0) = true
        /\ sell_token env token p0 amt w
           = (Ret false,
              extend w [LoadAsks;
                        Log INFO (BelowTarget (name token) q (target_price p0))]))
  \/ (exists e k amount_tokens q ms o,
        book_top env <> Ret None
        /\ sell_goes_through env p0 = false
        /\ (errors_encodable env = true -> text_encodable e = true)
        /\ (1 <= k <= 4)%nat
        /\ (k = 4%nat ->
            exists size cid,
              book_top env = Ret (Some (q, size))
              /\ ltb q (target_price p0) = false
              /\ py_int (clock env) = Ret cid
              /\ make_order_fails env = None
              /\ acknowledged (send_reply env) = false
              /\ o = {| side := Sell; limit_price := q;
                        max_quantity := amt; client_id := cid |})
        /\ sell_token env token p0 amt w
           = handled
               (extend w (take k [LoadAsks;
                                  Log INFO (Selling (name token) amount_tokens q ms);
                                  MakeOrder o; SendTransaction o]))
               (smtp_reply env)
               (SellError (name token) e) (SellFailed (name token) e))
  \/ (exists q size cid r signature ms,
        book_top env = Ret (Some (q, size))
        /\ ltb q (target_price p0) = false
        /\ py_int (clock env) = Ret cid
        /\ make_order_fails env = None
        /\ send_reply env = Ret r
        /\ r !! "result" = Some signature
        /\ min_sol q amt = Ret ms
        /\ let o := {| side := Sell; limit_price := q;
                       max_quantity := amt; client_id := cid |} in
           let sent := [LoadAsks; Log INFO (Selling (name token) amt q ms);
                        MakeOrder o; SendTransaction o;
                        Log INFO (SellSent signature)] in
           sell_token env token p0 amt w =
             match open_positions w !! contract_address token with
             | None =>
                 handled (extend w sent) (smtp_reply env)
                   (SellError (name token) (KeyError (contract_address token)))
                   (SellFailed (name token) (KeyError (contract_address token)))
             | Some _ =>
                 let w1 :=
                   {| email_configured := email_configured w;
                      open_positions :=
                        delete (contract_address token) (open_positions w);
                      tasks := tasks w;
                      trace := trace w ++ sent |} in
                 if mail_passes w (Sold (name token) amt q signature)
                 then (Ret true,
                       extend w1 (mail_events w (smtp_reply env)
                                    (Sold (name token) amt q signature)))
                 else handled w1 (smtp_reply env)
                        (SellError (name token) UnicodeEncodeError)
                        (SellFailed (name token) UnicodeEncodeError)
             end).
Proof.
  rewrite sell_token_handled.
  unfold sell_token_body, sell_goes_through, errors_encodable. unfold_monad. simpl.
  destruct (book_top env) as [[[q size]|]|e] eqn:Hb; simpl.
  - destruct (ltb q (target_price p0)) eqn:Hlt; simpl.
    { right; left. exists q, size. unfold extend. rewrite <- ?app_assoc. auto. }
    destruct (min_sol_returns q amt) as [ms Hms]. rewrite Hms. simpl.
    destruct (py_int (clock env)) as [cid|e] eqn:Hc; simpl.
    2:{ pose proof (py_int_text _ _ Hc).
        right; right; left; failed_after e 2%nat amt q ms
          {| side := Sell; limit_price := q; max_quantity := amt; client_id := 0 |}. }
    set (o := {| side := Sell; limit_price := q;
                 max_quantity := amt; client_id := cid |}).
    destruct (make_order_fails env) as [e|] eqn:Hm; simpl.
    { right; right; left; failed_after e 3%nat amt q ms o. }
    destruct (send_reply env) as [r|e] eqn:Hs; simpl.
    + destruct (r !! "result") as [sg|] eqn:Hr; simpl.
      * right; right; right. exists q, size, cid, r, sg, ms.
        repeat (split; [reflexivity || assumption|]).
        cbv zeta.
        destruct (open_positions w !! contract_address token) as [pos|]; simpl.
        -- rewrite send_email_run.
           rewrite (mail_passes_same w) by reflexivity.
           destruct (mail_passes w _) eqn:Hp.
           ++ rewrite (mail_events_same w) by reflexivity.
              unfold extend. simpl. rewrite <- ?app_assoc. reflexivity.
           ++ rewrite <- ?app_assoc. reflexivity.
        -- unfold extend. simpl. rewrite <- ?app_assoc. reflexivity.
      * right; right; left;
          failed_after (KeyError "result") 4%nat amt q ms o.
    + right; right; left; failed_after e 4%nat amt q ms o.
  - left. unfold extend. rewrite <- ?app_assoc. auto.
  - right; right; left; failed_after e 1%nat amt amt amt
      {| side := Sell; limit_price := amt; max_quantity := amt; client_id := 0 |}.
Qed.

(** ** [buy_token] and [sell_token] as a whole *)

Lemma submitted_app (l1 l2 : list event) :
  submitted (l1 ++ l2) = submitted l1 ++ submitted l2.
Proof.
  induction l1 as [|ev l1 IH]; simpl; [reflexivity|].
  destruct ev; simpl; rewrite ?IH; reflexivity.
Qed.

Lemma already_holding_app (l1 l2 : list event) :
  already_holding (l1 ++ l2) = (already_holding l1 + already_holding l2)%nat.
Proof.
  induction l1 as [|ev l1 IH]; simpl; [reflexivity|].
  destruct ev as [[] []| | | | | | | | ]; simpl; rewrite ?IH; reflexivity.
Qed.

Lemma http_calls_app (l1 l2 : list event) :
  http_calls (l1 ++ l2) = (http_calls l1 + http_calls l2)%nat.
Proof.
  induction l1 as [|ev l1 IH]; simpl; [reflexivity|].
  destruct ev; simpl; rewrite ?IH; reflexivity.
Qed.

Lemma venue_calls_app (l1 l2 : list event) :
  venue_calls (l1 ++ l2) = (venue_calls l1 + venue_calls l2)%nat.
Proof.
  induction l1 as [|ev l1 IH]; simpl; [reflexivity|].
  destruct ev; simpl; rewrite ?IH; reflexivity.
Qed.

Lemma sleeps_app (l1 l2 : list event) :
  sleeps (l1 ++ l2) = sleeps l1 ++ sleeps l2.
Proof.
  induction l1 as [|ev l1 IH]; simpl; [reflexivity|].
  destruct ev; simpl; rewrite ?IH; reflexivity.
Qed.

Lemma mails_app (l1 l2 : list event) :
  mails (l1 ++ l2) = mails l1 ++ mails l2.
Proof.
  induction l1 as [|ev l1 IH]; simpl; [reflexivity|].
  destruct ev; simpl; rewrite ?IH; reflexivity.
Qed.

Lemma extend_extend (w : World) (l1 l2 : list event) :
  extend (extend w l1) l2 = extend w (l1 ++ l2).
Proof. unfold extend. simpl. rewrite app_assoc. reflexivity. Qed.

Lemma extend_nil (w : World) : extend w [] = w.
Proof. destruct w. unfold extend. simpl. rewrite app_nil_r. reflexivity. Qed.

Lemma events_since_mk (w : World) c ps ts (evs : list event) :
  events_since w {| email_configured := c; open_positions := ps; tasks := ts;
                    trace := trace w ++ evs |}
  = evs.
Proof. apply events_since_app. reflexivity. Qed.

Lemma events_since_extend (w : World) (evs : list event) :
  events_since w (extend w evs) = evs.
Proof. apply events_since_mk. Qed.

Ltac tidy_trace := simpl; rewrite <- ?app_assoc; simpl; rewrite ?events_since_mk; simpl.

(** A mail leaves no order, no venue call, no request and no sleep in
    the trace, and at most one SMTP session. *)
Lemma mail_events_quiet w smtp m :
  submitted (mail_events w smtp m) = []
  /\ venue_calls (mail_events w smtp m) = O
  /\ http_calls (mail_events w smtp m) = O
  /\ sleeps (mail_events w smtp m) = []
  /\ already_holding (mail_events w smtp m) = O
  /\ mails (mail_events w smtp m) = (if email_configured w then [m] else []).
Proof.
  unfold mail_events. destruct (email_configured w); [destruct smtp|];
    repeat split; reflexivity.
Qed.

(** The two parts of what an [except] clause gives. *)
Lemma handled_fst w smtp msg m :
  fst (handled w smtp msg m)
  = if mail_passes w m then Ret false else Raise UnicodeEncodeError.
Proof. unfold handled. destruct (mail_passes w m); reflexivity. Qed.

Lemma handled_snd w smtp msg m :
  snd (handled w smtp msg m)
  = extend w (Log ERROR msg
              :: (if mail_passes w m then mail_events w smtp m else [])).
Proof. unfold handled. destruct (mail_passes w m); reflexivity. Qed.

Lemma failure_mail_passes w env token e :
  failure_mail_builds w env token = true ->
  (errors_encodable env = true -> text_encodable e = true) ->
  mail_passes w (BuyFailed (name token) e) = true
  /\ mail_passes w (SellFailed (name token) e) = true.
Proof.
  unfold failure_mail_builds, mail_passes. simpl.
  destruct (email_configured w); simpl; [|auto].
  intros H He. apply andb_prop in H as [-> H]. rewrite (He H). auto.
Qed.

Lemma failure_mail_fails w env token e :
  (errors_encodable env = true -> text_encodable e = true) ->
  mail_passes w (BuyFailed (name token) e) = false
  \/ mail_passes w (SellFailed (name token) e) = false ->
  failure_mail_builds w env token = false /\ email_configured w = true.
Proof.
  intros He H.
  destruct (failure_mail_builds w env token) eqn:Hf.
  - destruct (failure_mail_passes w env token e Hf He) as [H1 H2].
    destruct H; congruence.
  - split; [reflexivity|]. unfold failure_mail_builds in Hf.
    destruct (email_configured w); [reflexivity|discriminate].
Qed.

(** The result of [buy_token]: [True] exactly when everything goes
    through and the "Bought" mail is composed or skipped; otherwise
    [False], unless the mail of the [except] clause cannot be composed:
    then [UnicodeEncodeError] leaves the call. *)
Lemma buy_token_result env token amt w :
  fst (buy_token env token amt w)
  = Ret (buy_goes_through env && success_mail_builds w env token)
  \/ (fst (buy_token env token amt w) = Raise UnicodeEncodeError
      /\ buy_goes_through env && success_mail_builds w env token = false
      /\ failure_mail_builds w env token = false
      /\ email_configured w = true).
Proof.
  destruct (buy_token_run env token amt w)
    as [(Hb & ->)|[(e & k & q & p & mq & o & Hnb & Hg & Ht & Hk & Hk4 & ->)
                  |(price & size & cid & r & sg & mq & Hb & Hz & Hc & Hm & Hs & Hr
                    & Hmq & Heq)]].
  - left. unfold buy_goes_through. rewrite Hb. reflexivity.
  - rewrite handled_fst, Hg.
    rewrite (mail_passes_same w) by reflexivity.
    destruct (mail_passes w _) eqn:Hp; [left; reflexivity|right].
    destruct (failure_mail_fails w env token e Ht (or_introl Hp)). auto.
  - cbv zeta in Heq. rewrite Heq.
    assert (Hg : buy_goes_through env = true).
    { unfold buy_goes_through, acknowledged. rewrite Hb, Hz, Hc, Hm, Hs, Hr. reflexivity. }
    assert (Hsm : success_mail_builds w env token
                  = mail_passes w (Bought (name token) (SFdiv prec emax amt price)
                                     price sg)).
    { unfold success_mail_builds, mail_passes, signature_encodable.
      rewrite Hs, Hr. reflexivity. }
    rewrite Hg, Hsm.
    destruct (mail_passes w (Bought _ _ _ _)) eqn:Hp; [left; reflexivity|].
    rewrite handled_fst. rewrite (mail_passes_same w) by reflexivity.
    destruct (mail_passes w (BuyFailed _ _)) eqn:Hp2; [left; reflexivity|right].
    destruct (failure_mail_fails w env token UnicodeEncodeError
                (fun _ => eq_refl) (or_introl Hp2)).
    auto.
Qed.

(** The world after [buy_token]: the dictionary has the new position
    exactly when everything went through; the tasks are untouched. *)
Lemma buy_token_world env token amt w :
  exists evs,
    snd (buy_token env token amt w)
    = {| email_configured := email_configured w;
         open_positions :=
           match book_top env with
           | Ret (Some (price, _)) =>
               if buy_goes_through env
               then <[contract_address token :=
                        {| initial_price := price;
                           amount := SFdiv prec emax amt price |}]>
                      (open_positions w)
               else open_positions w
           | _ => open_positions w
           end;
         tasks := tasks w;
         trace := trace w ++ evs |}
    /\ (submitted evs = [] /\ buy_goes_through env = false
        \/ exists price size cid,
             book_top env = Ret (Some (price, size))
             /\ py_int (clock env) = Ret cid
             /\ submitted evs
                = [{| side := Buy; limit_price := price;
                      max_quantity := SFdiv prec emax amt price;
                      client_id := cid |}])
    /\ http_calls evs = O /\ sleeps evs = [] /\ already_holding evs = O
    /\ (1 <= venue_calls evs <= 3)%nat
    /\ (length (mails evs) <= 1)%nat
    /\ (email_configured w = false -> mails evs = [])
    /\ (submitted evs <> [] ->
        buy_goes_through env = acknowledged (send_reply env)).
Proof.
  destruct (buy_token_run env token amt w)
    as [(Hb & ->)|[(e & k & q & p & mq & o & Hnb & Hg & Ht & Hk & Hk4 & ->)
                  |(price & size & cid & r & sg & mq & Hb & Hz & Hc & Hm & Hs & Hr
                    & Hmq & Heq)]].
  - eexists. split; [rewrite Hb; reflexivity|].
    split; [left; split; [reflexivity|unfold buy_goes_through; rewrite Hb; reflexivity]|].
    simpl. repeat split; auto; try lia. intros Hne. destruct Hne. reflexivity.
  - rewrite handled_snd, extend_extend. rewrite Hg.
    rewrite (mail_passes_same w), (mail_events_same w) by reflexivity.
    eexists. split; [destruct (book_top env) as [[[? ?]|]|]; reflexivity|].
    pose proof (mail_events_quiet w (smtp_reply env) (BuyFailed (name token) e))
      as (Q1 & Q2 & Q3 & Q4 & Q5 & Q6).
    rewrite submitted_app, http_calls_app, sleeps_app, already_holding_app,
      venue_calls_app, mails_app.
    destruct (mail_passes w _);
      destruct k as [|[|[|[|[|k]]]]]; try lia; simpl;
      rewrite ?Q1, ?Q2, ?Q3, ?Q4, ?Q5, ?Q6; simpl;
      (split;
       [first [left; split; reflexivity
              |right;
               destruct (Hk4 eq_refl) as (size & cid & Hb & Hz & Hc & Hm & Hack & ->);
               exists p, size, cid; auto]|]);
      repeat split; try lia; try (intros Hne; exfalso; apply Hne; reflexivity);
      try (intros _; destruct (Hk4 eq_refl) as (? & ? & _ & _ & _ & _ & Hack & _);
           symmetry; exact Hack);
      destruct (email_configured w); simpl; try lia;
      try discriminate; reflexivity.
  - cbv zeta in Heq. rewrite Heq.
    assert (Hg : buy_goes_through env = true).
    { unfold buy_goes_through, acknowledged. rewrite Hb, Hz, Hc, Hm, Hs, Hr. reflexivity. }
    rewrite Hb, Hg.
    pose proof (mail_events_quiet w (smtp_reply env)
                  (Bought (name token) (SFdiv prec emax amt price) price sg))
      as (Q1 & Q2 & Q3 & Q4 & Q5 & Q6).
    pose proof (mail_events_quiet w (smtp_reply env)
                  (BuyFailed (name token) UnicodeEncodeError))
      as (R1 & R2 & R3 & R4 & R5 & R6).
    destruct (mail_passes w (Bought _ _ _ _)) eqn:Hp.
    + eexists. split; [unfold extend; simpl; rewrite <- app_assoc; reflexivity|].
      rewrite submitted_app, http_calls_app, sleeps_app, already_holding_app,
        venue_calls_app, mails_app, Q1, Q2, Q3, Q4, Q5, Q6. simpl.
      assert (Hack : acknowledged (send_reply env) = true).
      { unfold acknowledged. rewrite Hs, Hr. reflexivity. }
      split; [right; exists price, size, cid; auto|].
      repeat split; try lia; try (intros _; symmetry; exact Hack);
        destruct (email_configured w); simpl; try lia;
        try discriminate; reflexivity.
    + assert (Hack : acknowledged (send_reply env) = true).
      { unfold acknowledged. rewrite Hs, Hr. reflexivity. }
      rewrite handled_snd. rewrite (mail_passes_same w), (mail_events_same w) by reflexivity.
      eexists. split; [unfold extend; simpl; rewrite <- app_assoc; reflexivity|].
      rewrite submitted_app, http_calls_app, sleeps_app, already_holding_app,
        venue_calls_app, mails_app. simpl.
      destruct (mail_passes w (BuyFailed _ _)); rewrite ?R1, ?R2, ?R3, ?R4, ?R5, ?R6;
        simpl;
        (split; [right; exists price, size, cid; auto|]);
        repeat split; try lia; try (intros _; symmetry; exact Hack);
        destruct (email_configured w); simpl; try lia;
        try discriminate; reflexivity.
Qed.

(** The result of [sell_token]: [True] exactly when everything goes
    through, the entry is there to delete and the "Sold" mail is
    composed or skipped; otherwise [False], unless the mail of the
    [except] clause cannot be composed.  An exception after the deletion
    means that the token name cannot be encoded. *)
Lemma sell_token_result env token p0 amt w :
  fst (sell_token env token p0 amt w)
  = Ret (sell_goes_through env p0 && held w (contract_address token)
         && success_mail_builds w env token)
  \/ (fst (sell_token env token p0 amt w) = Raise UnicodeEncodeError
      /\ sell_goes_through env p0 && held w (contract_address token)
         && success_mail_builds w env token = false
      /\ failure_mail_builds w env token = false
      /\ email_configured w = true
      /\ (sell_goes_through env p0 && held w (contract_address token) = true ->
          encodable (name token) = false)).
Proof.
  destruct (sell_token_run env token p0 amt w)
    as [(Hb & ->)|[(q & size & Hb & Hlt & ->)
       |[(e & k & a & q & ms & o & Hnb & Hg & Ht & Hk & Hk4 & ->)
        |(q & size & cid & r & sg & ms & Hb & Hlt & Hc & Hm & Hs & Hr
          & Hms & Heq)]]].
  - left. unfold sell_goes_through. rewrite Hb. reflexivity.
  - left. unfold sell_goes_through. rewrite Hb, Hlt. reflexivity.
  - rewrite handled_fst, Hg.
    rewrite (mail_passes_same w) by reflexivity.
    destruct (mail_passes w _) eqn:Hp; [left; reflexivity|right].
    destruct (failure_mail_fails w env token e Ht (or_intror Hp)).
    repeat split; auto. discriminate.
  - cbv zeta in Heq. rewrite Heq.
    assert (Hg : sell_goes_through env p0 = true).
    { unfold sell_goes_through, acknowledged.
      rewrite Hb, Hlt, Hc, Hm, Hs, Hr. reflexivity. }
    assert (Hsm : success_mail_builds w env token
                  = mail_passes w (Sold (name token) amt q sg)).
    { unfold success_mail_builds, mail_passes, signature_encodable.
      rewrite Hs, Hr. reflexivity. }
    rewrite Hg, Hsm. unfold held.
    destruct (open_positions w !! contract_address token) as [pos|] eqn:Hpos.
    + rewrite bool_decide_eq_true_2 by eauto. simpl.
      destruct (mail_passes w (Sold _ _ _ _)) eqn:Hp; [left; reflexivity|].
      rewrite handled_fst. rewrite (mail_passes_same w) by reflexivity.
      destruct (mail_passes w (SellFailed _ _)) eqn:Hp2; [left; reflexivity|right].
      destruct (failure_mail_fails w env token UnicodeEncodeError
                  (fun _ => eq_refl) (or_intror Hp2)) as [Hf Hcfg].
      repeat split; auto.
      intros _. unfold mail_passes in Hp2. rewrite Hcfg in Hp2. simpl in Hp2.
      rewrite andb_true_r in Hp2. exact Hp2.
    + rewrite bool_decide_eq_false_2 by (intros [? ?]; discriminate). simpl.
      rewrite handled_fst. rewrite (mail_passes_same w) by reflexivity.
      destruct (mail_passes w (SellFailed _ _)) eqn:Hp2; [left; reflexivity|right].
      destruct (failure_mail_fails w env token (KeyError (contract_address token))
                  (fun _ => eq_refl) (or_intror Hp2)) as [Hf Hcfg].
      repeat split; auto. discriminate.
Qed.

(** The world after [sell_token]: the entry is deleted exactly when
    everything went through and it was there; the tasks are
    untouched. *)
Lemma sell_token_world env token p0 amt w :
  exists evs,
    snd (sell_token env token p0 amt w)
    = {| email_configured := email_configured w;
         open_positions :=
           if sell_goes_through env p0 && held w (contract_address token)
           then delete (contract_address token) (open_positions w)
           else open_positions w;
         tasks := tasks w;
         trace := trace w ++ evs |}
    /\ (submitted evs = [] /\ sell_goes_through env p0 = false
        \/ exists q size cid,
             book_top env = Ret (Some (q, size))
             /\ ltb q (target_price p0) = false
             /\ py_int (clock env) = Ret cid
             /\ submitted evs
                = [{| side := Sell; limit_price := q;
                      max_quantity := amt; client_id := cid |}])
    /\ http_calls evs = O /\ sleeps evs = []
    /\ (1 <= venue_calls evs <= 3)%nat
    /\ (length (mails evs) <= 1)%nat
    /\ (email_configured w = false -> mails evs = [])
    /\ (submitted evs <> [] ->
        sell_goes_through env p0 = acknowledged (send_reply env)).
Proof.
  destruct (sell_token_run env token p0 amt w)
    as [(Hb & ->)|[(q & size & Hb & Hlt & ->)
       |[(e & k & a & q & ms & o & Hnb & Hg & Ht & Hk & Hk4 & ->)
        |(q & size & cid & r & sg & ms & Hb & Hlt & Hc & Hm & Hs & Hr
          & Hms & Heq)]]].
  - assert (Hg : sell_goes_through env p0 = false)
      by (unfold sell_goes_through; rewrite Hb; reflexivity).
    rewrite Hg. eexists. split; [reflexivity|].
    split; [left; split; reflexivity|].
    simpl. repeat split; auto; try lia. intros Hne. destruct Hne. reflexivity.
  - assert (Hg : sell_goes_through env p0 = false)
      by (unfold sell_goes_through; rewrite Hb, Hlt; reflexivity).
    rewrite Hg. eexists. split; [reflexivity|].
    split; [left; split; reflexivity|].
    simpl. repeat split; auto; try lia. intros Hne. destruct Hne. reflexivity.
  - rewrite handled_snd, extend_extend, Hg.
    rewrite (mail_passes_same w), (mail_events_same w) by reflexivity.
    eexists. split; [reflexivity|].
    pose proof (mail_events_quiet w (smtp_reply env) (SellFailed (name token) e))
      as (Q1 & Q2 & Q3 & Q4 & Q5 & Q6).
    rewrite submitted_app, http_calls_app, sleeps_app, venue_calls_app, mails_app.
    destruct (mail_passes w _);
      destruct k as [|[|[|[|[|k]]]]]; try lia; simpl;
      rewrite ?Q1, ?Q2, ?Q3, ?Q4, ?Q5, ?Q6; simpl;
      (split;
       [first [left; split; reflexivity
              |right;
               destruct (Hk4 eq_refl) as (size & cid & Hb & Hlt & Hc & Hm & Hack & ->);
               exists q, size, cid; auto]|]);
      repeat split; try lia; try (intros Hne; exfalso; apply Hne; reflexivity);
      try (intros _; destruct (Hk4 eq_refl) as (? & ? & _ & _ & _ & _ & Hack & _);
           symmetry; exact Hack);
      destruct (email_configured w); simpl; try lia;
      try discriminate; reflexivity.
  - cbv zeta in Heq. rewrite Heq.
    assert (Hg : sell_goes_through env p0 = true).
    { unfold sell_goes_through, acknowledged.
      rewrite Hb, Hlt, Hc, Hm, Hs, Hr. reflexivity. }
    rewrite Hg. unfold held.
    assert (Hack : acknowledged (send_reply env) = true).
    { unfold acknowledged. rewrite Hs, Hr. reflexivity. }
    pose proof (mail_events_quiet w (smtp_reply env) (Sold (name token) amt q sg))
      as (Q1 & Q2 & Q3 & Q4 & Q5 & Q6).
    destruct (open_positions w !! contract_address token) as [pos|] eqn:Hpos.
    + rewrite bool_decide_eq_true_2 by eauto. simpl.
      pose proof (mail_events_quiet w (smtp_reply env)
                    (SellFailed (name token) UnicodeEncodeError))
        as (R1 & R2 & R3 & R4 & R5 & R6).
      destruct (mail_passes w (Sold _ _ _ _)) eqn:Hp.
      * eexists. split; [unfold extend; simpl; rewrite <- app_assoc; reflexivity|].
        rewrite submitted_app, http_calls_app, sleeps_app,
          venue_calls_app, mails_app, Q1, Q2, Q3, Q4, Q6. simpl.
        split; [right; exists q, size, cid; auto|].
        repeat split; try lia; try (intros _; symmetry; exact Hack);
          destruct (email_configured w); simpl; try lia;
          try discriminate; reflexivity.
      * rewrite handled_snd.
        rewrite (mail_passes_same w), (mail_events_same w) by reflexivity.
        eexists. split; [unfold extend; simpl; rewrite <- app_assoc; reflexivity|].
        rewrite submitted_app, http_calls_app, sleeps_app,
          venue_calls_app, mails_app. simpl.
        destruct (mail_passes w (SellFailed _ _));
          rewrite ?R1, ?R2, ?R3, ?R4, ?R5, ?R6; simpl;
          (split; [right; exists q, size, cid; auto|]);
          repeat split; try lia; try (intros _; symmetry; exact Hack);
          destruct (email_configured w); simpl; try lia;
          try discriminate; reflexivity.
    + rewrite bool_decide_eq_false_2 by (intros [? ?]; discriminate). simpl.
      pose proof (mail_events_quiet w (smtp_reply env)
                    (SellFailed (name token) (KeyError (contract_address token))))
        as (R1 & R2 & R3 & R4 & R5 & R6).
      rewrite handled_snd, extend_extend.
      rewrite (mail_passes_same w), (mail_events_same w) by reflexivity.
      eexists. split; [reflexivity|].
      rewrite submitted_app, http_calls_app, sleeps_app,
        venue_calls_app, mails_app. simpl.
      destruct (mail_passes w (SellFailed _ _));
        rewrite ?R1, ?R2, ?R3, ?R4, ?R5, ?R6; simpl;
        (split; [right; exists q, size, cid; auto|]);
        repeat split; try lia; try (intros _; symmetry; exact Hack);
        destruct (email_configured w); simpl; try lia;
        try discriminate; reflexivity.
Qed.

(** ** The loop body of [monitor_and_trade] *)

Lemma check_rug_pull_calls reply a w :
  exists evs, check_rug_pull reply a w = (Ret (rug_ok reply), extend w evs)
              /\ quiet evs /\ http_calls evs = 1%nat /\ venue_calls evs = O
              /\ sleeps evs = [] /\ mails evs = [].
Proof.
  unfold check_rug_pull, rug_ok, quiet, extend. unfold_monad. simpl.
  destruct reply as [[status js]|e]; simpl.
  - destruct (status =? 200); simpl.
    + destruct js as [[]|e]; simpl; rewrite <- ?app_assoc; eauto 10.
    + rewrite <- ?app_assoc; eauto 10.
  - rewrite <- ?app_assoc; eauto 10.
Qed.

Lemma check_social_media_calls reply a w :
  exists evs, check_social_media reply a w = (Ret (social_ok reply), extend w evs)
              /\ quiet evs /\ http_calls evs = 1%nat /\ venue_calls evs = O
              /\ sleeps evs = [] /\ mails evs = [].
Proof.
  unfold check_social_media, social_ok, quiet, extend. unfold_monad. simpl.
  destruct reply as [[status js]|e]; simpl.
  - destruct (status =? 200); simpl.
    + destruct js as [[|account accounts]|e]; simpl; rewrite <- ?app_assoc; eauto 10.
    + rewrite <- ?app_assoc; eauto 10.
  - rewrite <- ?app_assoc; eauto 10.
Qed.

(** The loop body in full.  A token that fails a check, or whose
    address is held, costs records in the trace only.  Otherwise
    [buy_token] is called: the position is written exactly when the
    purchase goes through, and the watcher is created exactly when
    [buy_token] then returns [True], which takes the "Bought" mail being
    composed or skipped. *)
Lemma process_token_run env token w :
  exists evs,
    sleeps evs = []
    /\ if screening_passes env token then
         http_calls evs = 2%nat
         /\ if held w (contract_address token) then
              process_token env token w = (Ret tt, extend w evs)
              /\ venue_calls evs = O /\ already_holding evs = 1%nat
              /\ mails evs = [] /\ submitted evs = []
            else
              already_holding evs = O /\ (1 <= venue_calls evs <= 3)%nat
              /\ (length (mails evs) <= 1)%nat
              /\ snd (process_token env token w)
                 = {| email_configured := email_configured w;
                      open_positions :=
                        match book_top (buy_env env) with
                        | Ret (Some (price, _)) =>
                            if buy_goes_through (buy_env env)
                            then <[contract_address token :=
                                     {| initial_price := price;
                                        amount := SFdiv prec emax amount_sol price |}]>
                                   (open_positions w)
                            else open_positions w
                        | _ => open_positions w
                        end;
                      tasks :=
                        if buy_goes_through (buy_env env)
                           && success_mail_builds w (buy_env env) token
                        then tasks w ++ [Spawned token]
                        else tasks w;
                      trace := trace w ++ evs |}
              /\ (fst (process_token env token w) = Ret tt
                  \/ fst (process_token env token w) = Raise UnicodeEncodeError
                     /\ buy_goes_through (buy_env env)
                        && success_mail_builds w (buy_env env) token = false
                     /\ failure_mail_builds w (buy_env env) token = false
                     /\ email_configured w = true)
              /\ (submitted evs = [] /\ buy_goes_through (buy_env env) = false
                  \/ exists price size cid,
                       book_top (buy_env env) = Ret (Some (price, size))
                       /\ py_int (clock (buy_env env)) = Ret cid
                       /\ submitted evs
                          = [{| side := Buy; limit_price := price;
                                max_quantity := SFdiv prec emax amount_sol price;
                                client_id := cid |}])
       else
         process_token env token w = (Ret tt, extend w evs)
         /\ venue_calls evs = O /\ already_holding evs = O
         /\ submitted evs = [] /\ mails evs = []
         /\ http_calls evs
            = if local_checks_pass env token
              then if rug_ok (rug_reply env) then 2%nat else 1%nat
              else O.
Proof.
  destruct (process_token env token w) as [res w'] eqn:Hrun. revert Hrun.
  unfold process_token, screening_passes, local_checks_pass, age_in_window, held.
  unfold bind at 1. unfold lift at 1.
  destruct (time_since_launch_returns (now env) (launch_time token)) as [age ->].
  destruct (leb (of_int 5) age && leb age (of_int 10)); simpl;
    [|intros [= <- <-]; eexists; split; [|split; [reflexivity|]]; auto 10].
  destruct ((5000 <=? market_cap token) && (market_cap token <=? 10000)); simpl;
    [|intros [= <- <-]; eexists; split; [|split; [reflexivity|]]; auto 10].
  destruct (has_live_streams token); simpl;
    [intros [= <- <-]; eexists; split; [|split; [reflexivity|]]; auto 10|].
  unfold bind at 1.
  destruct (check_rug_pull_calls (rug_reply env) (contract_address token) w)
    as (ev1 & -> & [Hs1 Ha1] & Hh1 & Hv1 & Hz1 & Hm1).
  destruct (rug_ok (rug_reply env)); simpl.
  2:{ intros [= <- <-].
      exists (ev1 ++ [Log INFO (SkipRugPull (name token))]).
      rewrite sleeps_app, venue_calls_app, http_calls_app, already_holding_app,
        submitted_app, mails_app, Hz1, Hv1, Hh1, Ha1, Hs1, Hm1.
      split; [reflexivity|]. split; [|auto 10].
      unfold extend; simpl; rewrite <- app_assoc; reflexivity. }
  unfold bind at 1.
  destruct (check_social_media_calls (social_reply env) (contract_address token)
              (extend w ev1)) as (ev2 & -> & [Hs2 Ha2] & Hh2 & Hv2 & Hz2 & Hm2).
  rewrite extend_extend.
  destruct (social_ok (social_reply env)); simpl.
  2:{ intros [= <- <-].
      exists ((ev1 ++ ev2) ++ [Log INFO (SkipSocialMedia (name token))]).
      rewrite !sleeps_app, !venue_calls_app, !http_calls_app, !already_holding_app,
        !submitted_app, !mails_app,
        Hz1, Hv1, Hh1, Ha1, Hz2, Hv2, Hh2, Ha2, Hs1, Hs2, Hm1, Hm2.
      split; [reflexivity|]. split; [|auto 10].
      unfold extend; simpl; rewrite <- !app_assoc; reflexivity. }
  unfold bind at 1. unfold contains at 1. simpl.
  case_bool_decide as Hheld.
  { intros [= <- <-].
    exists ((ev1 ++ ev2) ++ [Log INFO (AlreadyHolding (name token))]).
    rewrite !sleeps_app, !venue_calls_app, !http_calls_app, !already_holding_app,
      !mails_app, !submitted_app,
      Hz1, Hv1, Hh1, Ha1, Hz2, Hv2, Hh2, Ha2, Hm1, Hm2, Hs1, Hs2.
    split; [reflexivity|]. split; [reflexivity|]. split; [|auto 10].
    unfold extend; simpl; rewrite <- !app_assoc; reflexivity. }
  unfold bind at 1.
  destruct (buy_token_world (buy_env env) token amount_sol (extend w (ev1 ++ ev2)))
    as (ev3 & Hw3 & Hsub & Hh3 & Hz3 & Ha3 & Hv3 & Hm3 & _).
  pose proof (buy_token_result (buy_env env) token amount_sol (extend w (ev1 ++ ev2)))
    as Hres.
  change (success_mail_builds (extend w (ev1 ++ ev2)) (buy_env env) token)
    with (success_mail_builds w (buy_env env) token) in Hres.
  change (failure_mail_builds (extend w (ev1 ++ ev2)) (buy_env env) token)
    with (failure_mail_builds w (buy_env env) token) in Hres.
  change (email_configured (extend w (ev1 ++ ev2))) with (email_configured w) in Hres.
  destruct (buy_token (buy_env env) token amount_sol (extend w (ev1 ++ ev2)))
    as [rb wb].
  cbn [fst snd] in Hw3, Hres. subst wb.
  cbn [extend email_configured open_positions tasks trace].
  intros Hrun.
  exists ((ev1 ++ ev2) ++ ev3).
  rewrite !sleeps_app, !venue_calls_app, !http_calls_app, !already_holding_app,
    !submitted_app, !mails_app,
    Hz1, Hv1, Hh1, Ha1, Hz2, Hv2, Hh2, Ha2, Hz3, Hh3, Ha3, Hs1, Hs2, Hm1, Hm2.
  split; [reflexivity|]. split; [reflexivity|]. split; [reflexivity|].
  split; [exact Hv3|]. split; [exact Hm3|]. cbn [app].
  destruct Hres as [->|(-> & Hgs & Hf & Hcfg)].
  - destruct (buy_goes_through (buy_env env)
              && success_mail_builds w (buy_env env) token);
      unfold create_task, ret in Hrun; cbn in Hrun;
      injection Hrun as <- <-; cbn [fst snd];
      (split; [rewrite <- !app_assoc; reflexivity|]);
      (split; [left; reflexivity|exact Hsub]).
  - injection Hrun as <- <-. cbn [fst snd]. rewrite Hgs.
    split; [rewrite <- !app_assoc; reflexivity|].
    split; [right; auto|exact Hsub].
Qed.

(** ** The [for] loop over tokens of one address *)

Lemma held_true w a : is_Some (open_positions w !! a) -> held w a = true.
Proof. intros H. unfold held. apply bool_decide_eq_true_2, H. Qed.

Lemma held_false w a : open_positions w !! a = None -> held w a = false.
Proof.
  intros H. unfold held. apply bool_decide_eq_false_2.
  rewrite H. intros [? ?]. discriminate.
Qed.

Lemma held_false_inv w a : held w a = false -> open_positions w !! a = None.
Proof.
  unfold held. intros H. apply bool_decide_eq_false in H.
  destruct (open_positions w !! a) eqn:E; [|reflexivity]. destruct H. eauto.
Qed.

Lemma all_clear_passes te : all_clear te -> screening_passes (snd te) (fst te) = true.
Proof. unfold all_clear. intros H. apply andb_prop in H as [H _]. exact H. Qed.

Lemma all_clear_goes te : all_clear te -> buy_goes_through (buy_env (snd te)) = true.
Proof. unfold all_clear. intros H. apply andb_prop in H as [_ H]. exact H. Qed.

Lemma for_tokens_cons te rest w :
  for_tokens (te :: rest) w =
    match process_token (snd te) (fst te) w with
    | (Ret _, w1) => for_tokens rest w1
    | (Raise e, w1) => (Raise e, w1)
    end.
Proof. destruct te as [token env]. reflexivity. Qed.

(** The loop body, seen from the dictionary: it leaves the dictionary
    and the tasks alone, or finds the address free and inserts the
    position, with a watcher if [buy_token] returned [True]. *)
Lemma process_token_cases env token w :
  exists evs,
    sleeps evs = [] /\
    ((snd (process_token env token w) = extend w evs
     /\ (fst (process_token env token w) = Ret tt
         \/ fst (process_token env token w) = Raise UnicodeEncodeError)
     /\ (is_Some (open_positions w !! contract_address token) ->
         fst (process_token env token w) = Ret tt
         /\ submitted evs = []
         /\ (screening_passes env token = true -> already_holding evs = 1%nat))
     /\ (open_positions w !! contract_address token = None ->
         screening_passes env token && buy_goes_through (buy_env env) = false))
    \/ (exists pos,
          let spawned := success_mail_builds w (buy_env env) token in
          snd (process_token env token w)
          = {| email_configured := email_configured w;
               open_positions := <[contract_address token := pos]> (open_positions w);
               tasks := if spawned then tasks w ++ [Spawned token] else tasks w;
               trace := trace w ++ evs |}
          /\ open_positions w !! contract_address token = None
          /\ (screening_passes env token && buy_goes_through (buy_env env) = true)
          /\ length (submitted evs) = 1%nat /\ already_holding evs = O
          /\ (fst (process_token env token w) = Ret tt
              \/ fst (process_token env token w) = Raise UnicodeEncodeError
                 /\ spawned = false))).
Proof.
  destruct (process_token_run env token w) as (evs & Hz & H).
  exists evs. split; [exact Hz|].
  destruct (screening_passes env token) eqn:Hs.
  2:{ left. destruct H as (-> & _ & Ha & Hsub & _). cbn [fst snd].
      split; [reflexivity|]. split; [auto|]. split; [|reflexivity].
      intros _. split; [reflexivity|]. split; [exact Hsub|discriminate]. }
  destruct H as (_ & H).
  destruct (held w (contract_address token)) eqn:Hh.
  { left. destruct H as (-> & _ & Ha & _ & Hsub). cbn [fst snd].
    split; [reflexivity|]. split; [auto|]. split.
    - intros _. split; [reflexivity|]. split; [exact Hsub|auto].
    - intros Hn. rewrite (held_false _ _ Hn) in Hh. discriminate. }
  apply held_false_inv in Hh.
  destruct H as (Ha & _ & _ & Hw & Hres & Hsub).
  destruct (buy_goes_through (buy_env env)) eqn:Hg.
  - right.
    destruct Hsub as [[_ Hc]|(price & size & cid & Hb & Hc & Hsub)]; [discriminate|].
    rewrite Hb in Hw. cbn [andb] in Hw.
    eexists. cbv zeta. split; [exact Hw|]. split; [exact Hh|].
    split; [reflexivity|]. rewrite Hsub. split; [reflexivity|]. split; [exact Ha|].
    destruct Hres as [Hr|(Hr & Hgs & _)]; [left; exact Hr|right].
    split; [exact Hr|exact Hgs].
  - left. cbn [andb] in Hw.
    assert (Hw' : snd (process_token env token w) = extend w evs).
    { rewrite Hw. destruct (book_top (buy_env env)) as [[[? ?]|]|]; reflexivity. }
    split; [exact Hw'|]. split.
    + destruct Hres as [Hr|(Hr & _)]; auto.
    + split; [|reflexivity].
      intros Hsome. rewrite Hh in Hsome. destruct Hsome as [? ?]. discriminate.
Qed.

Lemma pair_eta {A B} (p : A * B) (a : A) (b : B) :
  fst p = a -> snd p = b -> p = (a, b).
Proof. destruct p. simpl. intros -> ->. reflexivity. Qed.

(** While the address is held, the loop buys nothing. *)
Lemma for_tokens_held a tokens : forall w,
  Forall (same_address a) tokens ->
  is_Some (open_positions w !! a) ->
  exists evs,
    for_tokens tokens w = (Ret tt, extend w evs)
    /\ submitted evs = []
    /\ (Forall all_clear tokens -> already_holding evs = length tokens).
Proof.
  induction tokens as [|[token env] rest IH]; intros w Hall Hheld.
  - exists []. rewrite extend_nil. auto.
  - apply Forall_cons in Hall as [Ha Hall]. unfold same_address in Ha. simpl in Ha.
    rewrite for_tokens_cons. simpl fst; simpl snd.
    destruct (process_token_cases env token w)
      as (ev1 & _ & [(Hw & _ & Hq & _)|(pos & _ & Hn & _)]).
    + rewrite Ha in Hq. destruct (Hq Hheld) as (Hr & Hs1 & Hh1).
      rewrite (pair_eta _ _ _ Hr Hw).
      destruct (IH (extend w ev1) Hall Hheld) as (ev2 & -> & Hs2 & Hh2).
      exists (ev1 ++ ev2). rewrite extend_extend, submitted_app, Hs1, Hs2.
      split; [reflexivity|]. split; [reflexivity|].
      intros Hc. apply Forall_cons in Hc as [Hc1 Hc]. apply all_clear_passes in Hc1.
      rewrite already_holding_app, (Hh1 Hc1), (Hh2 Hc). reflexivity.
    + rewrite Ha in Hn. rewrite Hn in Hheld. destruct Hheld. discriminate.
Qed.

(** From a free address, the loop either leaves the address free or
    inserts once; the watcher comes with the insert when [buy_token]
    returned [True]. *)
Lemma for_tokens_free a tokens : forall w,
  Forall (same_address a) tokens ->
  open_positions w !! a = None ->
  exists evs,
    (snd (for_tokens tokens w) = extend w evs
     /\ (Forall all_clear tokens -> tokens = []))
    \/ (exists token pos (spawned : bool),
          contract_address token = a
          /\ snd (for_tokens tokens w)
             = {| email_configured := email_configured w;
                  open_positions := <[a := pos]> (open_positions w);
                  tasks := if spawned then tasks w ++ [Spawned token] else tasks w;
                  trace := trace w ++ evs |}
          /\ (Forall all_clear tokens ->
              Forall (notifiable w) tokens ->
              fst (for_tokens tokens w) = Ret tt
              /\ spawned = true
              /\ length (submitted evs) = 1%nat
              /\ S (already_holding evs) = length tokens)).
Proof.
  induction tokens as [|[token env] rest IH]; intros w Hall Hfree.
  - exists []. left. rewrite extend_nil. auto.
  - apply Forall_cons in Hall as [Ha Hall]. unfold same_address in Ha. simpl in Ha.
    rewrite for_tokens_cons. simpl fst; simpl snd.
    destruct (process_token_cases env token w)
      as (ev1 & _ & [(Hw & Hr & _ & Hq)|(pos & Hw & Hn & Hsg & Hs1 & Hh1 & Hr)]).
    + rewrite Ha in Hq. specialize (Hq Hfree).
      assert (Hnot : Forall all_clear ((token, env) :: rest) -> False).
      { intros Hc. apply Forall_cons in Hc as [Hc1 _].
        unfold all_clear in Hc1. simpl in Hc1. congruence. }
      destruct Hr as [Hr|Hr]; rewrite (pair_eta _ _ _ Hr Hw).
      * destruct (IH (extend w ev1) Hall Hfree)
          as [ev2 [(Heq & Hnil)|(tk & pos & sp & Htk & Heq & Hcl)]].
        -- exists (ev1 ++ ev2). left. rewrite Heq, extend_extend.
           split; [reflexivity|]. intros Hc. destruct (Hnot Hc).
        -- exists (ev1 ++ ev2). right. exists tk, pos, sp.
           split; [exact Htk|]. rewrite Heq. unfold extend.
           cbn [email_configured open_positions tasks trace]. rewrite <- app_assoc.
           split; [reflexivity|]. intros Hc. destruct (Hnot Hc).
      * exists ev1. left. cbn [snd]. split; [reflexivity|].
        intros Hc. destruct (Hnot Hc).
    + cbv zeta in Hw, Hr.
      set (spawned := success_mail_builds w (buy_env env) token) in *.
      assert (Hheld : is_Some (open_positions (snd (process_token env token w)) !! a)).
      { rewrite Hw. simpl. rewrite Ha, lookup_insert_eq. eauto. }
      destruct Hr as [Hr|[Hr Hsp]].
      * rewrite (pair_eta _ _ _ Hr eq_refl).
        destruct (for_tokens_held a rest _ Hall Hheld) as (ev2 & Heq & Hs2 & Hh2).
        rewrite Heq. exists (ev1 ++ ev2). right. exists token, pos, spawned.
        split; [exact Ha|]. cbn [fst snd]. rewrite Hw.
        unfold extend. cbn [email_configured open_positions tasks trace].
        rewrite <- app_assoc, Ha.
        split; [reflexivity|].
        intros Hc Hnt. apply Forall_cons in Hc as [_ Hc].
        apply Forall_cons in Hnt as [Hnt _].
        rewrite submitted_app, length_app, Hs1, Hs2, already_holding_app, Hh1, (Hh2 Hc).
        repeat split. exact Hnt.
      * rewrite (pair_eta _ _ _ Hr eq_refl).
        exists ev1. right. exists token, pos, spawned.
        split; [exact Ha|]. cbn [fst snd]. rewrite Hw, Ha.
        split; [reflexivity|].
        intros _ Hnt. apply Forall_cons in Hnt as [Hnt _].
        unfold notifiable in Hnt. simpl in Hnt. fold spawned in Hnt. congruence.
Qed.

(** ** A discovery pass only adds *)

Lemma success_mail_name w env token :
  success_mail_builds w env token = true ->
  email_configured w = true ->
  encodable (name token) = true.
Proof.
  unfold success_mail_builds. intros H Hc. rewrite Hc in H. simpl in H.
  apply andb_prop in H as [H _]. exact H.
Qed.

(** The [for] loop over any tokens: entries are only added, at
    addresses that were free; every new watcher is for a token of the
    list whose entry was added. *)
Lemma for_tokens_adds tokens : forall w,
  exists evs new,
    snd (for_tokens tokens w)
    = {| email_configured := email_configured w;
         open_positions := open_positions (snd (for_tokens tokens w));
         tasks := tasks w ++ (Spawned <$> new);
         trace := trace w ++ evs |}
    /\ (fst (for_tokens tokens w) = Ret tt
        \/ fst (for_tokens tokens w) = Raise UnicodeEncodeError)
    /\ sleeps evs = []
    /\ open_positions w ⊆ open_positions (snd (for_tokens tokens w))
    /\ NoDup (contract_address <$> new)
    /\ (forall t, t ∈ new ->
          t ∈ (fst <$> tokens)
          /\ open_positions w !! contract_address t = None
          /\ is_Some (open_positions (snd (for_tokens tokens w)) !! contract_address t)
          /\ (email_configured w = true -> encodable (name t) = true))
    /\ (forall a, is_Some (open_positions (snd (for_tokens tokens w)) !! a) ->
          is_Some (open_positions w !! a)
          \/ exists t, t ∈ (fst <$> tokens) /\ contract_address t = a)
    /\ (Forall (notifiable w) tokens ->
        dom (open_positions (snd (for_tokens tokens w)))
        = dom (open_positions w) ∪ list_to_set (contract_address <$> new)).
Proof.
  induction tokens as [|[token env] rest IH]; intros w.
  - exists [], []. simpl. rewrite !app_nil_r. destruct w; simpl.
    split; [reflexivity|]. split; [auto|]. split; [reflexivity|].
    split; [reflexivity|]. split; [constructor|].
    split; [intros t Ht; inversion Ht|]. split; [auto|].
    intros _. rewrite (right_id_L ∅ (∪)); reflexivity.
  - rewrite for_tokens_cons. cbn [fst snd].
    destruct (process_token_cases env token w)
      as (ev1 & Hz1 & [(Hw & Hr & _ & _)|(pos & Hw & Hfree & Hsg & _ & _ & Hr)]).
    + (* nothing inserted *)
      destruct Hr as [Hr|Hr]; rewrite (pair_eta _ _ _ Hr Hw); cbv beta iota.
      * destruct (IH (extend w ev1))
          as (ev2 & new & Heq & Hres & Hz2 & Hsub & Hnd & Hnew & Hdom & Hall).
        exists (ev1 ++ ev2), new.
        unfold extend in Heq, Hsub, Hnew, Hdom, Hall.
        cbn [email_configured open_positions tasks trace] in *.
        rewrite <- app_assoc in Heq. rewrite sleeps_app, Hz1, Hz2.
        split; [exact Heq|]. split; [exact Hres|]. split; [reflexivity|].
        split; [exact Hsub|]. split; [exact Hnd|]. split; [|split].
        -- intros t Ht. destruct (Hnew t Ht) as (Hin & Hf & Hs & He).
           split; [rewrite fmap_cons; apply list_elem_of_further, Hin|auto].
        -- intros a Ha. destruct (Hdom a Ha) as [?|(t & Ht & Hta)]; [auto|].
           right. exists t. split; [rewrite fmap_cons; apply list_elem_of_further, Ht|exact Hta].
        -- intros Hn. apply Forall_cons in Hn as [_ Hn]. apply Hall. exact Hn.
      * exists ev1, []. cbn [fst snd fmap list_fmap]. unfold extend.
        cbn [email_configured open_positions tasks trace]. rewrite app_nil_r.
        split; [reflexivity|]. split; [auto|]. split; [exact Hz1|].
        split; [reflexivity|]. split; [constructor|].
        split; [intros t Ht; inversion Ht|]. split; [auto|].
        intros _. cbn. rewrite (right_id_L ∅ (∪)); reflexivity.
    + (* inserted at a free address *)
      cbv zeta in Hw, Hr.
      set (w1 := snd (process_token env token w)) in *.
      assert (Hcfg1 : email_configured w1 = email_configured w) by (rewrite Hw; reflexivity).
      assert (Hpos1 : open_positions w1
                      = <[contract_address token := pos]> (open_positions w))
        by (rewrite Hw; reflexivity).
      assert (Htr1 : trace w1 = trace w ++ ev1) by (rewrite Hw; reflexivity).
      assert (Hts1 : tasks w1
                     = if success_mail_builds w (buy_env env) token
                       then tasks w ++ [Spawned token] else tasks w)
        by (rewrite Hw; reflexivity).
      assert (Hsub1 : open_positions w ⊆ open_positions w1)
        by (rewrite Hpos1; apply insert_subseteq, Hfree).
      assert (Hback : forall t, open_positions w1 !! contract_address t = None ->
                        open_positions w !! contract_address t = None
                        /\ contract_address t <> contract_address token).
      { intros t Hn. rewrite Hpos1 in Hn. apply lookup_insert_None in Hn as [? ?].
        split; [assumption|congruence]. }
      assert (Hdom1 : forall a, is_Some (open_positions w1 !! a) ->
                        is_Some (open_positions w !! a)
                        \/ exists t, t ∈ (fst <$> (token, env) :: rest)
                                     /\ contract_address t = a).
      { intros a Ha. rewrite Hpos1 in Ha.
        destruct (decide (a = contract_address token)) as [->|Hne].
        - right. exists token. split; [rewrite fmap_cons; apply list_elem_of_here|reflexivity].
        - rewrite lookup_insert_ne in Ha by congruence. auto. }
      destruct Hr as [Hr|[Hr Hsp]]; rewrite (pair_eta _ _ _ Hr eq_refl);
        cbv beta iota; fold w1.
      * destruct (IH w1)
          as (ev2 & new & Heq & Hres & Hz2 & Hsub & Hnd & Hnew & Hdom & Hall).
        rewrite Hcfg1, Htr1, Hts1 in Heq. rewrite <- app_assoc in Heq.
        destruct (success_mail_builds w (buy_env env) token) eqn:Hsp.
        -- exists (ev1 ++ ev2), (token :: new).
           rewrite fmap_cons. rewrite <- app_assoc in Heq.
           split; [exact Heq|]. split; [exact Hres|].
           split; [rewrite sleeps_app, Hz1, Hz2; reflexivity|].
           split; [etrans; eassumption|]. split; [|split; [|split]].
           ++ rewrite fmap_cons. apply NoDup_cons. split; [|exact Hnd].
              intros Hin. apply list_elem_of_fmap in Hin as (t & Heqa & Ht).
              destruct (Hnew t Ht) as (_ & Hn & _).
              destruct (Hback t Hn) as [_ Hne]. congruence.
           ++ intros t Ht. apply elem_of_cons in Ht as [->|Ht].
              ** split; [rewrite fmap_cons; apply list_elem_of_here|].
                 split; [exact Hfree|]. split.
                 { eapply lookup_weaken_is_Some; [|exact Hsub].
                   rewrite Hpos1, lookup_insert_eq. eauto. }
                 intros Hc. apply (success_mail_name w (buy_env env)); assumption.
              ** destruct (Hnew t Ht) as (Hin & Hn & Hs & He).
                 split; [rewrite fmap_cons; apply list_elem_of_further, Hin|].
                 split; [apply Hback, Hn|]. split; [exact Hs|].
                 rewrite Hcfg1 in He. exact He.
           ++ intros a Ha. destruct (Hdom a Ha) as [Hs|(t & Ht & Hta)].
              ** apply Hdom1, Hs.
              ** right. exists t.
                 split; [rewrite fmap_cons; apply list_elem_of_further, Ht|exact Hta].
           ++ intros Hn. apply Forall_cons in Hn as [_ Hn].
              rewrite Hall.
              ** rewrite Hpos1, dom_insert_L, fmap_cons, list_to_set_cons.
                 rewrite (comm_L (∪) {[contract_address token]} (dom (open_positions w))).
                 rewrite (assoc_L (∪)). reflexivity.
              ** eapply Forall_impl; [exact Hn|].
                 intros te Hte. unfold notifiable, success_mail_builds in *.
                 rewrite Hcfg1. exact Hte.
        -- exists (ev1 ++ ev2), new.
           split; [exact Heq|]. split; [exact Hres|].
           split; [rewrite sleeps_app, Hz1, Hz2; reflexivity|].
           split; [etrans; eassumption|]. split; [exact Hnd|]. split; [|split].
           ++ intros t Ht. destruct (Hnew t Ht) as (Hin & Hn & Hs & He).
              split; [rewrite fmap_cons; apply list_elem_of_further, Hin|].
              split; [apply Hback, Hn|]. split; [exact Hs|].
              rewrite Hcfg1 in He. exact He.
           ++ intros a Ha. destruct (Hdom a Ha) as [Hs|(t & Ht & Hta)].
              ** apply Hdom1, Hs.
              ** right. exists t.
                 split; [rewrite fmap_cons; apply list_elem_of_further, Ht|exact Hta].
           ++ intros Hn. apply Forall_cons in Hn as [Hn _].
              unfold notifiable in Hn. simpl in Hn. congruence.
      * exists ev1, []. cbn [fst snd fmap list_fmap]. rewrite app_nil_r.
        rewrite Hsp in Hts1.
        split; [rewrite <- Hcfg1, <- Hts1, <- Htr1; destruct w1; reflexivity|].
        split; [auto|]. split; [exact Hz1|].
        split; [exact Hsub1|]. split; [constructor|].
        split; [intros t Ht; inversion Ht|]. split; [exact Hdom1|].
        intros Hn. apply Forall_cons in Hn as [Hn _].
        unfold notifiable in Hn. simpl in Hn. congruence.
Qed.

(** One pass of [monitor_and_trade]: the exception that the loop may
    let out is caught and mailed (its text can always be encoded), so
    the pass itself returns. *)
Lemma monitor_and_trade_pass_adds tokens smtp w :
  let w' := snd (monitor_and_trade_pass tokens smtp w) in
  fst (monitor_and_trade_pass tokens smtp w) = Ret tt
  /\ email_configured w' = email_configured w
  /\ sleeps (events_since w w') = [600]
  /\ open_positions w ⊆ open_positions w'
  /\ exists new,
       tasks w' = tasks w ++ (Spawned <$> new)
       /\ NoDup (contract_address <$> new)
       /\ (forall t, t ∈ new ->
             t ∈ (fst <$> tokens)
             /\ open_positions w !! contract_address t = None
             /\ is_Some (open_positions w' !! contract_address t)
             /\ (email_configured w = true -> encodable (name t) = true))
       /\ (forall a, is_Some (open_positions w' !! a) ->
             is_Some (open_positions w !! a)
             \/ exists t, t ∈ (fst <$> tokens) /\ contract_address t = a)
       /\ (Forall (notifiable w) tokens ->
           dom (open_positions w')
           = dom (open_positions w) ∪ list_to_set (contract_address <$> new)).
Proof.
  intros w'. subst w'. unfold monitor_and_trade_pass. unfold_monad. simpl.
  match goal with
  | |- context [for_tokens tokens ?x] =>
      destruct (for_tokens_adds tokens x)
        as (evs & new & Heq & Hres & Hz & Hsub & Hnd & Hnew & Hdom & Hall);
      destruct (for_tokens tokens x) as [r w1]
  end.
  cbn [fst snd email_configured open_positions tasks trace] in *.
  assert (Hw1 : open_positions w1 = open_positions w1) by reflexivity.
  rewrite Heq in Hw1 at 1. cbn [open_positions] in Hw1. clear Hw1.
  destruct Hres as [->| ->].
  - rewrite Heq. cbn [fst snd email_configured open_positions tasks trace].
    split; [reflexivity|]. split; [reflexivity|]. split.
    { unfold events_since. cbn [trace]. rewrite <- !app_assoc, drop_app_length.
      cbn [app sleeps]. rewrite sleeps_app, Hz. reflexivity. }
    split; [exact Hsub|]. exists new. auto.
  - rewrite send_email_run.
    assert (Hp : forall x, mail_passes x (BotError UnicodeEncodeError) = true)
      by (intros x; unfold mail_passes; apply orb_true_r).
    rewrite Hp. rewrite Heq.
    cbn [fst snd extend email_configured open_positions tasks trace].
    split; [reflexivity|]. split; [reflexivity|]. split.
    { unfold events_since. cbn [trace]. rewrite <- !app_assoc, drop_app_length.
      cbn [app sleeps]. rewrite !sleeps_app, Hz. cbn [app sleeps].
      rewrite !sleeps_app. cbn [app sleeps].
      match goal with
      | |- context [mail_events ?x ?s ?m] =>
          destruct (mail_events_quiet x s m) as (_ & _ & _ & -> & _)
      end.
      reflexivity. }
    split; [exact Hsub|]. exists new. auto.
Qed.

(** ** One pass of the watcher *)

Lemma monitor_price_pass_run menv token p0 amt w :
  monitor_price_pass menv token p0 amt w =
    match watch_top menv with
    | Ret (Some (q, _)) =>
        if geb q (target_price p0) then
          match sell_token (sell_env menv) token p0 amt
                  (extend w [LoadAsks; Log INFO (CurrentPrice (name token) q);
                             Log INFO (TargetReached (name token))]) with
          | (Ret _, w') => (Ret Break, w')
          | (Raise e, w') => watch_handled w' (watch_smtp menv) token e
          end
        else
          (Ret Continue,
           extend w [LoadAsks; Log INFO (CurrentPrice (name token) q); Sleep 300])
    | Ret None =>
        (Ret Continue,
         extend w [LoadAsks; Log WARNING (NoAsksMonitor (name token)); Sleep 300])
    | Raise e => watch_handled (extend w [LoadAsks]) (watch_smtp menv) token e
    end.
Proof.
  assert (Hh : forall e x,
             (logger ERROR (MonitorError (name token) e) ;;;
              send_email (watch_smtp menv) (MonitoringError (name token) e) ;;;
              emit (Sleep 300) ;;; ret Continue) x
             = watch_handled x (watch_smtp menv) token e).
  { intros e x. unfold watch_handled. unfold_monad. rewrite send_email_run.
    rewrite (mail_passes_same x), (mail_events_same x) by reflexivity.
    destruct (mail_passes x _); unfold extend; simpl;
      rewrite <- ?app_assoc; reflexivity. }
  unfold monitor_price_pass. unfold try_except.
  match goal with
  | |- match ?body w with _ => _ end = _ => destruct (body w) as [r w1] eqn:Hbody
  end.
  revert Hbody. unfold_monad. simpl.
  destruct (watch_top menv) as [[[q size]|]|e]; simpl.
  - rewrite target_price_eq.
    destruct (geb q (target_price p0)); simpl.
    + unfold extend. simpl. rewrite <- !app_assoc. simpl.
      match goal with
      | |- context [sell_token ?e ?t ?p ?a ?x] =>
          destruct (sell_token e t p a x) as [[b|e'] w2]
      end; intros [= <- <-]; [reflexivity|apply Hh].
    + intros [= <- <-]. unfold extend. rewrite <- !app_assoc. reflexivity.
  - intros [= <- <-]. unfold extend. rewrite <- !app_assoc. reflexivity.
  - intros [= <- <-]. apply Hh.
Qed.

Lemma world_eta (w : World) :
  w = {| email_configured := email_configured w;
         open_positions := open_positions w;
         tasks := tasks w; trace := trace w |}.
Proof. destruct w; reflexivity. Qed.

(** Everything one pass of the watcher's loop can do, run after the
    effects [ev0].  Without an ask at or above the target it sleeps and
    goes on, unless reading the book raised and the mail about it cannot
    be composed: then the exception leaves the loop.  With such an ask
    it calls [sell_token] and ends, unless [sell_token] raised: then the
    [except] clause mails, sleeps and the watcher goes on. *)
Lemma monitor_price_pass_cases menv token p0 amt w ev0 :
  let run := monitor_price_pass menv token p0 amt (extend w ev0) in
  let sold := sell_goes_through (sell_env menv) p0
              && held w (contract_address token) in
  let ledger := if sold then delete (contract_address token) (open_positions w)
                else open_positions w in
  let order_facts evs :=
    (submitted evs = [] /\ sell_goes_through (sell_env menv) p0 = false
     \/ exists q size cid,
          book_top (sell_env menv) = Ret (Some (q, size))
          /\ ltb q (target_price p0) = false
          /\ py_int (clock (sell_env menv)) = Ret cid
          /\ submitted evs
             = [{| side := Sell; limit_price := q;
                   max_quantity := amt; client_id := cid |}]) in
  exists evs,
    http_calls evs = O /\
    ((triggered menv p0 = false
      /\ watch_mail_builds w menv = true
      /\ run = (Ret Continue, extend w (ev0 ++ evs))
      /\ submitted evs = [] /\ sleeps evs = [300] /\ venue_calls evs = 1%nat)
     \/ (triggered menv p0 = false
         /\ watch_mail_builds w menv = false
         /\ run = (Raise UnicodeEncodeError, extend w (ev0 ++ evs))
         /\ submitted evs = [] /\ sleeps evs = [] /\ venue_calls evs = 1%nat)
     \/ (triggered menv p0 = true
         /\ run = (Ret Break,
                   {| email_configured := email_configured w;
                      open_positions := ledger;
                      tasks := tasks w;
                      trace := trace w ++ ev0 ++ evs |})
         /\ sleeps evs = [] /\ (2 <= venue_calls evs)%nat
         /\ order_facts evs)
     \/ (triggered menv p0 = true
         /\ run = (Ret Continue,
                   {| email_configured := email_configured w;
                      open_positions := ledger;
                      tasks := tasks w;
                      trace := trace w ++ ev0 ++ evs |})
         /\ sleeps evs = [300] /\ (2 <= venue_calls evs)%nat
         /\ order_facts evs
         /\ failure_mail_builds w (sell_env menv) token = false
         /\ email_configured w = true
         /\ (sold = true -> encodable (name token) = false))).
Proof.
  intros run sold ledger order_facts. subst run.
  rewrite monitor_price_pass_run. unfold triggered, watch_mail_builds.
  destruct (watch_top menv) as [[[q size]|]|e].
  - destruct (geb q (target_price p0)) eqn:Hge.
    + set (ev1 := [LoadAsks; Log INFO (CurrentPrice (name token) q);
                   Log INFO (TargetReached (name token))]).
      rewrite extend_extend.
      destruct (sell_token_world (sell_env menv) token p0 amt (extend w (ev0 ++ ev1)))
        as (ev2 & Hw2 & Hsub & Hh2 & Hz2 & Hv2 & _).
      pose proof (sell_token_result (sell_env menv) token p0 amt (extend w (ev0 ++ ev1)))
        as Hres.
      change (held (extend w (ev0 ++ ev1)) (contract_address token))
        with (held w (contract_address token)) in *.
      change (success_mail_builds (extend w (ev0 ++ ev1)) (sell_env menv) token)
        with (success_mail_builds w (sell_env menv) token) in *.
      change (failure_mail_builds (extend w (ev0 ++ ev1)) (sell_env menv) token)
        with (failure_mail_builds w (sell_env menv) token) in *.
      change (email_configured (extend w (ev0 ++ ev1)))
        with (email_configured w) in *.
      fold sold in Hw2, Hres.
      destruct (sell_token (sell_env menv) token p0 amt (extend w (ev0 ++ ev1)))
        as [rs w2].
      cbn [fst snd] in Hw2, Hres. subst w2.
      unfold extend in *. cbn [email_configured open_positions tasks trace] in *.
      fold ledger.
      destruct Hres as [->|(-> & Hgs & Hf & Hcfg & Hname)].
      * exists (ev1 ++ ev2). rewrite http_calls_app, Hh2. split; [reflexivity|].
        right; right; left.
        split; [reflexivity|]. split; [rewrite <- !app_assoc; reflexivity|].
        rewrite sleeps_app, venue_calls_app, Hz2. cbn.
        split; [reflexivity|]. split; [lia|].
        subst order_facts. cbv beta. rewrite ?submitted_app. exact Hsub.
      * unfold watch_handled.
        assert (Hp : forall x, mail_passes x
                       (MonitoringError (name token) UnicodeEncodeError) = true)
          by (intros x; unfold mail_passes; apply orb_true_r).
        rewrite Hp. unfold extend.
        cbn [email_configured open_positions tasks trace].
        match goal with
        | |- context [mail_events ?x ?s ?m] =>
            destruct (mail_events_quiet x s m) as (Q1 & Q2 & Q3 & Q4 & _);
            set (ev3 := mail_events x s m) in *
        end.
        set (evs := ev1 ++ ev2
                    ++ Log ERROR (MonitorError (name token) UnicodeEncodeError)
                    :: ev3 ++ [Sleep 300]).
        assert (Hs3 : submitted evs = submitted ev2).
        { subst evs. rewrite !submitted_app. simpl.
          rewrite submitted_app, Q1. simpl. apply app_nil_r. }
        assert (Hz3 : sleeps evs = [300]).
        { subst evs. rewrite !sleeps_app, Hz2. simpl.
          rewrite sleeps_app, Q4. reflexivity. }
        assert (Hv3 : venue_calls evs = S (venue_calls ev2)).
        { subst evs. rewrite !venue_calls_app. simpl.
          rewrite venue_calls_app, Q2. simpl. lia. }
        assert (Hh3 : http_calls evs = O).
        { subst evs. rewrite !http_calls_app, Hh2. simpl.
          rewrite http_calls_app, Q3. reflexivity. }
        exists evs. split; [exact Hh3|].
        right; right; right.
        split; [reflexivity|].
        split; [subst evs; rewrite <- !app_assoc; reflexivity|].
        split; [exact Hz3|]. split; [rewrite Hv3; lia|].
        split; [subst order_facts; cbv beta; rewrite Hs3; exact Hsub|auto].
    + exists [LoadAsks; Log INFO (CurrentPrice (name token) q); Sleep 300].
      split; [reflexivity|]. left.
      rewrite extend_extend, orb_true_r. repeat split; reflexivity.
  - exists [LoadAsks; Log WARNING (NoAsksMonitor (name token)); Sleep 300].
    split; [reflexivity|]. left.
    rewrite extend_extend, orb_true_r. repeat split; reflexivity.
  - unfold watch_handled. rewrite !extend_extend.
    change (mail_passes (extend w (ev0 ++ [LoadAsks])) (MonitoringError (name token) e))
      with (negb (email_configured w) || text_encodable e).
    match goal with
    | |- context [mail_events ?x ?s ?m] =>
        destruct (mail_events_quiet x s m) as (Q1 & Q2 & Q3 & Q4 & _);
        set (ev3 := mail_events x s m) in *
    end.
    destruct (negb (email_configured w) || text_encodable e).
    + exists (LoadAsks :: Log ERROR (MonitorError (name token) e) :: ev3 ++ [Sleep 300]).
      cbn. rewrite http_calls_app, Q3. split; [reflexivity|]. left.
      split; [reflexivity|]. split; [reflexivity|].
      split; [rewrite <- app_assoc; reflexivity|].
      rewrite submitted_app, sleeps_app, venue_calls_app, Q1, Q2, Q4.
      repeat split; reflexivity.
    + exists [LoadAsks; Log ERROR (MonitorError (name token) e)].
      split; [reflexivity|]. right; left.
      split; [reflexivity|]. split; [reflexivity|].
      split; [rewrite <- app_assoc; reflexivity|].
      repeat split; reflexivity.
Qed.

(** ** A watcher's run *)

Lemma task_backed_ledger w w' k :
  open_positions w' = open_positions w -> task_backed w k -> task_backed w' k.
Proof. unfold task_backed. intros ->. auto. Qed.

Lemma task_backed_is_Some w k :
  task_backed w k -> is_Some (open_positions w !! task_address k).
Proof.
  unfold task_address. destruct k; simpl; [auto|]. intros ->. eauto.
Qed.

Lemma task_backed_position w k :
  task_backed w k ->
  open_positions w !! task_address k = Some (task_position w k).
Proof.
  unfold task_address. destruct k as [t|t p0 amt]; simpl; [|auto].
  intros [pos ->]. reflexivity.
Qed.

Lemma resume_run menv k w :
  task_backed w k ->
  let pos := task_position w k in
  let ev0 := match k with
             | Spawned t => [Log INFO (Monitoring (name t) (initial_price pos))]
             | Watching _ _ _ => []
             end in
  resume menv k w =
    match monitor_price_pass menv (task_token k) (initial_price pos) (amount pos)
            (extend w ev0) with
    | (Ret Continue, w2) =>
        (Ret (Some (Watching (task_token k) (initial_price pos) (amount pos))), w2)
    | (_, w2) => (Ret None, w2)
    end.
Proof.
  intros Hb. destruct k as [t|t p0 amt]; simpl in *.
  - destruct Hb as [pos Hpos]. unfold monitor_price_start. rewrite Hpos. simpl.
    unfold_monad. simpl. unfold extend.
    destruct (monitor_price_pass menv t (initial_price pos) (amount pos) _)
      as [[[]|] w2]; reflexivity.
  - rewrite extend_nil.
    destruct (monitor_price_pass menv t p0 amt w) as [[[]|] w2]; reflexivity.
Qed.

(** Everything one run of a task between two suspensions can do, when
    its entry is there. *)
Lemma run_task_run i menv k w :
  tasks w !! i = Some k ->
  task_backed w k ->
  let pos := task_position w k in
  let token := task_token k in
  let goes := sell_goes_through (sell_env menv) (initial_price pos) in
  let ledger := if goes then delete (task_address k) (open_positions w)
                else open_positions w in
  let watching := <[i := Watching token (initial_price pos) (amount pos)]> (tasks w) in
  let order_facts evs :=
    (submitted evs = [] /\ goes = false
     \/ exists q size cid,
          book_top (sell_env menv) = Ret (Some (q, size))
          /\ ltb q (target_price (initial_price pos)) = false
          /\ py_int (clock (sell_env menv)) = Ret cid
          /\ submitted evs
             = [{| side := Sell; limit_price := q;
                   max_quantity := amount pos; client_id := cid |}]) in
  exists evs,
    http_calls evs = O /\
    ((triggered menv (initial_price pos) = false
      /\ watch_mail_builds w menv = true
      /\ run_task i menv w = Some (set_tasks watching (extend w evs))
      /\ submitted evs = [] /\ sleeps evs = [300])
     \/ (triggered menv (initial_price pos) = false
         /\ watch_mail_builds w menv = false
         /\ run_task i menv w = Some (set_tasks (delete i (tasks w)) (extend w evs))
         /\ submitted evs = [] /\ sleeps evs = [])
     \/ (triggered menv (initial_price pos) = true
         /\ run_task i menv w
            = Some {| email_configured := email_configured w;
                      open_positions := ledger;
                      tasks := delete i (tasks w);
                      trace := trace w ++ evs |}
         /\ sleeps evs = [] /\ order_facts evs)
     \/ (triggered menv (initial_price pos) = true
         /\ run_task i menv w
            = Some {| email_configured := email_configured w;
                      open_positions := ledger;
                      tasks := watching;
                      trace := trace w ++ evs |}
         /\ sleeps evs = [300] /\ order_facts evs
         /\ failure_mail_builds w (sell_env menv) token = false
         /\ email_configured w = true
         /\ (goes = true -> encodable (name token) = false))).
Proof.
  intros Hi Hb pos token goes ledger watching order_facts.
  unfold run_task. rewrite Hi, (resume_run menv k w Hb).
  fold pos token.
  set (ev0 := match k with
              | Spawned t => [Log INFO (Monitoring (name t) (initial_price pos))]
              | Watching _ _ _ => []
              end).
  assert (Hz0 : sleeps ev0 = [] /\ submitted ev0 = [] /\ http_calls ev0 = O)
    by (destruct k; repeat split; reflexivity).
  destruct Hz0 as (Hz0 & Hs0 & Hh0).
  assert (Hheld : held w (contract_address token) = true)
    by (apply held_true, (task_backed_is_Some w k Hb)).
  destruct (monitor_price_pass_cases menv token (initial_price pos) (amount pos) w ev0)
    as (evs & Hh & H).
  rewrite Hheld, andb_true_r in H. fold goes in H.
  change (contract_address token) with (task_address k) in H. fold ledger in H.
  exists (ev0 ++ evs). rewrite http_calls_app, Hh0, Hh. split; [reflexivity|].
  rewrite submitted_app, sleeps_app, Hs0, Hz0. cbn [app].
  destruct H as [(Ht & Hm & -> & Hs & Hz & _)
                |[(Ht & Hm & -> & Hs & Hz & _)
                 |[(Ht & -> & Hz & _ & Ho)
                  |(Ht & -> & Hz & _ & Ho & Hf & Hcfg & Hn)]]].
  - left. repeat split; auto.
  - right; left. repeat split; auto.
  - right; right; left. repeat split; auto.
    subst order_facts. cbv beta. rewrite submitted_app, Hs0. exact Ho.
  - right; right; right. repeat split; auto.
    subst order_facts. cbv beta. rewrite submitted_app, Hs0. exact Ho.
Qed.

(** ** The invariant *)

Lemma NoDup_fmap_delete_fresh {A B} (f : A -> B) (l : list A) i x y :
  NoDup (f <$> l) -> l !! i = Some x -> y ∈ delete i l -> f y <> f x.
Proof.
  intros Hnd Hi Hy Heq.
  rewrite <- (take_drop_middle l i x Hi) in Hnd.
  rewrite delete_take_drop in Hy.
  rewrite fmap_app, fmap_cons in Hnd.
  apply NoDup_app in Hnd as (_ & Hdis & Hnd).
  apply NoDup_cons in Hnd as [Hnot _].
  apply elem_of_app in Hy as [Hy|Hy].
  - apply (Hdis (f y)); [apply list_elem_of_fmap_2, Hy|].
    rewrite Heq. apply list_elem_of_here.
  - apply Hnot. rewrite <- Heq. apply list_elem_of_fmap_2, Hy.
Qed.

Lemma task_backed_weaken w w' k :
  open_positions w ⊆ open_positions w' -> task_backed w k -> task_backed w' k.
Proof.
  intros Hsub. destruct k as [t|t p0 amt]; simpl.
  - intros H. eapply lookup_weaken_is_Some; eassumption.
  - intros H. eapply lookup_weaken; eassumption.
Qed.

(** A discovery pass keeps the invariant: the new watchers are for
    addresses that were free, hence watched by no task, and each has
    its entry. *)
Lemma monitor_and_trade_pass_backed tokens smtp w :
  monitors_backed w -> watched_names_encodable w ->
  monitors_backed (snd (monitor_and_trade_pass tokens smtp w))
  /\ watched_names_encodable (snd (monitor_and_trade_pass tokens smtp w)).
Proof.
  intros [Hnd Hb] Hnames.
  destruct (monitor_and_trade_pass_adds tokens smtp w)
    as (_ & Hcfg & _ & Hsub & new & Hts & Hndn & Hnew & _).
  cbv zeta in *.
  set (w' := snd (monitor_and_trade_pass tokens smtp w)) in *.
  split; [split|].
  - rewrite Hts, fmap_app. apply NoDup_app. split; [exact Hnd|]. split.
    + intros a Ha Hin.
      apply list_elem_of_fmap in Ha as (k & -> & Hk).
      rewrite <- list_fmap_compose in Hin.
      apply list_elem_of_fmap in Hin as (t & Heq & Ht).
      destruct (Hnew t Ht) as (_ & Hfree & _).
      apply Hb, task_backed_is_Some in Hk.
      simpl in Heq. unfold task_address in Heq at 2. simpl in Heq.
      rewrite Heq, Hfree in Hk. destruct Hk. discriminate.
    + rewrite <- list_fmap_compose. exact Hndn.
  - intros k Hk. rewrite Hts in Hk. apply elem_of_app in Hk as [Hk|Hk].
    + apply (task_backed_weaken w); [exact Hsub|apply Hb, Hk].
    + apply list_elem_of_fmap in Hk as (t & -> & Ht).
      destruct (Hnew t Ht) as (_ & _ & Hs & _). exact Hs.
  - intros Hc k Hk. rewrite Hcfg in Hc. rewrite Hts in Hk.
    apply elem_of_app in Hk as [Hk|Hk].
    + apply Hnames; assumption.
    + apply list_elem_of_fmap in Hk as (t & -> & Ht).
      destruct (Hnew t Ht) as (_ & _ & _ & He). apply He, Hc.
Qed.

(** A run of a watcher keeps the invariant.  The one way to lose an
    entry with its watcher still there would be [sell_token] raising
    after the deletion; that takes a name that cannot be encoded, which
    no watched token has when there are credentials. *)
Lemma run_task_backed i env w w' :
  monitors_backed w -> watched_names_encodable w ->
  run_task i env w = Some w' ->
  monitors_backed w' /\ watched_names_encodable w'.
Proof.
  intros [Hnd Hb] Hnames Hrun.
  destruct (tasks w !! i) as [k|] eqn:Hi;
    [|unfold run_task in Hrun; rewrite Hi in Hrun; discriminate].
  assert (Hin : k ∈ tasks w) by (eapply list_elem_of_lookup_2, Hi).
  assert (Hk : task_backed w k) by (apply Hb, Hin).
  assert (Hgo : forall evs c,
             monitors_backed
               {| email_configured := c;
                  open_positions := open_positions w;
                  tasks := <[i := Watching (task_token k)
                                    (initial_price (task_position w k))
                                    (amount (task_position w k))]> (tasks w);
                  trace := trace w ++ evs |}).
  { intros evs c. split; simpl.
    - rewrite list_fmap_insert, list_insert_id; [exact Hnd|].
      rewrite list_lookup_fmap, Hi. reflexivity.
    - intros k' Hk'. apply list_elem_of_lookup_1 in Hk' as [j Hj].
      apply list_lookup_insert_Some in Hj as [(-> & <- & _)|(Hne & Hj)].
      + destruct k as [token|token p0 amt]; simpl in *; [|exact Hk].
        destruct Hk as [pos Hpos]. rewrite Hpos. simpl. destruct pos; reflexivity.
      + apply (task_backed_ledger w); [reflexivity|].
        apply Hb. eapply list_elem_of_lookup_2, Hj. }
  assert (Hend : forall evs c (sold : bool),
             monitors_backed
               {| email_configured := c;
                  open_positions :=
                    if sold then delete (task_address k) (open_positions w)
                    else open_positions w;
                  tasks := delete i (tasks w);
                  trace := trace w ++ evs |}).
  { intros evs c sold. split; simpl.
    - rewrite list_fmap_delete. eapply sublist_NoDup; [exact Hnd|apply sublist_delete].
    - intros k' Hk'.
      pose proof (NoDup_fmap_delete_fresh task_address _ _ _ _ Hnd Hi Hk') as Hne.
      apply list_elem_of_delete_inv in Hk'.
      specialize (Hb k' Hk'). unfold task_address in *.
      destruct sold; [|exact Hb].
      destruct k' as [t|t p0 amt]; simpl in *;
        rewrite lookup_delete_ne by congruence; exact Hb. }
  assert (Hnames_watching : forall evs c ps,
             watched_names_encodable
               {| email_configured := c;
                  open_positions := ps;
                  tasks := <[i := Watching (task_token k)
                                    (initial_price (task_position w k))
                                    (amount (task_position w k))]> (tasks w);
                  trace := trace w ++ evs |}
             \/ c <> email_configured w).
  { intros evs c ps. destruct (decide (c = email_configured w)) as [->|]; [left|auto].
    intros Hc k' Hk'. simpl in Hc, Hk'.
    apply list_elem_of_lookup_1 in Hk' as [j Hj].
    apply list_lookup_insert_Some in Hj as [(-> & <- & _)|(Hne & Hj)].
    - simpl. apply Hnames; assumption.
    - apply Hnames; [assumption|]. eapply list_elem_of_lookup_2, Hj. }
  assert (Hnames_ended : forall evs ps,
             watched_names_encodable
               {| email_configured := email_configured w;
                  open_positions := ps;
                  tasks := delete i (tasks w);
                  trace := trace w ++ evs |}).
  { intros evs ps Hc k' Hk'. simpl in Hc, Hk'.
    apply list_elem_of_delete_inv in Hk'. apply Hnames; assumption. }
  destruct (run_task_run i env k w Hi Hk) as (evs & _ & H). cbv zeta in H.
  rewrite Hrun in H.
  destruct H as [(_ & _ & [= ->] & _)
                |[(_ & _ & [= ->] & _)
                 |[(_ & [= ->] & _)
                  |(_ & [= ->] & _ & _ & _ & Hcfg & Hn)]]].
  - split; [apply Hgo|].
    destruct (Hnames_watching evs (email_configured w) (open_positions w)); [assumption|].
    congruence.
  - split; [apply (Hend evs (email_configured w) false)|apply Hnames_ended].
  - split; [apply Hend|apply Hnames_ended].
  - assert (Hgoes : sell_goes_through (sell_env env)
                      (initial_price (task_position w k)) = false).
    { destruct (sell_goes_through (sell_env env) _) eqn:Hg; [|reflexivity].
      rewrite (Hnames Hcfg k Hin) in Hn. specialize (Hn eq_refl). discriminate. }
    rewrite Hgoes. split; [apply Hgo|].
    destruct (Hnames_watching evs (email_configured w) (open_positions w)); [assumption|].
    congruence.
Qed.

Lemma initial_backed c :
  monitors_backed (initial c) /\ watched_names_encodable (initial c).
Proof.
  split; [split; simpl; [apply NoDup_nil; exact I|]|].
  - intros k Hk. inversion Hk.
  - intros _ k Hk. inversion Hk.
Qed.

Lemma reachable_invariant w :
  reachable w -> monitors_backed w /\ watched_names_encodable w.
Proof.
  induction 1 as [c|w w' _ [IH1 IH2] Hstep]; [apply initial_backed|].
  destruct Hstep as [tokens smtp w|i env w w' Hrun].
  - apply monitor_and_trade_pass_backed; assumption.
  - eapply run_task_backed; eassumption.
Qed.

Lemma reachable_backed w : reachable w -> monitors_backed w.
Proof. intros H. apply reachable_invariant, H. Qed.

(** ** Single paths *)

Lemma sell_token_below env token p0 amt w q size :
  book_top env = Ret (Some (q, size)) ->
  ltb q (target_price p0) = true ->
  sell_token env token p0 amt w =
    (Ret false,
     extend w [LoadAsks; Log INFO (BelowTarget (name token) q (target_price p0))]).
Proof.
  intros Hb Hlt. rewrite sell_token_handled.
  unfold sell_token_body. unfold_monad. simpl.
  rewrite Hb. simpl. rewrite Hlt. simpl.
  unfold extend. rewrite <- !app_assoc. reflexivity.
Qed.

(** The order is built and handed to [send_transaction]; what follows
    depends on the reply, on the dictionary and on the mail. *)
Lemma sell_token_submits env token p0 amt w q size cid :
  book_top env = Ret (Some (q, size)) ->
  ltb q (target_price p0) = false ->
  py_int (clock env) = Ret cid ->
  make_order_fails env = None ->
  let o := {| side := Sell; limit_price := q;
              max_quantity := amt; client_id := cid |} in
  exists ms,
    min_sol q amt = Ret ms /\
    let sent := [LoadAsks; Log INFO (Selling (name token) amt q ms);
                 MakeOrder o; SendTransaction o] in
    let failed e := handled (extend w sent) (smtp_reply env)
                      (SellError (name token) e) (SellFailed (name token) e) in
    sell_token env token p0 amt w =
      match send_reply env with
      | Ret r =>
          match r !! "result" with
          | Some signature =>
              match open_positions w !! contract_address token with
              | Some _ =>
                  let w1 :=
                    {| email_configured := email_configured w;
                       open_positions :=
                         delete (contract_address token) (open_positions w);
                       tasks := tasks w;
                       trace := trace w ++ sent ++ [Log INFO (SellSent signature)] |} in
                  if mail_passes w (Sold (name token) amt q signature)
                  then (Ret true,
                        extend w1 (mail_events w (smtp_reply env)
                                     (Sold (name token) amt q signature)))
                  else handled w1 (smtp_reply env)
                         (SellError (name token) UnicodeEncodeError)
                         (SellFailed (name token) UnicodeEncodeError)
              | None =>
                  handled (extend w (sent ++ [Log INFO (SellSent signature)]))
                    (smtp_reply env)
                    (SellError (name token) (KeyError (contract_address token)))
                    (SellFailed (name token) (KeyError (contract_address token)))
              end
          | None => failed (KeyError "result")
          end
      | Raise e => failed e
      end.
Proof.
  intros Hb Hlt Hc Hm o.
  destruct (min_sol_returns q amt) as [ms Hms]. exists ms. split; [exact Hms|].
  cbv zeta. rewrite sell_token_handled.
  unfold sell_token_body. unfold_monad. simpl.
  rewrite Hb. simpl. rewrite Hlt, Hms. simpl. rewrite Hc, Hm. simpl.
  destruct (send_reply env) as [r|e]; simpl.
  - destruct (r !! "result") as [sg|]; simpl.
    + destruct (open_positions w !! contract_address token); simpl.
      * rewrite send_email_run. rewrite (mail_passes_same w) by reflexivity.
        destruct (mail_passes w _).
        -- rewrite (mail_events_same w) by reflexivity.
           unfold extend. simpl. rewrite <- !app_assoc. reflexivity.
        -- rewrite <- !app_assoc. reflexivity.
      * unfold extend. simpl. rewrite <- !app_assoc. reflexivity.
    + unfold extend. simpl. rewrite <- !app_assoc. reflexivity.
  - unfold extend. simpl. rewrite <- !app_assoc. reflexivity.
Qed.

(** With the order on its way, exactly that order is in the trace. *)
Lemma sell_token_submitted_order env token p0 amt w q size cid :
  book_top env = Ret (Some (q, size)) ->
  ltb q (target_price p0) = false ->
  py_int (clock env) = Ret cid ->
  make_order_fails env = None ->
  submitted (events_since w (snd (sell_token env token p0 amt w)))
  = [{| side := Sell; limit_price := q; max_quantity := amt; client_id := cid |}].
Proof.
  intros Hb Hlt Hc Hm.
  assert (Hev : submitted (events_since w (snd (sell_token env token p0 amt w)))
                <> []).
  { destruct (sell_token_submits env token p0 amt w q size cid Hb Hlt Hc Hm)
      as (ms & _ & Heq).
    cbv zeta in Heq. rewrite Heq.
    destruct (send_reply env) as [r|e];
      [destruct (r !! "result");
       [destruct (open_positions w !! contract_address token);
        [destruct (mail_passes w (Sold _ _ _ _))|]|]|];
      rewrite ?handled_snd; unfold extend; cbn [snd trace];
      rewrite <- ?app_assoc; rewrite events_since_mk;
      cbn; discriminate. }
  destruct (sell_token_world env token p0 amt w) as (evs & Hw & Hsub & _).
  rewrite Hw in *. rewrite events_since_mk in *.
  destruct Hsub as [[Hs _]|(q' & size' & cid' & Hb' & _ & Hc' & ->)];
    [destruct (Hev Hs)|].
  rewrite Hb in Hb'. rewrite Hc in Hc'. congruence.
Qed.


(** The order is sent and the venue does not acknowledge it. *)
Lemma buy_token_unacknowledged env token amt w price size cid :
  book_top env = Ret (Some (price, size)) ->
  eqb price (S754_zero false) = false ->
  py_int (clock env) = Ret cid ->
  make_order_fails env = None ->
  acknowledged (send_reply env) = false ->
  let quantity := SFdiv prec emax amt price in
  let o := {| side := Buy; limit_price := price;
              max_quantity := quantity; client_id := cid |} in
  let e := match send_reply env with
           | Raise e => e
           | Ret _ => KeyError "result"
           end in
  exists mq,
    min_quantity quantity = Ret mq /\
    buy_token env token amt w
    = handled
        (extend w [LoadBids; Log INFO (Buying (name token) quantity price mq);
                   MakeOrder o; SendTransaction o])
        (smtp_reply env) (BuyError (name token) e) (BuyFailed (name token) e).
Proof.
  intros Hb Hz Hc Hm Hack quantity o e. subst quantity o e.
  destruct (min_quantity_returns (SFdiv prec emax amt price)) as [mq Hmq].
  exists mq. split; [exact Hmq|].
  rewrite buy_token_handled.
  unfold buy_token_body. unfold_monad. simpl.
  rewrite Hb. simpl. rewrite (truediv_nonzero _ _ Hz), Hmq. simpl.
  rewrite Hc, Hm. simpl. unfold acknowledged in Hack.
  destruct (send_reply env) as [r|e]; simpl.
  - destruct (r !! "result") as [sg|]; simpl.
    + apply bool_decide_eq_false in Hack. destruct Hack. eauto.
    + unfold extend. simpl. rewrite <- !app_assoc. reflexivity.
  - unfold extend. simpl. rewrite <- !app_assoc. reflexivity.
Qed.

(** An order reaches [send_transaction] only with the whole seconds of
    the clock as its identifier. *)
Lemma buy_token_submitted env token amt w o :
  o ∈ submitted (events_since w (snd (buy_token env token amt w))) ->
  side o = Buy /\ py_int (clock env) = Ret (client_id o).
Proof.
  destruct (buy_token_world env token amt w) as (evs & -> & Hsub & _).
  rewrite events_since_mk.
  destruct Hsub as [[-> _]|(price & size & cid & _ & Hc & ->)];
    [intros H; inversion H|].
  intros H. apply list_elem_of_singleton in H. subst o. auto.
Qed.

Lemma sell_token_submitted env token p0 amt w o :
  o ∈ submitted (events_since w (snd (sell_token env token p0 amt w))) ->
  side o = Sell /\ py_int (clock env) = Ret (client_id o).
Proof.
  destruct (sell_token_world env token p0 amt w) as (evs & -> & Hsub & _).
  rewrite events_since_mk.
  destruct Hsub as [[-> _]|(q & size & cid & _ & _ & Hc & ->)];
    [intros H; inversion H|].
  intros H. apply list_elem_of_singleton in H. subst o. auto.
Qed.

(** ** Buying *)







(** ** Selling *)

(** C4: with the clock readable and [make_order] building the order.
    The watcher that reads the ask [q] calls [sell_token] exactly when
    [q >= p0 * PROFIT_MULTIPLIER], and [sell_token], reading the same
    ask, then hands exactly one order to [send_transaction]; otherwise
    the watcher sleeps and no order is sent.  Equality triggers.  Below
    the target [sell_token] returns [False] through the branch that only
    logs at INFO (the negative decision): no order, no error record, no
    mail, dictionary untouched.  Called on its own with numbers for
    [p0] and [q], [sell_token] sends the order exactly when
    [q >= p0 * PROFIT_MULTIPLIER]. *)
Theorem sell_trigger_boundary env token p0 amt w q size cid :
  book_top env = Ret (Some (q, size)) ->
  py_int (clock env) = Ret cid ->
  make_order_fails env = None ->
  let w' := snd (sell_token env token p0 amt w) in
  let o := {| side := Sell; limit_price := q;
              max_quantity := amt; client_id := cid |} in
  (forall menv,
      watch_top menv = Ret (Some (q, size)) ->
      sell_env menv = env ->
      let seen := [LoadAsks; Log INFO (CurrentPrice (name token) q)] in
      if geb q (target_price p0) then
        exists evs,
          events_since w (snd (monitor_price_pass menv token p0 amt w))
          = seen ++ Log INFO (TargetReached (name token)) :: evs
          /\ submitted evs = [o]
      else
        monitor_price_pass menv token p0 amt w
        = (Ret Continue, extend w (seen ++ [Sleep 300])))
  /\ (geb q (target_price p0) = true -> submitted (events_since w w') = [o])
  /\ (eqb q (target_price p0) = true ->
      geb q (target_price p0) = true /\ submitted (events_since w w') = [o])
  /\ (ltb q (target_price p0) = true ->
      fst (sell_token env token p0 amt w) = Ret false
      /\ open_positions w' = open_positions w
      /\ events_since w w'
         = [LoadAsks; Log INFO (BelowTarget (name token) q (target_price p0))])
  /\ (is_nan q = false -> is_nan p0 = false ->
      submitted (events_since w w')
      = if geb q (target_price p0) then [o] else []).
Proof.
  intros Hb Hc Hm w' o.
  assert (Hsub : forall x, ltb q (target_price p0) = false ->
                   submitted (events_since x (snd (sell_token env token p0 amt x)))
                   = [o]).
  { intros x Hlt. apply (sell_token_submitted_order env token p0 amt x q size cid);
      assumption. }
  assert (Hbelow : ltb q (target_price p0) = true ->
                   fst (sell_token env token p0 amt w) = Ret false
                   /\ open_positions w' = open_positions w
                   /\ events_since w w'
                      = [LoadAsks;
                         Log INFO (BelowTarget (name token) q (target_price p0))]).
  { intros Hlt. subst w'.
    rewrite (sell_token_below env token p0 amt w q size Hb Hlt).
    cbn [fst snd]. rewrite events_since_extend. auto. }
  split; [|split; [|split; [|split]]].
  - intros menv Hw He seen. rewrite monitor_price_pass_run, Hw.
    destruct (geb q (target_price p0)) eqn:Hge.
    + apply geb_true_ltb_false in Hge.
      set (w0 := extend w [LoadAsks; Log INFO (CurrentPrice (name token) q);
                           Log INFO (TargetReached (name token))]).
      specialize (Hsub w0 Hge). rewrite He.
      destruct (sell_token_world env token p0 amt w0) as (ev2 & Hw2 & _).
      rewrite Hw2, events_since_mk in Hsub.
      destruct (sell_token env token p0 amt w0) as [[b|e] w2];
        cbn [snd] in Hw2; subst w2.
      * exists ev2. cbn [snd]. unfold events_since, w0, extend. cbn [trace].
        rewrite <- !app_assoc, drop_app_length. split; [reflexivity|exact Hsub].
      * unfold watch_handled.
        match goal with
        | |- context [mail_events ?x ?s ?m] =>
            destruct (mail_events_quiet x s m) as (Q1 & _);
            set (ev3 := mail_events x s m) in *
        end.
        match goal with
        | |- context [if ?c then _ else _] => destruct c
        end.
        -- eexists. cbn [snd]. unfold events_since, w0, extend. cbn [trace].
           rewrite <- !app_assoc, drop_app_length. split; [reflexivity|].
           rewrite submitted_app, Hsub. cbn. rewrite submitted_app, Q1. reflexivity.
        -- eexists. cbn [snd]. unfold events_since, w0, extend. cbn [trace].
           rewrite <- !app_assoc, drop_app_length. split; [reflexivity|].
           rewrite submitted_app, Hsub. reflexivity.
    + reflexivity.
  - intros Hge. apply Hsub, geb_true_ltb_false, Hge.
  - intros He. pose proof (eqb_true_geb _ _ He) as Hge.
    split; [exact Hge|]. apply Hsub, geb_true_ltb_false, Hge.
  - exact Hbelow.
  - intros Hq Hp.
    pose proof (ltb_negb_geb q (target_price p0) Hq (target_price_not_nan p0 Hp)) as Hlg.
    destruct (geb q (target_price p0)); simpl in Hlg.
    + apply Hsub, Hlg.
    + destruct (Hbelow Hlg) as (_ & _ & ->). reflexivity.
Qed.

Lemma sell_trigger_boundary_witness :
  let env := Sample.venue_ok Sample.price_005 Sample.t_1000_25 in
  (book_top env = Ret (Some (Sample.price_005, Sample.one))
   /\ py_int (clock env) = Ret 1000
   /\ make_order_fails env = None)
  /\ eqb Sample.price_005 (target_price Sample.price_001) = true
  /\ submitted
       (events_since Sample.holding_a
          (snd (sell_token env Sample.token_a Sample.price_001 Sample.one
                  Sample.holding_a)))
     = [{| side := Sell; limit_price := Sample.price_005;
           max_quantity := Sample.one; client_id := 1000 |}].
Proof.
  intros env.
  assert (H1 : book_top env = Ret (Some (Sample.price_005, Sample.one)))
    by reflexivity.
  assert (H4 : py_int (clock env) = Ret 1000) by (vm_compute; reflexivity).
  assert (H5 : make_order_fails env = None) by reflexivity.
  assert (H6 : eqb Sample.price_005 (target_price Sample.price_001) = true)
    by (vm_compute; reflexivity).
  split; [repeat split; assumption|]. split; [exact H6|].
  exact (proj2 (proj1 (proj2 (proj2 (sell_trigger_boundary env Sample.token_a
                         Sample.price_001 Sample.one Sample.holding_a
                         Sample.price_005 Sample.one 1000 H1 H4 H5))) H6)).
Defined.

(** At the largest double below the target no order is sent, neither by
    [sell_token] nor by the watcher, which sleeps. *)
Example sell_just_below_target :
  let q := SFpred prec emax (target_price Sample.price_001) in
  let env := Sample.venue_ok q Sample.t_1000_25 in
  let w' := snd (sell_token env Sample.token_a Sample.price_001 Sample.one
                   Sample.holding_a) in
  ltb q (target_price Sample.price_001) = true
  /\ submitted (events_since Sample.holding_a w') = []
  /\ open_positions w' = open_positions Sample.holding_a
  /\ fst (monitor_price_pass (Sample.watch q env) Sample.token_a
            Sample.price_001 Sample.one Sample.holding_a) = Ret Continue.
Proof. repeat split; vm_compute; reflexivity. Qed.

(** C5: [sell_token] called for a token that has a position.  If an
    order was handed to the venue and the reply carries ['result'], the
    entry is deleted, whatever becomes of the mail that follows.  If the
    reply is an exception or carries no ['result'], or if no order was
    sent, the dictionary, the token's entry included, is what it was,
    and [sell_token] does not return [True].  It returns [True] only
    with the entry deleted; with the mails composed or skipped it
    returns [True] after the acknowledgement and [False] otherwise. *)
Theorem sell_success_removes_failure_retains env token p0 amt w pos :
  open_positions w !! contract_address token = Some pos ->
  let r := fst (sell_token env token p0 amt w) in
  let w' := snd (sell_token env token p0 amt w) in
  let accepted := submitted (events_since w w') <> []
                  /\ acknowledged (send_reply env) = true in
  (accepted ->
   open_positions w' = delete (contract_address token) (open_positions w)
   /\ open_positions w' !! contract_address token = None)
  /\ (~ accepted ->
      open_positions w' = open_positions w
      /\ open_positions w' !! contract_address token = Some pos
      /\ r <> Ret true)
  /\ (r = Ret true -> accepted)
  /\ (success_mail_builds w env token = true -> accepted -> r = Ret true)
  /\ (failure_mail_builds w env token = true -> ~ accepted -> r = Ret false).
Proof.
  intros Hpos r w' accepted. subst r w' accepted.
  assert (Hheld : held w (contract_address token) = true)
    by (apply held_true; rewrite Hpos; eauto).
  destruct (sell_token_world env token p0 amt w)
    as (evs & Hw & Hsub & _ & _ & _ & _ & _ & Hack).
  pose proof (sell_token_result env token p0 amt w) as Hres.
  rewrite Hheld, andb_true_r in Hw, Hres.
  rewrite Hw, events_since_mk. cbn [open_positions].
  assert (Hiff : (submitted evs <> [] /\ acknowledged (send_reply env) = true)
                 <-> sell_goes_through env p0 = true).
  { split.
    - intros [Hne Ha]. rewrite (Hack Hne). exact Ha.
    - intros Hg. destruct Hsub as [[_ Hf]|(q & size & cid & _ & _ & _ & Hs)];
        [congruence|].
      assert (Hne : submitted evs <> []) by (rewrite Hs; discriminate).
      split; [exact Hne|]. rewrite <- (Hack Hne). exact Hg. }
  destruct (sell_goes_through env p0) eqn:Hg.
  - apply proj2 in Hiff. specialize (Hiff eq_refl).
    split; [intros _; split; [reflexivity|apply lookup_delete_eq]|].
    split; [intros Hn; destruct (Hn Hiff)|].
    split; [intros _; exact Hiff|].
    split.
    + intros Hs _. destruct Hres as [->|(_ & Hgs & _)].
      * rewrite Hs. reflexivity.
      * rewrite Hs in Hgs. discriminate.
    + intros _ Hn. destruct (Hn Hiff).
  - assert (Hnot : ~ (submitted evs <> [] /\ acknowledged (send_reply env) = true)).
    { intros H. apply Hiff in H. discriminate. }
    split; [intros H; destruct (Hnot H)|].
    assert (Hr : fst (sell_token env token p0 amt w) <> Ret true).
    { destruct Hres as [->|(-> & _)]; discriminate. }
    split; [intros _; auto|].
    split; [intros H; destruct (Hr H)|].
    split; [intros _ H; destruct (Hnot H)|].
    intros Hf _. destruct Hres as [->|(_ & _ & Hf' & _)]; [reflexivity|congruence].
Qed.

Lemma sell_success_removes_failure_retains_witness :
  let env := Sample.venue_ok Sample.price_005 Sample.t_1000_25 in
  let pos := {| initial_price := Sample.price_001; amount := Sample.one |} in
  let w' := snd (sell_token env Sample.token_a Sample.price_001 Sample.one
                   Sample.holding_a) in
  open_positions Sample.holding_a !! contract_address Sample.token_a = Some pos
  /\ (submitted (events_since Sample.holding_a w') <> []
      /\ acknowledged (send_reply env) = true)
  /\ open_positions w'
     = delete (contract_address Sample.token_a) (open_positions Sample.holding_a).
Proof.
  intros env pos w'.
  assert (H : open_positions Sample.holding_a !! contract_address Sample.token_a
              = Some pos) by (vm_compute; reflexivity).
  assert (Ha : submitted (events_since Sample.holding_a w') <> []
               /\ acknowledged (send_reply env) = true).
  { split; [vm_compute; discriminate|vm_compute; reflexivity]. }
  split; [exact H|]. split; [exact Ha|].
  exact (proj1 (proj1 (sell_success_removes_failure_retains env Sample.token_a
                         Sample.price_001 Sample.one Sample.holding_a pos H) Ha)).
Defined.

(** C9: [sell_token] called for a token that has no entry, with the ask
    at or above the target and the venue acknowledging: the order is
    built and sent, the reply is logged, and only then does [del] raise
    [KeyError]; the [except] clause logs it and, the "Sell Failed" mail
    being composed or skipped, returns [False].  An order has been
    submitted and the result is a failure. *)
Theorem sell_absent_position_submits_then_fails
    env token p0 amt w q size cid r signature :
  open_positions w !! contract_address token = None ->
  book_top env = Ret (Some (q, size)) ->
  geb q (target_price p0) = true ->
  py_int (clock env) = Ret cid ->
  make_order_fails env = None ->
  send_reply env = Ret r ->
  r !! "result" = Some signature ->
  let failed := SellFailed (name token) (KeyError (contract_address token)) in
  mail_passes w failed = true ->
  let w' := snd (sell_token env token p0 amt w) in
  let o := {| side := Sell; limit_price := q;
              max_quantity := amt; client_id := cid |} in
  fst (sell_token env token p0 amt w) = Ret false
  /\ submitted (events_since w w') = [o]
  /\ open_positions w' = open_positions w
  /\ exists ms,
       events_since w w' =
         [LoadAsks; Log INFO (Selling (name token) amt q ms);
          MakeOrder o; SendTransaction o; Log INFO (SellSent signature);
          Log ERROR (SellError (name token) (KeyError (contract_address token)))]
         ++ mail_events w (smtp_reply env) failed.
Proof.
  intros Hpos Hb Hge Hc Hm Hs Hr failed Hmail w' o. subst w'.
  apply geb_true_ltb_false in Hge.
  pose proof (sell_token_submitted_order env token p0 amt w q size cid Hb Hge Hc Hm)
    as Hsub.
  destruct (sell_token_submits env token p0 amt w q size cid Hb Hge Hc Hm)
    as (ms & _ & Heq).
  cbv zeta in Heq. rewrite Hs, Hr, Hpos in Heq.
  unfold handled in Heq.
  rewrite (mail_passes_same w), (mail_events_same w) in Heq by reflexivity.
  fold failed in Heq. rewrite Hmail in Heq.
  rewrite Heq in *. cbn [fst snd].
  split; [reflexivity|]. split; [exact Hsub|]. split; [reflexivity|].
  exists ms. rewrite extend_extend, events_since_extend.
  rewrite <- !app_assoc. reflexivity.
Qed.

Lemma sell_absent_position_submits_then_fails_witness :
  let env := Sample.venue_ok Sample.price_005 Sample.t_1000_25 in
  (open_positions Sample.start !! contract_address Sample.token_a = None
   /\ geb Sample.price_005 (target_price Sample.price_001) = true
   /\ mail_passes Sample.start
        (SellFailed (name Sample.token_a)
           (KeyError (contract_address Sample.token_a))) = true)
  /\ fst (sell_token env Sample.token_a Sample.price_001 Sample.one Sample.start)
     = Ret false
  /\ submitted
       (events_since Sample.start
          (snd (sell_token env Sample.token_a Sample.price_001 Sample.one
                  Sample.start)))
     = [{| side := Sell; limit_price := Sample.price_005;
           max_quantity := Sample.one; client_id := 1000 |}].
Proof.
  intros env.
  assert (H1 : open_positions Sample.start !! contract_address Sample.token_a = None)
    by reflexivity.
  assert (H2 : geb Sample.price_005 (target_price Sample.price_001) = true)
    by (vm_compute; reflexivity).
  assert (H3 : mail_passes Sample.start
                 (SellFailed (name Sample.token_a)
                    (KeyError (contract_address Sample.token_a))) = true)
    by reflexivity.
  split; [repeat split; assumption|].
  destruct (sell_absent_position_submits_then_fails env Sample.token_a
              Sample.price_001 Sample.one Sample.start Sample.price_005 Sample.one
              1000 Sample.ack "5sig" H1 eq_refl H2) as (Hr & Hsub & _);
    try reflexivity; try (vm_compute; reflexivity).
  split; assumption.
Defined.

(** ** Order identifiers *)

(** C8, as stated, fails: two tokens bought in one discovery pass, the
    clock reading 1000.25 at the first order and 1000.75 at the second,
    are submitted with the same [client_id] 1000. *)
Lemma client_id_collision :
  exists o1 o2,
    submitted (events_since Sample.start Sample.two_buys) = [o1; o2]
    /\ limit_price o1 = Sample.price_001
    /\ limit_price o2 = Sample.price_002
    /\ Sample.t_1000_25 <> Sample.t_1000_75
    /\ client_id o1 = 1000
    /\ client_id o2 = 1000.
Proof.
  eexists _, _. split; [vm_compute; reflexivity|].
  repeat split; try (vm_compute; reflexivity). discriminate.
Qed.

(** C8, amended: every order that [buy_token] or [sell_token] hands to
    [send_transaction] carries [int(time.time())], the whole seconds of
    the clock when the order was built. *)
Theorem client_id_is_clock_seconds :
  (forall env token amt w o,
      o ∈ submitted (events_since w (snd (buy_token env token amt w))) ->
      py_int (clock env) = Ret (client_id o))
  /\ (forall env token p0 amt w o,
        o ∈ submitted (events_since w (snd (sell_token env token p0 amt w))) ->
        py_int (clock env) = Ret (client_id o)).
Proof.
  split.
  - intros env token amt w o H. apply (buy_token_submitted _ _ _ _ _ H).
  - intros env token p0 amt w o H. apply (sell_token_submitted _ _ _ _ _ _ H).
Qed.

Lemma client_id_is_clock_seconds_witness :
  let env := Sample.venue_ok Sample.price_001 Sample.t_1000_75 in
  let o := {| side := Buy; limit_price := Sample.price_001;
              max_quantity := Sample.one; client_id := 1000 |} in
  o ∈ submitted (events_since Sample.start
                   (snd (buy_token env Sample.token_a amount_sol Sample.start)))
  /\ py_int (clock env) = Ret 1000.
Proof.
  intros env o.
  assert (H : o ∈ submitted (events_since Sample.start
                   (snd (buy_token env Sample.token_a amount_sol Sample.start)))).
  { vm_compute. apply list_elem_of_here. }
  split; [exact H|].
  exact (proj1 client_id_is_clock_seconds env Sample.token_a amount_sol
           Sample.start o H).
Defined.

(** ** Slippage arithmetic *)

(** C7, as stated, fails: the arithmetic is binary64.  For a quantity
    of 1.0 the computed [min_quantity] is the double just below 0.99; it
    is not 99/100, and cut to 8 fractional digits it is 0.98999999. *)
Lemma min_quantity_not_decimal :
  exists mq,
    min_quantity (of_int 1) = Ret mq
    /\ mq = S754_finite false 8917127262193582 (-53)
    /\ exactly mq 99 100 = false
    /\ trunc_decimal 8 mq = Some 98999999.
Proof.
  eexists. split; [vm_compute; reflexivity|].
  repeat split; vm_compute; reflexivity.
Qed.

(** C7, amended: in binary64, for a quantity of 100 and
    [SLIPPAGE_PERCENT = 1], [min_quantity] is the double 99.0, whose
    value is exactly 99; the same holds for the floor [min_sol] at
    price 1. *)
Theorem min_quantity_of_100 :
  min_quantity (of_int 100) = Ret (of_int 99)
  /\ exactly (of_int 100) 100 1 = true
  /\ exactly (of_int 99) 99 1 = true
  /\ min_sol (of_int 1) (of_int 100) = Ret (of_int 99).
Proof. repeat split; vm_compute; reflexivity. Qed.

(** ** Screening *)

(** C6: a token whose age in hours, as [time_since_launch] computes it
    from [now - launch_time], is below 5 or above 10 is skipped at the
    first check: the only effect is the INFO record, whatever the other
    fields and whatever the collaborators would have answered.  No
    lookup is made, [buy_token] is not called, no task is created. *)
Theorem age_outside_window_rejected env token w age_hours :
  time_since_launch (now env) (launch_time token) = Ret age_hours ->
  ltb age_hours (of_int 5) = true \/ ltb (of_int 10) age_hours = true ->
  process_token env token w =
    (Ret tt,
     {| email_configured := email_configured w;
        open_positions := open_positions w; tasks := tasks w;
        trace := trace w ++ [Log INFO (SkipLaunchTime (name token) age_hours)] |}).
Proof.
  intros Hage Hout. unfold process_token. unfold_monad. simpl.
  rewrite Hage. simpl.
  assert (Hw : leb (of_int 5) age_hours && leb age_hours (of_int 10) = false).
  { destruct Hout as [H|H]; apply ltb_true_leb_false in H; rewrite H.
    - reflexivity.
    - apply andb_false_r. }
  rewrite Hw. simpl. reflexivity.
Qed.

Lemma age_outside_window_rejected_witness :
  let env := Sample.screen_ok 12 (Sample.venue_ok Sample.price_001 Sample.t_1000_25) in
  (time_since_launch (now env) (launch_time Sample.token_a) = Ret (of_int 12)
   /\ (ltb (of_int 12) (of_int 5) = true \/ ltb (of_int 10) (of_int 12) = true))
  /\ process_token env Sample.token_a Sample.start =
       (Ret tt,
        {| email_configured := true;
           open_positions := ∅; tasks := [];
           trace := [Log INFO (SkipLaunchTime "ExampleToken3" (of_int 12))] |}).
Proof.
  intros env.
  assert (H1 : time_since_launch (now env) (launch_time Sample.token_a)
               = Ret (of_int 12)) by (vm_compute; reflexivity).
  assert (H2 : ltb (of_int 12) (of_int 5) = true \/ ltb (of_int 10) (of_int 12) = true)
    by (right; vm_compute; reflexivity).
  split; [split; assumption|].
  exact (age_outside_window_rejected env Sample.token_a Sample.start (of_int 12) H1 H2).
Defined.

(** One microsecond past ten hours, and one short of five, are outside. *)
Example just_outside_window :
  time_since_launch (Sample.hours 10 + 1) 0
    = Ret (S754_finite false 5629499534369495 (-49))
  /\ ltb (of_int 10) (S754_finite false 5629499534369495 (-49)) = true
  /\ time_since_launch (Sample.hours 5 - 1) 0
    = Ret (S754_finite false 5629499533900370 (-50))
  /\ ltb (S754_finite false 5629499533900370 (-50)) (of_int 5) = true
  /\ time_since_launch (Sample.hours 10) 0 = Ret (of_int 10)
  /\ time_since_launch (Sample.hours 5) 0 = Ret (of_int 5).
Proof. repeat split; vm_compute; reflexivity. Qed.

(** ** One position per address *)

(** C1, as stated, fails: [buy_token] has no check of its own.  Called
    for an address that already has a position, with the venue
    acknowledging, it sends an order, returns [True] and overwrites the
    entry. *)
Lemma buy_token_overwrites_open_position :
  let env := Sample.venue_ok Sample.price_002 Sample.t_1000_25 in
  let a := contract_address Sample.token_a in
  let w' := snd (buy_token env Sample.token_a amount_sol Sample.holding_a) in
  open_positions Sample.holding_a !! a
    = Some {| initial_price := Sample.price_001; amount := Sample.one |}
  /\ fst (buy_token env Sample.token_a amount_sol Sample.holding_a) = Ret true
  /\ length (submitted (events_since Sample.holding_a w')) = 1%nat
  /\ open_positions w' !! a
     = Some {| initial_price := Sample.price_002;
               amount := SFdiv prec emax amount_sol Sample.price_002 |}
  /\ open_positions w' <> open_positions Sample.holding_a.
Proof.
  intros env a w'.
  assert (H1 : open_positions Sample.holding_a !! a
               = Some {| initial_price := Sample.price_001; amount := Sample.one |})
    by (vm_compute; reflexivity).
  assert (H2 : open_positions w' !! a
               = Some {| initial_price := Sample.price_002;
                         amount := SFdiv prec emax amount_sol Sample.price_002 |})
    by (vm_compute; reflexivity).
  split; [exact H1|]. split; [vm_compute; reflexivity|].
  split; [vm_compute; reflexivity|]. split; [exact H2|].
  intros Heq. rewrite Heq, H1 in H2.
  assert (E : Sample.price_001 = Sample.price_002) by congruence.
  apply (f_equal (fun x => eqb x Sample.price_001)) in E.
  vm_compute in E. discriminate.
Qed.

(** C1, amended: the check is the one in the loop of
    [monitor_and_trade], made on the dictionary right before
    [buy_token] with no suspension in between.  Over any run of the
    loop on candidates with one address [a]: the dictionary changes at
    most by one insert at [a], the tasks at most by one new watcher,
    which comes only with the insert; if [a] had a position, nothing is
    bought or sent; if [a] was free and every candidate passes the
    screening with the venue acknowledging and the "Bought" mail
    composed or skipped, exactly one order is sent, one watcher is
    created and every later candidate is logged as already held. *)
Theorem one_buy_per_address (a : string) (tokens : list (Token * TokenEnv))
    (w : World) :
  Forall (same_address a) tokens ->
  let w' := snd (for_tokens tokens w) in
  ((open_positions w' = open_positions w /\ tasks w' = tasks w)
   \/ (exists token pos,
         contract_address token = a
         /\ open_positions w !! a = None
         /\ open_positions w' = <[a := pos]> (open_positions w)
         /\ (tasks w' = tasks w ++ [Spawned token] \/ tasks w' = tasks w)))
  /\ (is_Some (open_positions w !! a) ->
      open_positions w' = open_positions w
      /\ tasks w' = tasks w
      /\ submitted (events_since w w') = [])
  /\ (open_positions w !! a = None ->
      tokens <> [] ->
      Forall all_clear tokens ->
      Forall (notifiable w) tokens ->
      length (submitted (events_since w w')) = 1%nat
      /\ is_Some (open_positions w' !! a)
      /\ length (tasks w') = S (length (tasks w))
      /\ S (already_holding (events_since w w')) = length tokens).
Proof.
  intros Hall w'. subst w'.
  assert (Hheld : is_Some (open_positions w !! a) ->
                  open_positions (snd (for_tokens tokens w)) = open_positions w
                  /\ tasks (snd (for_tokens tokens w)) = tasks w
                  /\ submitted (events_since w (snd (for_tokens tokens w))) = []).
  { intros Hs. destruct (for_tokens_held a tokens w Hall Hs) as (evs & -> & Hsub & _).
    simpl. rewrite events_since_extend. auto. }
  split; [|split; [exact Hheld|]].
  - destruct (open_positions w !! a) as [p|] eqn:Hl.
    + left. destruct Hheld as (? & ? & _); eauto.
    + destruct (for_tokens_free a tokens w Hall Hl)
        as [evs [(-> & _)|(token & pos & spawned & Ha & -> & _)]].
      * left. auto.
      * right. exists token, pos. cbn [open_positions tasks].
        split; [exact Ha|]. split; [reflexivity|]. split; [reflexivity|].
        destruct spawned; auto.
  - intros Hl Hne Hc Hn.
    destruct (for_tokens_free a tokens w Hall Hl)
      as [evs [(_ & Hnil)|(token & pos & spawned & Ha & -> & Hcount)]].
    + destruct Hne. auto.
    + destruct (Hcount Hc Hn) as (_ & -> & Hs & Hh).
      rewrite events_since_mk. cbn [open_positions tasks].
      rewrite lookup_insert_eq, length_app. simpl.
      repeat split; eauto. lia.
Qed.

Lemma one_buy_per_address_witness :
  let a := contract_address Sample.token_a in
  let w' := snd (for_tokens Sample.thrice Sample.start) in
  (Forall (same_address a) Sample.thrice
   /\ open_positions Sample.start !! a = None
   /\ Forall all_clear Sample.thrice
   /\ Forall (notifiable Sample.start) Sample.thrice)
  /\ length (submitted (events_since Sample.start w')) = 1%nat
  /\ is_Some (open_positions w' !! a)
  /\ length (tasks w') = 1%nat
  /\ already_holding (events_since Sample.start w') = 2%nat.
Proof.
  intros a w'.
  assert (H1 : Forall (same_address a) Sample.thrice)
    by (repeat constructor).
  assert (H2 : open_positions Sample.start !! a = None) by reflexivity.
  assert (H3 : Forall all_clear Sample.thrice)
    by (repeat constructor; vm_compute; reflexivity).
  assert (H4 : Forall (notifiable Sample.start) Sample.thrice)
    by (repeat constructor; vm_compute; reflexivity).
  split; [repeat split; assumption|].
  destruct (proj2 (proj2 (one_buy_per_address a Sample.thrice Sample.start H1)) H2)
    as (Hs & Hp & Ht & Hh); [discriminate|exact H3|exact H4|].
  split; [exact Hs|]. split; [exact Hp|]. split; [exact Ht|].
  change (length Sample.thrice) with 3%nat in Hh.
  exact (eq_add_S _ _ Hh).
Defined.

(** ** Positions and watchers *)

(** C2 does not hold of the code: [monitor_price] leaves its loop
    after [sell_token] whatever it returned.  After one purchase, the
    watcher sees the target reached and calls [sell_token]; the venue
    does not answer; the watcher ends all the same.  The state reached
    has the position and no task. *)
Lemma orphaned_position_reachable :
  exists w,
    Sample.after_failed_sell = Some w
    /\ reachable w
    /\ is_Some (open_positions w !! contract_address Sample.token_a)
    /\ tasks w = []
    /\ ~ ledger_matches_monitors w.
Proof.
  eexists. split; [vm_compute; reflexivity|].
  match goal with |- reachable ?x /\ _ => set (w := x) end.
  assert (Hpos : is_Some (open_positions w !! contract_address Sample.token_a)).
  { vm_compute. eauto. }
  split; [|split; [exact Hpos|split; [reflexivity|]]].
  - apply (reachable_step Sample.after_buy).
    + apply (reachable_step Sample.start); [apply reachable_initial|].
      apply step_discover.
    + apply (step_watch 0 (Sample.watch Sample.price_005
                             (Sample.venue_down Sample.price_005))).
      vm_compute. reflexivity.
  - intros H. apply H in Hpos as (k & Hk & _). inversion Hk.
Qed.

(** X1: The half of the correspondence that the code keeps: at every
    reachable state no two tasks watch the same address and every task
    has its position in the dictionary, with the initial price and
    amount the task holds.  When a task ends, and not by an exception
    whose mail could not be composed, the entry of its address has been
    deleted if the sell went through; otherwise the dictionary is what
    it was and the entry stays, with no task left for it. *)
Theorem monitors_have_positions w :
  reachable w ->
  monitors_backed w
  /\ forall i env k w',
       tasks w !! i = Some k ->
       run_task i env w = Some w' ->
       (length (tasks w') < length (tasks w))%nat ->
       watch_mail_builds w env = true ->
       if sell_goes_through (sell_env env) (initial_price (task_position w k))
       then open_positions w' = delete (task_address k) (open_positions w)
       else open_positions w' = open_positions w
            /\ is_Some (open_positions w' !! task_address k).
Proof.
  intros Hreach. pose proof (reachable_backed w Hreach) as Hinv.
  split; [exact Hinv|].
  intros i env k w' Hi Hrun Hlen Hmail.
  assert (Hk : task_backed w k).
  { destruct Hinv as [_ Hb]. apply Hb. eapply list_elem_of_lookup_2, Hi. }
  destruct (run_task_run i env k w Hi Hk) as (evs & _ & H). cbv zeta in H.
  rewrite Hrun in H.
  destruct H as [(_ & _ & [= ->] & _)
                |[(_ & Hm & _)
                 |[(_ & [= ->] & _)
                  |(_ & [= ->] & _)]]].
  - simpl in Hlen. rewrite length_insert in Hlen. lia.
  - congruence.
  - simpl.
    destruct (sell_goes_through (sell_env env) (initial_price (task_position w k)));
      [reflexivity|].
    split; [reflexivity|]. apply task_backed_is_Some, Hk.
  - simpl in Hlen. rewrite length_insert in Hlen. lia.
Qed.

Lemma monitors_have_positions_witness :
  reachable Sample.after_buy
  /\ monitors_backed Sample.after_buy
  /\ tasks Sample.after_buy = [Spawned Sample.token_a].
Proof.
  assert (H : reachable Sample.after_buy).
  { apply (reachable_step Sample.start); [apply reachable_initial|].
    apply step_discover. }
  split; [exact H|].
  split; [exact (proj1 (monitors_have_positions Sample.after_buy H))|].
  vm_compute. reflexivity.
Defined.

(** The same happens without any failure of the venue: the ask is at
    the target when the watcher reads it and below when [sell_token]
    reads it again; [sell_token] answers "not yet" and the watcher is
    gone. *)
Example orphaned_after_price_dip :
  exists w,
    run_task 0 (Sample.watch Sample.price_005
                  (Sample.venue_ok Sample.price_002 Sample.t_1000_75))
             Sample.after_buy = Some w
    /\ is_Some (open_positions w !! contract_address Sample.token_a)
    /\ tasks w = []
    /\ submitted (events_since Sample.after_buy w) = [].
Proof.
  eexists. split; [vm_compute; reflexivity|].
  split; [vm_compute; eauto|]. split; vm_compute; reflexivity.
Qed.

(** * Further properties *)

(** ** What a purchase records *)

(** X15: When everything goes through, the dictionary gets, at the
    token's address, the bid price and the quantity
    [amount_sol / price]; exactly one order was sent, a buy at that
    price for that quantity; no task is created.  [buy_token] then
    returns [True] exactly when the "Bought" mail is composed or
    skipped. *)
Theorem buy_token_records_fill env token amt w :
  buy_goes_through env = true ->
  let w' := snd (buy_token env token amt w) in
  exists price size cid,
    book_top env = Ret (Some (price, size))
    /\ py_int (clock env) = Ret cid
    /\ open_positions w' !! contract_address token
       = Some {| initial_price := price; amount := SFdiv prec emax amt price |}
    /\ submitted (events_since w w')
       = [{| side := Buy; limit_price := price;
             max_quantity := SFdiv prec emax amt price; client_id := cid |}]
    /\ tasks w' = tasks w
    /\ (fst (buy_token env token amt w) = Ret true
        <-> success_mail_builds w env token = true).
Proof.
  intros Hg w'. subst w'.
  destruct (buy_token_world env token amt w) as (evs & Hw & Hsub & _).
  pose proof (buy_token_result env token amt w) as Hres.
  rewrite Hg in Hw, Hres. cbn [andb] in Hres.
  destruct Hsub as [[_ Hf]|(price & size & cid & Hb & Hc & Hsub)]; [congruence|].
  rewrite Hb in Hw. rewrite Hw, events_since_mk. cbn [open_positions tasks].
  exists price, size, cid. rewrite lookup_insert_eq.
  repeat (split; [reflexivity || assumption|]).
  destruct Hres as [->|(-> & ->  & _)]; split; congruence.
Qed.

Lemma buy_token_records_fill_witness :
  let env := Sample.venue_ok Sample.price_002 Sample.t_1000_25 in
  buy_goes_through env = true
  /\ success_mail_builds Sample.start env Sample.token_a = true
  /\ fst (buy_token env Sample.token_a amount_sol Sample.start) = Ret true.
Proof.
  intros env.
  assert (H : buy_goes_through env = true) by (vm_compute; reflexivity).
  assert (Hs : success_mail_builds Sample.start env Sample.token_a = true)
    by (vm_compute; reflexivity).
  split; [exact H|]. split; [exact Hs|].
  destruct (buy_token_records_fill env Sample.token_a amount_sol Sample.start H)
    as (price & size & cid & _ & _ & _ & _ & _ & Hr).
  exact (proj2 Hr Hs).
Defined.

(** X16: Whatever happens, [buy_token] leaves every other address and the
    tasks alone, and sends at most one order: a buy at the best bid for
    [amount_sol / price]. *)
Theorem buy_token_touches_one_address env token amt w :
  let w' := snd (buy_token env token amt w) in
  tasks w' = tasks w
  /\ (forall a, a <> contract_address token ->
                open_positions w' !! a = open_positions w !! a)
  /\ (length (submitted (events_since w w')) <= 1)%nat
  /\ (forall o, o ∈ submitted (events_since w w') ->
        exists price size,
          book_top env = Ret (Some (price, size))
          /\ side o = Buy /\ limit_price o = price
          /\ max_quantity o = SFdiv prec emax amt price).
Proof.
  intros w'. subst w'.
  destruct (buy_token_world env token amt w) as (evs & -> & Hsub & _).
  rewrite events_since_mk. cbn [open_positions tasks].
  split; [reflexivity|]. split.
  - intros a Ha.
    destruct (book_top env) as [[[price size]|]|e]; try reflexivity.
    destruct (buy_goes_through env); [|reflexivity].
    apply lookup_insert_ne. congruence.
  - destruct Hsub as [[-> _]|(price & size & cid & Hb & _ & ->)]; simpl.
    + split; [lia|]. intros o Ho. inversion Ho.
    + split; [lia|]. intros o Ho. apply list_elem_of_singleton in Ho. subst o.
      exists price, size. auto.
Qed.

(** X17: An order that was sent and not acknowledged (the call raised, or
    the reply has no ['result']) is recorded nowhere: the dictionary is
    what it was and [buy_token] does not return [True].  It logs the
    error; when the "Buy Failed" mail is composed or skipped it returns
    [False], and with credentials that mail is the one SMTP session. *)
Theorem buy_unacknowledged_order_not_recorded env token amt w price size cid :
  book_top env = Ret (Some (price, size)) ->
  eqb price (S754_zero false) = false ->
  py_int (clock env) = Ret cid ->
  make_order_fails env = None ->
  acknowledged (send_reply env) = false ->
  let w' := snd (buy_token env token amt w) in
  let e := match send_reply env with
           | Raise e => e
           | Ret _ => KeyError "result"
           end in
  submitted (events_since w w')
  = [{| side := Buy; limit_price := price;
        max_quantity := SFdiv prec emax amt price; client_id := cid |}]
  /\ open_positions w' = open_positions w
  /\ fst (buy_token env token amt w) <> Ret true
  /\ Log ERROR (BuyError (name token) e) ∈ events_since w w'
  /\ (mail_passes w (BuyFailed (name token) e) = true ->
      fst (buy_token env token amt w) = Ret false
      /\ mails (events_since w w')
         = if email_configured w then [BuyFailed (name token) e] else []).
Proof.
  intros Hb Hz Hc Hm Hack w' e. subst w'.
  destruct (buy_token_unacknowledged env token amt w price size cid Hb Hz Hc Hm Hack)
    as (mq & _ & Heq).
  cbv zeta in Heq. fold e in Heq. rewrite Heq.
  rewrite handled_fst, handled_snd, extend_extend, events_since_extend.
  rewrite (mail_passes_same w), (mail_events_same w) by reflexivity.
  destruct (mail_events_quiet w (smtp_reply env) (BuyFailed (name token) e))
    as (Q1 & _ & _ & _ & _ & Q6).
  rewrite submitted_app, mails_app. cbn [submitted mails app].
  split; [destruct (mail_passes w _); rewrite ?Q1; reflexivity|].
  split; [reflexivity|].
  split; [destruct (mail_passes w _); discriminate|].
  split; [do 4 apply list_elem_of_further; apply list_elem_of_here|].
  intros ->. split; [reflexivity|exact Q6].
Qed.

Lemma buy_unacknowledged_order_not_recorded_witness :
  let env := Sample.venue_down Sample.price_002 in
  (book_top env = Ret (Some (Sample.price_002, Sample.one))
   /\ eqb Sample.price_002 (S754_zero false) = false
   /\ py_int (clock env) = Ret 1000
   /\ make_order_fails env = None
   /\ acknowledged (send_reply env) = false)
  /\ open_positions (snd (buy_token env Sample.token_a amount_sol Sample.start))
     = open_positions Sample.start
  /\ fst (buy_token env Sample.token_a amount_sol Sample.start) <> Ret true.
Proof.
  intros env.
  assert (H1 : book_top env = Ret (Some (Sample.price_002, Sample.one)))
    by reflexivity.
  assert (H2 : eqb Sample.price_002 (S754_zero false) = false)
    by (vm_compute; reflexivity).
  assert (H3 : py_int (clock env) = Ret 1000) by (vm_compute; reflexivity).
  assert (H4 : make_order_fails env = None) by reflexivity.
  assert (H5 : acknowledged (send_reply env) = false) by reflexivity.
  split; [repeat split; assumption|].
  destruct (buy_unacknowledged_order_not_recorded env Sample.token_a amount_sol
              Sample.start _ _ _ H1 H2 H3 H4 H5) as (_ & Hl & Hr & _).
  split; assumption.
Defined.

(** X18: How one call of [buy_token] reports itself.  It opens at most
    one SMTP session.  Without credentials it opens none, never raises,
    and returns whether the purchase went through.  When the book has
    no bid it logs a WARNING and nothing else.  With credentials and
    its mails composed, a purchase that goes through gives [True] and a
    "Bought" session; anything else but an empty book gives [False] and
    a "Buy Failed" session. *)
Theorem buy_token_notifies env token amt w :
  let w' := snd (buy_token env token amt w) in
  let r := fst (buy_token env token amt w) in
  let evs := events_since w w' in
  (length (mails evs) <= 1)%nat
  /\ (email_configured w = false ->
      mails evs = [] /\ r = Ret (buy_goes_through env))
  /\ (book_top env = Ret None ->
      r = Ret false /\ evs = [LoadBids; Log WARNING (NoBids (name token))])
  /\ (email_configured w = true ->
      success_mail_builds w env token = true ->
      failure_mail_builds w env token = true ->
      book_top env <> Ret None ->
      if buy_goes_through env then
        r = Ret true
        /\ exists quantity price signature,
             mails evs = [Bought (name token) quantity price signature]
      else
        r = Ret false
        /\ exists e, mails evs = [BuyFailed (name token) e]).
Proof.
  intros w' r evs. subst w' r evs.
  destruct (buy_token_world env token amt w)
    as (evs & Hw & _ & _ & _ & _ & _ & Hlen & Hnone & _).
  pose proof (buy_token_result env token amt w) as Hres.
  split; [rewrite Hw, events_since_mk; exact Hlen|].
  split.
  { intros Hc. split; [rewrite Hw, events_since_mk; exact (Hnone Hc)|].
    destruct Hres as [->|(_ & _ & _ & Hc')]; [|congruence].
    unfold success_mail_builds. rewrite Hc. cbn. rewrite andb_true_r. reflexivity. }
  clear Hw Hlen Hnone evs.
  destruct (buy_token_run env token amt w)
    as [(Hb & Heq)|[(e & k & q & p & mq & o & Hnb & Hg & Ht & Hk & Hk4 & Heq)
                  |(price & size & cid & r & sg & mq & Hb & Hz & Hc & Hm & Hs & Hr
                    & Hmq & Heq)]].
  - split.
    + intros _. rewrite Heq. cbn [fst snd]. rewrite events_since_extend. auto.
    + intros _ _ _ Hne. destruct (Hne Hb).
  - split.
    + intros Hb. destruct (Hnb Hb).
    + intros Hcfg Hsm Hfm _. rewrite Hg, Heq.
      destruct (failure_mail_passes w env token e Hfm Ht) as [Hp _].
      rewrite handled_fst, handled_snd, extend_extend, events_since_extend.
      rewrite (mail_passes_same w), (mail_events_same w) by reflexivity.
      rewrite Hp. split; [reflexivity|]. exists e.
      destruct (mail_events_quiet w (smtp_reply env) (BuyFailed (name token) e))
        as (_ & _ & _ & _ & _ & Q6).
      rewrite mails_app. cbn [mails]. rewrite Q6, Hcfg.
      destruct k as [|[|[|[|[|k]]]]]; try lia; reflexivity.
  - split; [intros Hb'; congruence|].
    intros Hcfg Hsm Hfm _.
    assert (Hg : buy_goes_through env = true).
    { unfold buy_goes_through, acknowledged. rewrite Hb, Hz, Hc, Hm, Hs, Hr. reflexivity. }
    assert (Hp : mail_passes w (Bought (name token) (SFdiv prec emax amt price)
                                  price sg) = true).
    { rewrite <- Hsm. unfold success_mail_builds, mail_passes, signature_encodable.
      rewrite Hs, Hr. reflexivity. }
    cbv zeta in Heq. rewrite Hp in Heq. rewrite Hg, Heq. cbn [fst snd].
    split; [reflexivity|]. eexists _, _, _.
    unfold extend, events_since. cbn [trace].
    rewrite <- app_assoc, drop_app_length, mails_app.
    destruct (mail_events_quiet w (smtp_reply env)
                (Bought (name token) (SFdiv prec emax amt price) price sg))
      as (_ & _ & _ & _ & _ & Q6).
    rewrite Q6, Hcfg. reflexivity.
Qed.

(** ** What a sale touches *)

(** X19: Whatever happens, [sell_token] leaves every other address and the
    tasks alone, adds no entry, and sends at most one order: a sell at
    the best ask for the amount it was given. *)
Theorem sell_token_touches_one_address env token p0 amt w :
  let w' := snd (sell_token env token p0 amt w) in
  tasks w' = tasks w
  /\ (forall a, a <> contract_address token ->
                open_positions w' !! a = open_positions w !! a)
  /\ (forall a pos, open_positions w' !! a = Some pos ->
                    open_positions w !! a = Some pos)
  /\ (length (submitted (events_since w w')) <= 1)%nat
  /\ (forall o, o ∈ submitted (events_since w w') ->
        exists q size,
          book_top env = Ret (Some (q, size))
          /\ ltb q (target_price p0) = false
          /\ side o = Sell /\ limit_price o = q /\ max_quantity o = amt).
Proof.
  intros w'. subst w'.
  destruct (sell_token_world env token p0 amt w) as (evs & -> & Hsub & _).
  rewrite events_since_mk. cbn [open_positions tasks].
  set (b := sell_goes_through env p0 && held w (contract_address token)).
  split; [reflexivity|]. split; [|split].
  - intros a Ha. destruct b; [|reflexivity].
    apply lookup_delete_ne. congruence.
  - intros a pos. destruct b; [|auto].
    intros H. apply lookup_delete_Some in H as [_ H]. exact H.
  - destruct Hsub as [[-> _]|(q & size & cid & Hb & Hlt & _ & ->)]; simpl.
    + split; [lia|]. intros o Ho. inversion Ho.
    + split; [lia|]. intros o Ho. apply list_elem_of_singleton in Ho. subst o.
      exists q, size. auto.
Qed.

(** X20: How one call of [sell_token] reports itself.  It opens at most
    one SMTP session.  Without credentials it opens none, never raises,
    and returns whether the sale went through with the entry there to
    delete.  When the book has no ask or the ask is below the target it
    returns [False] after one venue call, with no order, no ERROR
    record and no mail. *)
Theorem sell_token_notifies env token p0 amt w :
  let w' := snd (sell_token env token p0 amt w) in
  let r := fst (sell_token env token p0 amt w) in
  let evs := events_since w w' in
  (length (mails evs) <= 1)%nat
  /\ (email_configured w = false ->
      mails evs = []
      /\ r = Ret (sell_goes_through env p0 && held w (contract_address token)))
  /\ (book_top env = Ret None
      \/ (exists q size, book_top env = Ret (Some (q, size))
                         /\ ltb q (target_price p0) = true) ->
      r = Ret false
      /\ mails evs = []
      /\ errors_logged evs = O
      /\ venue_calls evs = 1%nat
      /\ submitted evs = []).
Proof.
  intros w' r evs. subst w' r evs.
  destruct (sell_token_world env token p0 amt w)
    as (evs & Hw & _ & _ & _ & _ & Hlen & Hnone & _).
  pose proof (sell_token_result env token p0 amt w) as Hres.
  split; [rewrite Hw, events_since_mk; exact Hlen|].
  split.
  { intros Hc. split; [rewrite Hw, events_since_mk; exact (Hnone Hc)|].
    destruct Hres as [->|(_ & _ & _ & Hc' & _)]; [|congruence].
    unfold success_mail_builds. rewrite Hc. cbn. rewrite andb_true_r. reflexivity. }
  clear Hw Hlen Hnone evs.
  intros [Hb|(q & size & Hb & Hlt)].
  - assert (Heq : sell_token env token p0 amt w
                  = (Ret false, extend w [LoadAsks; Log WARNING (NoAsks (name token))])).
    { rewrite sell_token_handled. unfold sell_token_body. unfold_monad. simpl.
      rewrite Hb. simpl. unfold extend. rewrite <- !app_assoc. reflexivity. }
    rewrite Heq. cbn [fst snd]. rewrite events_since_extend.
    repeat split; reflexivity.
  - rewrite (sell_token_below env token p0 amt w q size Hb Hlt).
    cbn [fst snd]. rewrite events_since_extend.
    repeat split; reflexivity.
Qed.
(** ** The lookups fail closed *)

(** X13: [check_rug_pull] makes one request and answers [True] only for a
    reply with status 200 whose body does not flag a rug pull; a raised
    exception, another status or an unreadable body give [False].  It
    never raises and touches neither the dictionary nor the venue. *)
Theorem check_rug_pull_fails_closed reply a w :
  let w' := snd (check_rug_pull reply a w) in
  (exists b : bool,
      fst (check_rug_pull reply a w) = Ret b
      /\ (b = true <->
          exists response, reply = Ret response
                           /\ status_code response = 200
                           /\ json response = Ret false))
  /\ open_positions w' = open_positions w
  /\ tasks w' = tasks w
  /\ http_calls (events_since w w') = 1%nat
  /\ venue_calls (events_since w w') = O.
Proof.
  intros w'. subst w'. unfold check_rug_pull. unfold_monad. simpl.
  destruct reply as [[status js]|e]; tidy_trace.
  - destruct (status =? 200) eqn:Hs; tidy_trace.
    + apply Z.eqb_eq in Hs. subst status.
      destruct js as [[]|e]; tidy_trace.
      * split; [|auto]. exists false. split; [reflexivity|].
        split; [discriminate|]. intros (r & [= <-] & _ & H). simpl in H. congruence.
      * split; [|auto]. exists true. split; [reflexivity|].
        split; [|reflexivity]. intros _. eexists. split; [reflexivity|]. auto.
      * split; [|auto]. exists false. split; [reflexivity|].
        split; [discriminate|]. intros (r & [= <-] & _ & H). simpl in H. congruence.
    + apply Z.eqb_neq in Hs.
      split; [|auto]. exists false. split; [reflexivity|].
      split; [discriminate|]. intros (r & [= <-] & H & _). simpl in H. congruence.
  - split; [|auto]. exists false. split; [reflexivity|].
    split; [discriminate|]. intros (r & [=] & _).
Qed.

(** X14: [check_social_media] makes one request and answers [True] only for
    a reply with status 200 whose body lists at least one account; a
    raised exception, another status, an unreadable body or an empty
    list give [False].  It never raises and touches neither the
    dictionary nor the venue. *)
Theorem check_social_media_fails_closed reply a w :
  let w' := snd (check_social_media reply a w) in
  (exists b : bool,
      fst (check_social_media reply a w) = Ret b
      /\ (b = true <->
          exists response account accounts,
            reply = Ret response
            /\ status_code response = 200
            /\ json response = Ret (account :: accounts)))
  /\ open_positions w' = open_positions w
  /\ tasks w' = tasks w
  /\ http_calls (events_since w w') = 1%nat
  /\ venue_calls (events_since w w') = O.
Proof.
  intros w'. subst w'. unfold check_social_media. unfold_monad. simpl.
  destruct reply as [[status js]|e]; tidy_trace.
  - destruct (status =? 200) eqn:Hs; tidy_trace.
    + apply Z.eqb_eq in Hs. subst status.
      destruct js as [[|account accounts]|e]; tidy_trace.
      * split; [|auto]. exists false. split; [reflexivity|].
        split; [discriminate|].
        intros (r & x & xs & [= <-] & _ & H). simpl in H. congruence.
      * split; [|auto]. exists true. split; [reflexivity|].
        split; [|reflexivity]. intros _. eexists _, account, accounts.
        split; [reflexivity|]. auto.
      * split; [|auto]. exists false. split; [reflexivity|].
        split; [discriminate|].
        intros (r & x & xs & [= <-] & _ & H). simpl in H. congruence.
    + apply Z.eqb_neq in Hs.
      split; [|auto]. exists false. split; [reflexivity|].
      split; [discriminate|].
      intros (r & x & xs & [= <-] & H & _). simpl in H. congruence.
  - split; [|auto]. exists false. split; [reflexivity|].
    split; [discriminate|]. intros (r & x & xs & [=] & _).
Qed.


(** ** Screening, as the loop runs it *)

(** X11: A token that fails one of the five checks costs no venue call and
    changes nothing.  The checks run in order and stop at the first
    failure: no HTTP request when the age, the market cap or the
    live-stream check fails; only the rug-pull request when that check
    fails; both requests when the social check fails. *)
Theorem screening_rejects_before_venue env token w :
  screening_passes env token = false ->
  let w' := snd (process_token env token w) in
  fst (process_token env token w) = Ret tt
  /\ open_positions w' = open_positions w
  /\ tasks w' = tasks w
  /\ venue_calls (events_since w w') = O
  /\ http_calls (events_since w w')
     = if local_checks_pass env token
       then if rug_ok (rug_reply env) then 2%nat else 1%nat
       else O.
Proof.
  intros Hs w'. subst w'.
  destruct (process_token_run env token w) as (evs & _ & H).
  rewrite Hs in H. destruct H as (-> & Hv & _ & _ & _ & Hh).
  cbn [fst snd]. rewrite events_since_extend. auto.
Qed.

Lemma screening_rejects_before_venue_witness :
  screening_passes Scenario.env_7h Scenario.token_live = false
  /\ events_since Sample.start
       (snd (process_token Scenario.env_7h Scenario.token_live Sample.start))
     = [Log INFO (SkipLiveStreams "ExampleToken3")]
  /\ http_calls (events_since Sample.start
                   (snd (process_token Scenario.env_7h Scenario.token_live
                           Sample.start)))
     = O.
Proof.
  assert (H : screening_passes Scenario.env_7h Scenario.token_live = false)
    by (vm_compute; reflexivity).
  split; [exact H|]. split; [vm_compute; reflexivity|].
  destruct (screening_rejects_before_venue Scenario.env_7h Scenario.token_live
              Sample.start H) as (_ & _ & _ & _ & Hh).
  rewrite Hh. vm_compute. reflexivity.
Defined.

(** X10: The loop body buys exactly when the token passes the five checks,
    its address has no entry and the purchase goes through; then the
    entry holds the bid price and [0.01 / price] and one order was sent.
    In every other case the dictionary is what it was.  One watcher is
    created for the token exactly when, in addition, the "Bought" mail
    is composed or skipped; no other task appears.  The only exception
    that can leave the loop body is the [UnicodeEncodeError] of a mail
    of [buy_token]'s [except] clause. *)
Theorem token_bought_iff env token w :
  let w' := snd (process_token env token w) in
  let bought := screening_passes env token
                && negb (held w (contract_address token))
                && buy_goes_through (buy_env env) in
  (if bought
   then exists price size,
          book_top (buy_env env) = Ret (Some (price, size))
          /\ open_positions w'
             = <[contract_address token :=
                   {| initial_price := price;
                      amount := SFdiv prec emax amount_sol price |}]>
                 (open_positions w)
          /\ length (submitted (events_since w w')) = 1%nat
   else open_positions w' = open_positions w)
  /\ tasks w'
     = (if bought && success_mail_builds w (buy_env env) token
        then tasks w ++ [Spawned token] else tasks w)
  /\ (fst (process_token env token w) = Ret tt
      \/ fst (process_token env token w) = Raise UnicodeEncodeError)
  /\ (failure_mail_builds w (buy_env env) token = true ->
      fst (process_token env token w) = Ret tt).
Proof.
  intros w' bought. subst w' bought.
  destruct (process_token_run env token w) as (evs & _ & H).
  destruct (screening_passes env token); cbn [andb];
    [|destruct H as (-> & _); auto].
  destruct H as (_ & H).
  destruct (held w (contract_address token)); cbn [andb negb];
    [destruct H as (-> & _); auto|].
  destruct H as (_ & _ & _ & Hw & Hres & Hsub).
  rewrite Hw, events_since_mk. cbn [open_positions tasks].
  split; [|split; [reflexivity|split]].
  - destruct (buy_goes_through (buy_env env)) eqn:Hg.
    + destruct Hsub as [[_ Hf]|(price & size & cid & Hb & _ & Hs)]; [discriminate|].
      exists price, size. rewrite Hb, Hs. auto.
    + destruct (book_top (buy_env env)) as [[[? ?]|]|]; reflexivity.
  - destruct Hres as [Hr|(Hr & _)]; auto.
  - intros Hf. destruct Hres as [Hr|(_ & _ & Hf' & _)]; [exact Hr|congruence].
Qed.

(** ** A discovery pass only adds *)

(** X9: One pass of [monitor_and_trade] never raises and ends in its one
    sleep of 600 seconds.  It deletes and changes no entry; every entry
    it adds is at the address of a token of the list.  The watchers it
    creates are for tokens of the list, one per address, each at an
    address that was free before the pass and has an entry after it.
    When every "Bought" mail can be composed or is skipped, the
    addresses added are exactly those of the new watchers. *)
Theorem discovery_pass_only_adds tokens smtp w :
  let w' := snd (monitor_and_trade_pass tokens smtp w) in
  fst (monitor_and_trade_pass tokens smtp w) = Ret tt
  /\ sleeps (events_since w w') = [600]
  /\ open_positions w ⊆ open_positions w'
  /\ (forall a, is_Some (open_positions w' !! a) ->
        is_Some (open_positions w !! a)
        \/ exists t, t ∈ (fst <$> tokens) /\ contract_address t = a)
  /\ exists new,
       tasks w' = tasks w ++ (Spawned <$> new)
       /\ NoDup (contract_address <$> new)
       /\ (forall t, t ∈ new ->
             t ∈ (fst <$> tokens)
             /\ open_positions w !! contract_address t = None
             /\ is_Some (open_positions w' !! contract_address t))
       /\ (Forall (notifiable w) tokens ->
           dom (open_positions w')
           = dom (open_positions w) ∪ list_to_set (contract_address <$> new)).
Proof.
  intros w'. subst w'.
  destruct (monitor_and_trade_pass_adds tokens smtp w)
    as (Hr & _ & Hz & Hsub & new & Hts & Hnd & Hnew & Hdom & Hall).
  cbv zeta in *.
  split; [exact Hr|]. split; [exact Hz|]. split; [exact Hsub|].
  split; [exact Hdom|]. exists new.
  split; [exact Hts|]. split; [exact Hnd|]. split; [|exact Hall].
  intros t Ht. destruct (Hnew t Ht) as (? & ? & ? & _). auto.
Qed.

(** ** One pass of the watcher *)

Lemma triggered_iff menv p0 :
  triggered menv p0 = true
  <-> exists q size, watch_top menv = Ret (Some (q, size))
                     /\ geb q (target_price p0) = true.
Proof.
  unfold triggered. split.
  - destruct (watch_top menv) as [[[q size]|]|e]; try discriminate. eauto.
  - intros (q & size & -> & H). exact H.
Qed.

(** X8: With the mails of the [except] clauses composed or skipped, a pass
    of the watcher's loop ends the watcher only after the ask it read
    was at or above the target and [sell_token] was called.  A book
    without an ask, an exception while reading it, or an ask below the
    target cost one venue call and one sleep of 300 seconds: no order,
    no change to the dictionary, and the watcher goes on. *)
Theorem monitor_pass_outcome menv token p0 amt w :
  watch_mail_builds w menv = true ->
  failure_mail_builds w (sell_env menv) token = true ->
  let w' := snd (monitor_price_pass menv token p0 amt w) in
  let evs := events_since w w' in
  (fst (monitor_price_pass menv token p0 amt w) = Ret Break
   /\ (exists q size, watch_top menv = Ret (Some (q, size))
                      /\ geb q (target_price p0) = true)
   /\ sleeps evs = []
   /\ (2 <= venue_calls evs)%nat
   /\ (length (submitted evs) <= 1)%nat)
  \/ (fst (monitor_price_pass menv token p0 amt w) = Ret Continue
      /\ ~ (exists q size, watch_top menv = Ret (Some (q, size))
                           /\ geb q (target_price p0) = true)
      /\ open_positions w' = open_positions w
      /\ tasks w' = tasks w
      /\ sleeps evs = [300]
      /\ venue_calls evs = 1%nat
      /\ submitted evs = []).
Proof.
  intros Hwm Hfm w' evs. subst w' evs.
  destruct (monitor_price_pass_cases menv token p0 amt w []) as (evs & _ & H).
  cbv zeta in H. rewrite extend_nil in H. cbn [app] in H.
  destruct H as [(Ht & _ & -> & Hs & Hz & Hv)
                |[(_ & Hm & _)
                 |[(Ht & -> & Hz & Hv & Ho)
                  |(_ & _ & _ & _ & _ & Hf & _)]]]; try congruence.
  - right. cbn [fst snd]. rewrite events_since_extend.
    split; [reflexivity|]. split; [|auto 10].
    intros H. apply triggered_iff in H. congruence.
  - left. cbn [fst snd]. rewrite events_since_mk.
    split; [reflexivity|]. split; [apply triggered_iff, Ht|].
    split; [exact Hz|]. split; [exact Hv|].
    destruct Ho as [[-> _]|(q & size & cid & _ & _ & _ & ->)]; simpl; lia.
Qed.

Lemma monitor_pass_outcome_witness :
  (watch_mail_builds Sample.holding_a Scenario.no_asks = true
   /\ failure_mail_builds Sample.holding_a (sell_env Scenario.no_asks)
        Sample.token_a = true)
  /\ monitor_price_pass Scenario.no_asks Sample.token_a Sample.price_001
       Sample.one Sample.holding_a
     = (Ret Continue,
        extend Sample.holding_a
          [LoadAsks; Log WARNING (NoAsksMonitor "ExampleToken3"); Sleep 300]).
Proof.
  assert (H1 : watch_mail_builds Sample.holding_a Scenario.no_asks = true)
    by reflexivity.
  assert (H2 : failure_mail_builds Sample.holding_a (sell_env Scenario.no_asks)
                 Sample.token_a = true) by reflexivity.
  split; [split; assumption|].
  destruct (monitor_pass_outcome Scenario.no_asks Sample.token_a Sample.price_001
              Sample.one Sample.holding_a H1 H2) as [(Hr & _)|(Hr & _)];
    [vm_compute in Hr; discriminate|].
  vm_compute. reflexivity.
Defined.

(** ** Closing a position *)

Lemma run_task_sale i menv k w :
  tasks w !! i = Some k ->
  task_backed w k ->
  triggered menv (initial_price (task_position w k)) = true ->
  sell_goes_through (sell_env menv) (initial_price (task_position w k)) = true ->
  failure_mail_builds w (sell_env menv) (task_token k) = true ->
  exists w' q size cid,
    run_task i menv w = Some w'
    /\ open_positions w' = delete (task_address k) (open_positions w)
    /\ tasks w' = delete i (tasks w)
    /\ book_top (sell_env menv) = Ret (Some (q, size))
    /\ submitted (events_since w w')
       = [{| side := Sell; limit_price := q;
             max_quantity := amount (task_position w k); client_id := cid |}].
Proof.
  intros Hi Hb Ht Hg Hf.
  destruct (run_task_run i menv k w Hi Hb) as (evs & _ & H). cbv zeta in H.
  rewrite Hg in H.
  destruct H as [(Hn & _)
                |[(Hn & _)
                 |[(_ & Hrun & _ & Hsub)
                  |(_ & _ & _ & _ & Hf' & _)]]]; try congruence.
  destruct Hsub as [[_ Hnil]|(q & size & cid & Hbk & _ & _ & Hs)]; [discriminate|].
  eexists _, q, size, cid. split; [exact Hrun|].
  cbn [open_positions tasks]. rewrite events_since_mk. auto.
Qed.

(** X6: A watcher whose entry is there reads an ask at or above its target,
    and the sell goes through, the mail of [sell_token]'s [except]
    clause being composed or skipped should it be needed: the run ends
    the task, deletes exactly its entry, and has sent one order, a sell
    of the whole amount the task works with at the ask [sell_token]
    read. *)
Theorem triggered_sale_closes_position i menv k w :
  tasks w !! i = Some k ->
  task_backed w k ->
  triggered menv (initial_price (task_position w k)) = true ->
  sell_goes_through (sell_env menv) (initial_price (task_position w k)) = true ->
  failure_mail_builds w (sell_env menv) (task_token k) = true ->
  exists w' q size cid,
    run_task i menv w = Some w'
    /\ open_positions w' = delete (task_address k) (open_positions w)
    /\ tasks w' = delete i (tasks w)
    /\ book_top (sell_env menv) = Ret (Some (q, size))
    /\ submitted (events_since w w')
       = [{| side := Sell; limit_price := q;
             max_quantity := amount (task_position w k); client_id := cid |}].
Proof. exact (run_task_sale i menv k w). Qed.

Lemma triggered_sale_closes_position_witness :
  (tasks Sample.holding_a !! 0%nat
     = Some (Watching Sample.token_a Sample.price_001 Sample.one)
   /\ triggered Scenario.sell_at_target Sample.price_001 = true
   /\ sell_goes_through (sell_env Scenario.sell_at_target) Sample.price_001 = true
   /\ failure_mail_builds Sample.holding_a (sell_env Scenario.sell_at_target)
        Sample.token_a = true)
  /\ exists w',
       run_task 0 Scenario.sell_at_target Sample.holding_a = Some w'
       /\ open_positions w'
          = delete (contract_address Sample.token_a)
                   (open_positions Sample.holding_a)
       /\ tasks w' = [].
Proof.
  assert (H1 : tasks Sample.holding_a !! 0%nat
               = Some (Watching Sample.token_a Sample.price_001 Sample.one))
    by reflexivity.
  assert (H2 : task_backed Sample.holding_a
                 (Watching Sample.token_a Sample.price_001 Sample.one))
    by (vm_compute; reflexivity).
  assert (H3 : triggered Scenario.sell_at_target Sample.price_001 = true)
    by (vm_compute; reflexivity).
  assert (H4 : sell_goes_through (sell_env Scenario.sell_at_target)
                 Sample.price_001 = true)
    by (vm_compute; reflexivity).
  assert (H5 : failure_mail_builds Sample.holding_a
                 (sell_env Scenario.sell_at_target) Sample.token_a = true)
    by reflexivity.
  split; [repeat split; assumption|].
  destruct (triggered_sale_closes_position 0 Scenario.sell_at_target _ _
              H1 H2 H3 H4 H5)
    as (w' & q & size & cid & Hrun & Ho & Ht & _).
  exists w'. split; [exact Hrun|]. split; [exact Ho|exact Ht].
Defined.

(** X7: A whole cycle, with the mails composed or skipped: the loop body
    buys a token whose address was free, then the watcher created for
    it sees the target and the sell goes through.  The dictionary and
    the tasks are back to what they were before the purchase, and two
    orders were sent: the buy, then a sell of exactly the quantity
    bought. *)
Theorem buy_then_sell_restores_ledger env menv token w price size :
  screening_passes env token = true ->
  held w (contract_address token) = false ->
  buy_goes_through (buy_env env) = true ->
  success_mail_builds w (buy_env env) token = true ->
  book_top (buy_env env) = Ret (Some (price, size)) ->
  triggered menv price = true ->
  sell_goes_through (sell_env menv) price = true ->
  failure_mail_builds w (sell_env menv) token = true ->
  let w1 := snd (process_token env token w) in
  exists w2 ob os,
    run_task (length (tasks w)) menv w1 = Some w2
    /\ open_positions w2 = open_positions w
    /\ tasks w2 = tasks w
    /\ submitted (events_since w w2) = [ob; os]
    /\ side ob = Buy /\ side os = Sell
    /\ max_quantity os = max_quantity ob.
Proof.
  intros Hs Hh Hg Hsm Hbk Ht Hsg Hfm w1. subst w1.
  destruct (process_token_run env token w) as (ev1 & _ & H).
  rewrite Hs, Hh, Hg, Hsm, Hbk in H. cbn [andb] in H.
  destruct H as (_ & _ & _ & _ & Heq & _ & Hsub1).
  destruct Hsub1 as [[_ Hf]|(p' & s' & cid & Hbk' & _ & Hsub1)]; [discriminate|].
  injection Hbk' as <- <-.
  rewrite Heq.
  set (pos := {| initial_price := price;
                 amount := SFdiv prec emax amount_sol price |}) in *.
  set (w1 := {| email_configured := email_configured w;
                open_positions := <[contract_address token := pos]> (open_positions w);
                tasks := tasks w ++ [Spawned token];
                trace := trace w ++ ev1 |}).
  assert (Hfree : open_positions w !! contract_address token = None)
    by (apply held_false_inv, Hh).
  assert (Hi : tasks w1 !! length (tasks w) = Some (Spawned token)).
  { unfold w1. cbn [tasks]. apply list_lookup_middle. reflexivity. }
  assert (Hlk : open_positions w1 !! contract_address token = Some pos).
  { unfold w1. cbn [open_positions]. apply lookup_insert_eq. }
  assert (Hb : task_backed w1 (Spawned token)).
  { cbn [task_backed]. rewrite Hlk. eauto. }
  assert (Hpos : task_position w1 (Spawned token) = pos).
  { cbn [task_position]. rewrite Hlk. reflexivity. }
  destruct (run_task_sale (length (tasks w)) menv (Spawned token) w1
              Hi Hb) as (w2 & q & sz & c2 & Hrun & Ho & Htk & _ & Hsub2).
  { rewrite Hpos. exact Ht. }
  { rewrite Hpos. exact Hsg. }
  { exact Hfm. }
  rewrite Hpos in Hsub2.
  eexists w2, _, _. split; [exact Hrun|].
  split.
  { rewrite Ho. unfold w1, task_address. cbn [open_positions task_token].
    apply delete_insert_id, Hfree. }
  split.
  { rewrite Htk. unfold w1. cbn [tasks].
    rewrite (delete_middle (tasks w) [] (Spawned token)). apply app_nil_r. }
  assert (Htr : exists ev2, trace w2 = trace w1 ++ ev2).
  { destruct (run_task_run (length (tasks w)) menv (Spawned token) w1 Hi Hb)
      as (evs & _ & H). cbv zeta in H. rewrite Hrun in H.
    destruct H as [(_ & _ & [= ->] & _)
                  |[(_ & _ & [= ->] & _)
                   |[(_ & [= ->] & _)
                    |(_ & [= ->] & _)]]]; exists evs; reflexivity. }
  destruct Htr as (ev2 & Htr).
  assert (Hev : events_since w w2 = ev1 ++ ev2).
  { unfold events_since. rewrite Htr. unfold w1. cbn [trace].
    rewrite <- app_assoc. apply drop_app_length. }
  assert (Hs2 : submitted ev2 = submitted (events_since w1 w2)).
  { unfold events_since. rewrite Htr, drop_app_length. reflexivity. }
  rewrite Hev, submitted_app, Hsub1, Hs2, Hsub2. cbn.
  split; [reflexivity|]. auto.
Qed.

Lemma buy_then_sell_restores_ledger_witness :
  (screening_passes Scenario.env_7h Sample.token_a = true
   /\ held Sample.start (contract_address Sample.token_a) = false
   /\ buy_goes_through (buy_env Scenario.env_7h) = true
   /\ success_mail_builds Sample.start (buy_env Scenario.env_7h) Sample.token_a = true
   /\ triggered Scenario.sell_at_target Sample.price_001 = true
   /\ sell_goes_through (sell_env Scenario.sell_at_target) Sample.price_001 = true
   /\ failure_mail_builds Sample.start (sell_env Scenario.sell_at_target)
        Sample.token_a = true)
  /\ exists w2,
       run_task 0 Scenario.sell_at_target
         (snd (process_token Scenario.env_7h Sample.token_a Sample.start)) = Some w2
       /\ open_positions w2 = ∅
       /\ tasks w2 = [].
Proof.
  assert (H1 : screening_passes Scenario.env_7h Sample.token_a = true)
    by (vm_compute; reflexivity).
  assert (H2 : held Sample.start (contract_address Sample.token_a) = false)
    by (vm_compute; reflexivity).
  assert (H3 : buy_goes_through (buy_env Scenario.env_7h) = true)
    by (vm_compute; reflexivity).
  assert (H3' : success_mail_builds Sample.start (buy_env Scenario.env_7h)
                  Sample.token_a = true)
    by (vm_compute; reflexivity).
  assert (H4 : triggered Scenario.sell_at_target Sample.price_001 = true)
    by (vm_compute; reflexivity).
  assert (H5 : sell_goes_through (sell_env Scenario.sell_at_target)
                 Sample.price_001 = true)
    by (vm_compute; reflexivity).
  assert (H6 : failure_mail_builds Sample.start (sell_env Scenario.sell_at_target)
                 Sample.token_a = true)
    by reflexivity.
  split; [repeat split; assumption|].
  destruct (buy_then_sell_restores_ledger Scenario.env_7h Scenario.sell_at_target
              Sample.token_a Sample.start Sample.price_001 Sample.one H1 H2 H3 H3'
              eq_refl H4 H5 H6)
    as (w2 & _ & _ & Hrun & Ho & Ht & _).
  exists w2. split; [exact Hrun|]. split; [exact Ho|exact Ht].
Defined.

(** ** What holds along every run of the bot *)

(** What a run of a task can do to the dictionary and the tasks. *)
Lemma run_task_shape i menv k w w' :
  tasks w !! i = Some k ->
  task_backed w k ->
  run_task i menv w = Some w' ->
  (open_positions w' = open_positions w
   \/ open_positions w' = delete (task_address k) (open_positions w))
  /\ (tasks w'
      = <[i := Watching (task_token k) (initial_price (task_position w k))
                 (amount (task_position w k))]> (tasks w)
      \/ tasks w' = delete i (tasks w)).
Proof.
  intros Hi Hb Hrun.
  destruct (run_task_run i menv k w Hi Hb) as (evs & _ & H). cbv zeta in H.
  rewrite Hrun in H.
  destruct H as [(_ & _ & [= ->] & _)
                |[(_ & _ & [= ->] & _)
                 |[(_ & [= ->] & _)
                  |(_ & [= ->] & _)]]]; cbn [set_tasks extend open_positions tasks];
    (split; [|auto]);
    try (left; reflexivity);
    destruct (sell_goes_through _ _); auto.
Qed.

(** X2: In a reachable state a task that starts finds its entry: the two
    dictionary reads before the loop of [monitor_price] do not raise
    [KeyError]. *)
Theorem monitor_start_never_raises w t :
  reachable w ->
  Spawned t ∈ tasks w ->
  exists pos,
    open_positions w !! contract_address t = Some pos
    /\ monitor_price_start t w
       = (Ret (initial_price pos, amount pos),
          extend w [Log INFO (Monitoring (name t) (initial_price pos))]).
Proof.
  intros Hr Hin. destruct (reachable_backed w Hr) as [_ Hb].
  destruct (Hb _ Hin) as [pos Hpos]. exists pos. split; [exact Hpos|].
  unfold monitor_price_start. rewrite Hpos. reflexivity.
Qed.

Lemma monitor_start_never_raises_witness :
  reachable Sample.after_buy
  /\ Spawned Sample.token_a ∈ tasks Sample.after_buy
  /\ exists pos,
       open_positions Sample.after_buy !! contract_address Sample.token_a = Some pos.
Proof.
  assert (H : reachable Sample.after_buy).
  { apply (reachable_step Sample.start); [apply reachable_initial|].
    apply step_discover. }
  assert (H2 : Spawned Sample.token_a ∈ tasks Sample.after_buy).
  { vm_compute. apply list_elem_of_here. }
  split; [exact H|]. split; [exact H2|].
  destruct (monitor_start_never_raises _ _ H H2) as (pos & Hpos & _).
  exists pos. exact Hpos.
Defined.

(** X5: In a reachable state, with the mail of [sell_token]'s [except]
    clause composed or skipped, a run of a watcher sends at most one
    order, and only if the run ends the watcher: a sell of the whole
    amount recorded for its address, at the ask [sell_token] read. *)
Theorem watcher_sells_recorded_amount w i menv k w' :
  reachable w ->
  tasks w !! i = Some k ->
  run_task i menv w = Some w' ->
  failure_mail_builds w (sell_env menv) (task_token k) = true ->
  exists pos,
    open_positions w !! task_address k = Some pos
    /\ (length (submitted (events_since w w')) <= 1)%nat
    /\ forall o, o ∈ submitted (events_since w w') ->
         side o = Sell
         /\ max_quantity o = amount pos
         /\ (exists size, book_top (sell_env menv) = Ret (Some (limit_price o, size)))
         /\ tasks w' = delete i (tasks w).
Proof.
  intros Hr Hi Hrun Hfm. destruct (reachable_backed w Hr) as [_ Hb].
  assert (Hk : task_backed w k) by (apply Hb; eapply list_elem_of_lookup_2, Hi).
  exists (task_position w k). split; [apply task_backed_position, Hk|].
  destruct (run_task_run i menv k w Hi Hk) as (evs & _ & H). cbv zeta in H.
  rewrite Hrun in H.
  destruct H as [(_ & _ & [= ->] & Hs & _)
                |[(_ & _ & [= ->] & Hs & _)
                 |[(_ & [= ->] & _ & Hsub)
                  |(_ & _ & _ & _ & Hf & _)]]]; try congruence.
  - unfold events_since, set_tasks, extend. cbn [trace].
    rewrite drop_app_length, Hs.
    split; [simpl; lia|]. intros o Ho. inversion Ho.
  - unfold events_since, set_tasks, extend. cbn [trace].
    rewrite drop_app_length, Hs.
    split; [simpl; lia|]. intros o Ho. inversion Ho.
  - rewrite events_since_mk.
    destruct Hsub as [[-> _]|(q & size & cid & Hbk & _ & _ & ->)].
    + split; [simpl; lia|]. intros o Ho. inversion Ho.
    + split; [simpl; lia|]. intros o Ho.
      apply list_elem_of_singleton in Ho. subst o. cbn. eauto.
Qed.

Lemma watcher_sells_recorded_amount_witness :
  reachable Sample.after_buy
  /\ tasks Sample.after_buy !! 0%nat = Some (Spawned Sample.token_a)
  /\ failure_mail_builds Sample.after_buy (sell_env Scenario.sell_at_target)
       Sample.token_a = true
  /\ exists w' pos,
       run_task 0 Scenario.sell_at_target Sample.after_buy = Some w'
       /\ open_positions Sample.after_buy !! contract_address Sample.token_a
          = Some pos
       /\ (length (submitted (events_since Sample.after_buy w')) <= 1)%nat.
Proof.
  assert (H : reachable Sample.after_buy).
  { apply (reachable_step Sample.start); [apply reachable_initial|].
    apply step_discover. }
  assert (H2 : tasks Sample.after_buy !! 0%nat = Some (Spawned Sample.token_a))
    by (vm_compute; reflexivity).
  assert (H3 : failure_mail_builds Sample.after_buy
                 (sell_env Scenario.sell_at_target) Sample.token_a = true)
    by (vm_compute; reflexivity).
  split; [exact H|]. split; [exact H2|]. split; [exact H3|].
  destruct (run_task 0 Scenario.sell_at_target Sample.after_buy) as [w'|] eqn:Hrun;
    [|vm_compute in Hrun; discriminate].
  destruct (watcher_sells_recorded_amount _ _ _ _ _ H H2 Hrun H3)
    as (pos & Hp & Hl & _).
  exists w', pos. auto.
Defined.

(** X3: In a reachable state no step rewrites an entry: after a discovery
    pass or a run of a watcher, the entry of an address is what it was
    or is gone.  ([buy_token] alone would overwrite it; the loop never
    calls it for a held address.) *)
Theorem open_position_never_rewritten w w' a pos :
  reachable w ->
  step w w' ->
  open_positions w !! a = Some pos ->
  open_positions w' !! a = Some pos \/ open_positions w' !! a = None.
Proof.
  intros Hr Hstep Hpos. destruct Hstep as [tokens smtp w|i menv w w1 Hrun].
  - left. destruct (monitor_and_trade_pass_adds tokens smtp w) as (_ & _ & _ & Hsub & _).
    eapply lookup_weaken; eassumption.
  - destruct (tasks w !! i) as [k|] eqn:Hi;
      [|unfold run_task in Hrun; rewrite Hi in Hrun; discriminate].
    assert (Hin : k ∈ tasks w) by (eapply list_elem_of_lookup_2, Hi).
    destruct (reachable_backed w Hr) as [_ Hb].
    destruct (run_task_shape i menv k w w1 Hi (Hb k Hin) Hrun) as [[->| ->] _].
    + left. exact Hpos.
    + destruct (decide (task_address k = a)) as [<-|Hne].
      * right. apply lookup_delete_eq.
      * left. rewrite lookup_delete_ne by exact Hne. exact Hpos.
Qed.

Lemma open_position_never_rewritten_witness :
  let a := contract_address Sample.token_a in
  let pos := {| initial_price := Sample.price_001;
                amount := SFdiv prec emax amount_sol Sample.price_001 |} in
  let w' := snd (monitor_and_trade_pass Sample.thrice (Ret tt) Sample.after_buy) in
  (reachable Sample.after_buy
   /\ step Sample.after_buy w'
   /\ open_positions Sample.after_buy !! a = Some pos)
  /\ (open_positions w' !! a = Some pos \/ open_positions w' !! a = None).
Proof.
  intros a pos w'.
  assert (H1 : reachable Sample.after_buy).
  { apply (reachable_step Sample.start); [apply reachable_initial|].
    apply step_discover. }
  assert (H2 : step Sample.after_buy w') by apply step_discover.
  assert (H3 : open_positions Sample.after_buy !! a = Some pos)
    by (vm_compute; reflexivity).
  split; [repeat split; assumption|].
  exact (open_position_never_rewritten _ _ _ _ H1 H2 H3).
Defined.

(** X4: A position without a watcher is there for good: from a reachable
    state in which an address has an entry and no task, every further
    run keeps that entry as it is and never gives it a task.  It is
    never sold, and the entry keeps the loop from buying the address
    again. *)
Theorem orphaned_position_stays w w' a pos :
  reachable w ->
  open_positions w !! a = Some pos ->
  (forall k, k ∈ tasks w -> task_address k <> a) ->
  rtc step w w' ->
  open_positions w' !! a = Some pos
  /\ (forall k, k ∈ tasks w' -> task_address k <> a).
Proof.
  intros Hr Hpos Hno Hsteps. revert Hr Hpos Hno.
  induction Hsteps as [w|w w1 w2 Hstep _ IH]; intros Hr Hpos Hno; [auto|].
  assert (Hr1 : reachable w1) by (eapply reachable_step; eassumption).
  apply IH; [exact Hr1| |]; destruct Hstep as [tokens smtp w|i menv w w1 Hrun].
  - destruct (monitor_and_trade_pass_adds tokens smtp w) as (_ & _ & _ & Hsub & _).
    eapply lookup_weaken; eassumption.
  - destruct (tasks w !! i) as [k|] eqn:Hi;
      [|unfold run_task in Hrun; rewrite Hi in Hrun; discriminate].
    assert (Hin : k ∈ tasks w) by (eapply list_elem_of_lookup_2, Hi).
    destruct (reachable_backed w Hr) as [_ Hb].
    destruct (run_task_shape i menv k w w1 Hi (Hb k Hin) Hrun) as [[->| ->] _].
    + exact Hpos.
    + rewrite lookup_delete_ne; [exact Hpos|]. apply Hno, Hin.
  - destruct (monitor_and_trade_pass_adds tokens smtp w)
      as (_ & _ & _ & _ & new & -> & _ & Hnew & _).
    intros k Hk. apply elem_of_app in Hk as [Hk|Hk]; [apply Hno, Hk|].
    apply list_elem_of_fmap in Hk as (t & -> & Ht).
    destruct (Hnew t Ht) as (_ & Hfree & _). unfold task_address. cbn [task_token].
    intros <-. congruence.
  - destruct (tasks w !! i) as [k|] eqn:Hi;
      [|unfold run_task in Hrun; rewrite Hi in Hrun; discriminate].
    assert (Hin : k ∈ tasks w) by (eapply list_elem_of_lookup_2, Hi).
    destruct (reachable_backed w Hr) as [_ Hb].
    destruct (run_task_shape i menv k w w1 Hi (Hb k Hin) Hrun) as [_ [->| ->]].
    + intros k' Hk'.
      apply list_elem_of_lookup_1 in Hk' as [j Hj].
      apply list_lookup_insert_Some in Hj as [(_ & <- & _)|(_ & Hj)].
      * unfold task_address. cbn [task_token]. apply (Hno k Hin).
      * apply Hno. eapply list_elem_of_lookup_2, Hj.
    + intros k' Hk'. apply Hno.
      eapply list_elem_of_delete_inv, Hk'.
Qed.

Lemma orphaned_position_stays_witness :
  let a := contract_address Sample.token_a in
  let pos := {| initial_price := Sample.price_001; amount := Sample.one |} in
  let w' := snd (monitor_and_trade_pass Sample.thrice (Ret tt) Scenario.orphaned) in
  (reachable Scenario.orphaned
   /\ open_positions Scenario.orphaned !! a = Some pos
   /\ (forall k, k ∈ tasks Scenario.orphaned -> task_address k <> a)
   /\ rtc step Scenario.orphaned w')
  /\ open_positions w' !! a = Some pos
  /\ (forall k, k ∈ tasks w' -> task_address k <> a).
Proof.
  intros a pos w'.
  assert (H1 : reachable Scenario.orphaned).
  { apply (reachable_step Sample.after_buy).
    - apply (reachable_step Sample.start); [apply reachable_initial|].
      apply step_discover.
    - apply (step_watch 0 (Sample.watch Sample.price_005
                             (Sample.venue_down Sample.price_005))).
      vm_compute. reflexivity. }
  assert (H2 : open_positions Scenario.orphaned !! a = Some pos)
    by (vm_compute; reflexivity).
  assert (H3 : forall k, k ∈ tasks Scenario.orphaned -> task_address k <> a).
  { intros k Hk. vm_compute in Hk. inversion Hk. }
  assert (H4 : rtc step Scenario.orphaned w').
  { apply rtc_once. apply step_discover. }
  split; [repeat split; assumption|].
  exact (orphaned_position_stays _ _ _ _ H1 H2 H3 H4).
Defined.
(** ** Ages and targets that are not in doubt *)

Transparent of_int truediv time_since_launch target_price mul.

Lemma binary_round_aux_sign (sx : bool) (mx ex : Z) (lx : location) :
  0 <= mx ->
  match binary_round_aux prec emax sx mx ex lx with
  | S754_zero s | S754_infinity s | S754_finite s _ _ => s = sx
  | S754_nan => False
  end.
Proof.
  intros H. unfold binary_round_aux.
  pose proof (shr_fexp_nonneg mx ex lx H) as H1.
  destruct (shr_fexp prec emax mx ex lx) as [mrs' e']. simpl in H1.
  pose proof (shr_fexp_nonneg _ e' loc_Exact
                (round_nearest_even_nonneg _ (loc_of_shr_record mrs') H1)) as H2.
  destruct (shr_fexp prec emax
              (round_nearest_even (shr_m mrs') (loc_of_shr_record mrs')) e' loc_Exact)
    as [mrs'' e'']. simpl in H2.
  destruct (shr_m mrs'') as [|m|m]; [reflexivity| |lia].
  destruct (e'' <=? emax - prec); reflexivity.
Qed.

(** The quotient of two finite floats has the sign of the signs. *)
Lemma SFdiv_finite_sign (sx sy : bool) (mx my : positive) (ex ey : Z) :
  match SFdiv prec emax (S754_finite sx mx ex) (S754_finite sy my ey) with
  | S754_zero s | S754_infinity s | S754_finite s _ _ => s = xorb sx sy
  | S754_nan => False
  end.
Proof.
  unfold SFdiv, SFdiv_core_binary.
  set (s := ex - ey - _).
  set (m' := match s with Z.pos _ => Z.shiftl (Z.pos mx) s | 0 => Z.pos mx | Z.neg _ => 0 end).
  assert (Hm : 0 <= m').
  { subst m'. destruct s; [lia| |lia]. apply Z.shiftl_nonneg. lia. }
  pose proof (Z.div_pos m' (Z.pos my) Hm ltac:(lia)) as Hq.
  unfold Z.div in Hq.
  destruct (Z.div_eucl m' (Z.pos my)) as [q r]. simpl in Hq.
  apply binary_round_aux_sign. exact Hq.
Qed.


Lemma time_since_launch_not_positive (t launch : Z) :
  t <= launch ->
  exists age, time_since_launch t launch = Ret age /\ not_positive age.
Proof.
  intros Hle. unfold time_since_launch, int_truediv, truediv.
  change (10 ^ 6 =? 0) with false. cbv iota.
  change (eqb (of_int 3600) (S754_zero false)) with false. cbv iota.
  let v := eval vm_compute in (of_int 3600) in change (of_int 3600) with v.
  let v := eval vm_compute in (raw_int (10 ^ 6)) in change (raw_int (10 ^ 6)) with v.
  eexists. split; [reflexivity|].
  destruct (t - launch) as [|p|p] eqn:Hd; [exact I|lia|]. cbn [raw_int].
  pose proof (SFdiv_finite_sign true false p 1000000 0 0) as H1.
  destruct (SFdiv prec emax (S754_finite true p 0) (S754_finite false 1000000 0))
    as [s|s| |s m e]; try exact I; try contradiction.
  - subst s. exact I.
  - subst s. change (xorb true false) with true.
    match goal with
    | |- not_positive (SFdiv prec emax (S754_finite true m e) (S754_finite false ?my ?ey)) =>
        pose proof (SFdiv_finite_sign true false m my e ey) as H2;
        destruct (SFdiv prec emax (S754_finite true m e) (S754_finite false my ey))
          as [s|s| |s m2 e2]; try exact I; try contradiction; subst s; exact I
    end.
Qed.

Lemma not_positive_below_five (x : float) :
  not_positive x -> ltb x (of_int 5) = true.
Proof.
  let v := eval vm_compute in (of_int 5) in change (of_int 5) with v.
  destruct x as [s|[]| |[] m e]; simpl; intros H; try contradiction; reflexivity.
Qed.

Opaque of_int truediv time_since_launch target_price mul.

(** X12: A token whose launch time is not before the clock has an age that
    is zero or negative, never NaN, and is skipped at the first check
    like any token younger than five hours. *)
Theorem future_launch_rejected env token w :
  now env <= launch_time token ->
  exists age,
    time_since_launch (now env) (launch_time token) = Ret age
    /\ is_nan age = false
    /\ ltb age (of_int 5) = true
    /\ process_token env token w
       = (Ret tt, extend w [Log INFO (SkipLaunchTime (name token) age)]).
Proof.
  intros Hle.
  destruct (time_since_launch_not_positive _ _ Hle) as (age & Hage & Hnp).
  exists age. split; [exact Hage|].
  split; [destruct age as [|[]| |[]]; try reflexivity; contradiction|].
  pose proof (not_positive_below_five age Hnp) as Hlt.
  split; [exact Hlt|].
  unfold process_token. unfold_monad. simpl. rewrite Hage. simpl.
  rewrite (ltb_true_leb_false _ _ Hlt). reflexivity.
Qed.

Lemma future_launch_rejected_witness :
  now Scenario.env_7h <= launch_time Scenario.token_future
  /\ exists age,
       process_token Scenario.env_7h Scenario.token_future Sample.start
       = (Ret tt, extend Sample.start [Log INFO (SkipLaunchTime "NotYet" age)]).
Proof.
  assert (H : now Scenario.env_7h <= launch_time Scenario.token_future)
    by (vm_compute; discriminate).
  split; [exact H|].
  destruct (future_launch_rejected Scenario.env_7h Scenario.token_future
              Sample.start H)
    as (age & _ & _ & _ & Hp).
  exists age. exact Hp.
Defined.

(** ** An ask that is not a number *)

(** X21: [sell_token] turns back only when the ask is [<] the target, the
    watcher goes on only when it is [>=]: for an ask that is NaN both
    tests are false.  The watcher never triggers on it, but
    [sell_token] called with it builds and sends the order. *)
Theorem nan_ask_passes_sell_guard env menv token p0 amt w size cid :
  book_top env = Ret (Some (S754_nan, size)) ->
  watch_top menv = Ret (Some (S754_nan, size)) ->
  py_int (clock env) = Ret cid ->
  make_order_fails env = None ->
  submitted (events_since w (snd (sell_token env token p0 amt w)))
  = [{| side := Sell; limit_price := S754_nan;
        max_quantity := amt; client_id := cid |}]
  /\ fst (monitor_price_pass menv token p0 amt w) = Ret Continue.
Proof.
  intros Hb Hw Hc Hm. split.
  - assert (Hlt : ltb S754_nan (target_price p0) = false) by reflexivity.
    apply (sell_token_submitted_order env token p0 amt w _ size cid Hb Hlt Hc Hm).
  - rewrite monitor_price_pass_run, Hw.
    assert (Hge : geb S754_nan (target_price p0) = false).
    { unfold geb, SFleb. destruct (target_price p0); reflexivity. }
    rewrite Hge. reflexivity.
Qed.

Lemma nan_ask_passes_sell_guard_witness :
  book_top Scenario.nan_ask = Ret (Some (S754_nan, Sample.one))
  /\ length (submitted
               (events_since Sample.holding_a
                  (snd (sell_token Scenario.nan_ask Sample.token_a Sample.price_001
                          Sample.one Sample.holding_a)))) = 1%nat.
Proof.
  split; [reflexivity|].
  assert (Hc : py_int (clock Scenario.nan_ask) = Ret 1000)
    by (vm_compute; reflexivity).
  destruct (nan_ask_passes_sell_guard Scenario.nan_ask
              (Sample.watch S754_nan Scenario.nan_ask) Sample.token_a
              Sample.price_001 Sample.one Sample.holding_a Sample.one 1000
              eq_refl eq_refl Hc eq_refl)
    as [Hs _].
  rewrite Hs. reflexivity.
Defined.

(** ** The mail itself *)

